(** * puntrms: order settlement, loan ledger and report aggregation

    A shallow embedding of the core of [App.tsx] (the restaurant
    management screen): the order-id allocator, the report aggregator with
    its ISO-week bucketing, the CSV/print totals, and the settlement
    handlers that write order status and loan entries to the realtime
    database; then sign-in and sessions, staff and menu management, the
    order form, the order list and the dashboard charts.

    Conventions.
    - A JavaScript number that holds a day number, a time value or the
      numeric suffix of an order id is an integer [Z]; doubles are exact
      on integers up to 2^53, the rounding beyond is written out where a
      value can get there ([toDouble]), and the representable range of
      [Date] (8.64e15 ms around the epoch) is not cut off.  Money,
      quantities and the counters of a report are kept abstract (class
      [JsNumber]): nothing is assumed about [+] and [*] on them.
    - A JavaScript string is a [string]; every string the modelled code
      compares or builds is ASCII, where the order on UTF-16 code units is
      the byte order of [String.compare].  Text that a user types may
      leave ASCII and is then held as its UTF-8 bytes (module [Text]).
    - A value that may be [undefined] is an [option].
    - A write to the realtime database settles as the environment decides
      ([WriteResult]).  For a loan entry the check that [set] and [update]
      make before they send anything is modelled too: a call whose value
      fails it throws ([Completion]).
    - An object that the code uses as a map is a finite map or a list of
      entries; where the code reads [name] off the result of a lookup, the
      properties that a plain object inherits are looked up as well
      ([JS.inheritedName]).
    - The database is the maps of the nodes under [rms/orders],
      [rms/loanCustomers], [rms/users] and [rms/items]: the ids that the
      code puts into a path are taken to be keys of the database
      ([Settlement.validKey]), on which [ref] does not throw and which
      name one node.
    - The local time zone is a fixed offset [tz] (milliseconds east of
      UTC); [Date] parsing is a parameter [parseDate]. *)

From Stdlib Require Import ZArith String Ascii List Lia Bool DecimalString.
From Stdlib Require DecimalPos.
From Stdlib Require Import Sorting.Sorted Sorting.Permutation.
From stdpp Require Import gmap strings list.

Open Scope Z_scope.

(** ** JavaScript primitives *)

Module JS.

(** [String(n)] for an integer-valued number. *)
Definition String_ (z : Z) : string := NilZero.string_of_int (Z.to_int z).

Fixpoint repeat_char (c : ascii) (n : nat) : string :=
  match n with
  | O => EmptyString
  | S k => String c (repeat_char c k)
  end.

(** [s.padStart(width, c)] for a one-character filler. *)
Definition padStart (width : nat) (c : ascii) (s : string) : string :=
  String.append (repeat_char c (width - String.length s)) s.

(** [a > b] on strings. *)
Definition str_gt (a b : string) : bool :=
  match String.compare a b with Gt => true | _ => false end.

(** [Math.ceil(a / b)] for integers [a] and positive [b]. *)
Definition ceil_div (a b : Z) : Z := - ((- a) / b).

(** The methods of [Object.prototype] other than [constructor]: each is a
    function whose [name] is its own key. *)
Definition prototypeMethods : list string :=
  ["__defineGetter__"; "__defineSetter__"; "__lookupGetter__"; "__lookupSetter__";
   "hasOwnProperty"; "isPrototypeOf"; "propertyIsEnumerable"; "toLocaleString";
   "toString"; "valueOf"]%string.

(** [obj[key]?.name] for a plain object [obj] that has no property [key]
    of its own: the lookup goes on to [Object.prototype].  There
    [constructor] is the function [Object], the methods are named after
    their keys, and [__proto__] gives [Object.prototype] itself, which has
    no [name]; any other key gives [undefined]. *)
Definition inheritedName (key : string) : option string :=
  if String.eqb key "constructor" then Some "Object"%string
  else if existsb (String.eqb key) prototypeMethods then Some key
  else None.

End JS.

(** ** Time values and the civil calendar (ECMA-262, Date objects) *)

Module DateModel.

Definition msPerDay : Z := 86400000.

Definition Day (t : Z) : Z := t / msPerDay.
Definition TimeWithinDay (t : Z) : Z := t mod msPerDay.

Definition isLeap (y : Z) : bool :=
  (y mod 4 =? 0) && (negb (y mod 100 =? 0) || (y mod 400 =? 0)).

Definition DaysInYear (y : Z) : Z := if isLeap y then 366 else 365.

Definition DayFromYear (y : Z) : Z :=
  365 * (y - 1970) + (y - 1969) / 4 - (y - 1901) / 100 + (y - 1601) / 400.

(** The year that contains day number [d]: the largest [y] with
    [DayFromYear y <= d] (lemma [YearFromDay_bounds]), computed by
    counting 400-, 100-, 4- and 1-year cycles from 1601-01-01. *)
Definition YearFromDay (d : Z) : Z :=
  let n := d + 134774 in
  let q400 := n / 146097 in
  let r400 := n mod 146097 in
  let c := Z.min (r400 / 36524) 3 in
  let r100 := r400 - c * 36524 in
  let q4 := r100 / 1461 in
  let r4 := r100 mod 1461 in
  let y1 := Z.min (r4 / 365) 3 in
  1601 + 400 * q400 + 100 * c + 4 * q4 + y1.

Definition YearFromTime (t : Z) : Z := YearFromDay (Day t).
Definition InLeapYear (t : Z) : bool := isLeap (YearFromTime t).
Definition DayWithinYear (t : Z) : Z := Day t - DayFromYear (YearFromTime t).

(** First day (within the year) of month [m], 0 = January. *)
Definition monthStart (leap : bool) (m : Z) : Z :=
  let l := if leap then 1 else 0 in
  if m <=? 0 then 0
  else if m =? 1 then 31
  else if m =? 2 then 59 + l
  else if m =? 3 then 90 + l
  else if m =? 4 then 120 + l
  else if m =? 5 then 151 + l
  else if m =? 6 then 181 + l
  else if m =? 7 then 212 + l
  else if m =? 8 then 243 + l
  else if m =? 9 then 273 + l
  else if m =? 10 then 304 + l
  else 334 + l.

Definition monthOfYearDay (leap : bool) (dy : Z) : Z :=
  let l := if leap then 1 else 0 in
  if dy <? 31 then 0
  else if dy <? 59 + l then 1
  else if dy <? 90 + l then 2
  else if dy <? 120 + l then 3
  else if dy <? 151 + l then 4
  else if dy <? 181 + l then 5
  else if dy <? 212 + l then 6
  else if dy <? 243 + l then 7
  else if dy <? 273 + l then 8
  else if dy <? 304 + l then 9
  else if dy <? 334 + l then 10
  else 11.

Definition MonthFromTime (t : Z) : Z :=
  monthOfYearDay (InLeapYear t) (DayWithinYear t).

Definition DateFromTime (t : Z) : Z :=
  DayWithinYear t - monthStart (InLeapYear t) (MonthFromTime t) + 1.

Definition WeekDay (t : Z) : Z := (Day t + 4) mod 7.

(** [MakeDay(year, month, date)]: the day number of the given civil date;
    months outside 0..11 carry into the year. *)
Definition MakeDay (year month date : Z) : Z :=
  let ym := year + month / 12 in
  let mn := month mod 12 in
  DayFromYear ym + monthStart (isLeap ym) mn + date - 1.

Definition MakeDate (day time : Z) : Z := day * msPerDay + time.

(** [Date.UTC(year, month, date)]: a year in 0..99 means 1900 + year. *)
Definition Date_UTC (year month date : Z) : Z :=
  let yr := if (0 <=? year) && (year <=? 99) then 1900 + year else year in
  MakeDate (MakeDay yr month date) 0.

Section Local.

(** Offset of local time from UTC, in milliseconds. *)
Variable tz : Z.

Definition LocalTime (t : Z) : Z := t + tz.
Definition UTC (t : Z) : Z := t - tz.

Definition getFullYear (t : Z) : Z := YearFromTime (LocalTime t).
Definition getMonth (t : Z) : Z := MonthFromTime (LocalTime t).
Definition getDate (t : Z) : Z := DateFromTime (LocalTime t).

Definition getUTCFullYear (t : Z) : Z := YearFromTime t.
Definition getUTCMonth (t : Z) : Z := MonthFromTime t.
Definition getUTCDate (t : Z) : Z := DateFromTime t.
Definition getUTCDay (t : Z) : Z := WeekDay t.

(** [date.setUTCDate(dt)] *)
Definition setUTCDate (t dt : Z) : Z :=
  MakeDate (MakeDay (YearFromTime t) (MonthFromTime t) dt) (TimeWithinDay t).

(** [date.setHours(23, 59, 59, 999)]: the last millisecond of the local
    day that contains [t]. *)
Definition setHours_endOfDay (t : Z) : Z :=
  let lt := LocalTime t in
  UTC (MakeDate (Day lt) (((23 * 60 + 59) * 60 + 59) * 1000 + 999)).

(** [getWeekId] of App.tsx. *)
Definition getWeekId (d : Z) : string :=
  let date0 := Date_UTC (getFullYear d) (getMonth d) (getDate d) in
  let dayNum := if getUTCDay date0 =? 0 then 7 else getUTCDay date0 in
  let date := setUTCDate date0 (getUTCDate date0 + 4 - dayNum) in
  let yearStart := Date_UTC (getUTCFullYear date) 0 1 in
  let weekNo := JS.ceil_div ((date - yearStart) / 86400000 + 1) 7 in
  (JS.String_ (getUTCFullYear date) ++ "-W" ++ JS.String_ weekNo)%string.

End Local.

Definition HourFromTime (t : Z) : Z := (t / 3600000) mod 24.
Definition MinFromTime (t : Z) : Z := (t / 60000) mod 60.
Definition SecFromTime (t : Z) : Z := (t / 1000) mod 60.
Definition msFromTime (t : Z) : Z := t mod 1000.

Definition pad (w : nat) (n : Z) : string := JS.padStart w "0" (JS.String_ n).

(** The year of an ISO string: four digits for 0..9999, otherwise a sign
    and six digits. *)
Definition isoYearString (y : Z) : string :=
  if (0 <=? y) && (y <=? 9999) then pad 4 y
  else String.append (if (y <? 0)%Z then "-"%string else "+"%string)
                     (pad 6 (Z.abs y)).

(** [date.toISOString()] *)
Definition toISOString (t : Z) : string :=
  (isoYearString (YearFromTime t) ++ "-" ++ pad 2 (MonthFromTime t + 1)
   ++ "-" ++ pad 2 (DateFromTime t)
   ++ "T" ++ pad 2 (HourFromTime t) ++ ":" ++ pad 2 (MinFromTime t)
   ++ ":" ++ pad 2 (SecFromTime t) ++ "." ++ pad 3 (msFromTime t) ++ "Z")%string.

(** *** ISO-8601 week numbering, as the standard words it

    Weeks start on Monday; a week belongs to the year that contains its
    Thursday; week 1 is the week of the year's first Thursday. *)

(** 1 = Monday .. 7 = Sunday; day number 0 (1970-01-01) is a Thursday. *)
Definition isoWeekday (n : Z) : Z := (n + 3) mod 7 + 1.

(** The Thursday of the Monday-to-Sunday week that contains day [n]. *)
Definition thursdayOf (n : Z) : Z := n - isoWeekday n + 4.

Definition isoYear (n : Z) : Z := YearFromDay (thursdayOf n).

(** The first Thursday on or after January 1 of year [y]. *)
Definition firstThursday (y : Z) : Z :=
  let j := DayFromYear y in j + (4 - isoWeekday j) mod 7.

Definition isoWeek (n : Z) : Z :=
  (thursdayOf n - firstThursday (isoYear n)) / 7 + 1.

Definition isoWeekId (n : Z) : string :=
  (JS.String_ (isoYear n) ++ "-W" ++ JS.String_ (isoWeek n))%string.

End DateModel.

(** ** Data model (the type declarations of App.tsx) *)

Module Model.

(** JavaScript numbers that carry money or quantities.  [n_toString] is
    [String(x)] (what [Array.prototype.join] and JSX print), [n_toFixed2]
    is [x.toFixed(2)], [n_gt0] is [x > 0], [n_isFinite] is
    [Number.isFinite(x)]. *)
Class JsNumber (num : Type) : Type := {
  n_zero : num;
  n_one : num;
  n_add : num -> num -> num;
  n_mul : num -> num -> num;
  n_gt0 : num -> bool;
  n_isFinite : num -> bool;
  n_toString : num -> string;
  n_toFixed2 : num -> string }.

Inductive Role := admin | waiter | collector.

Inductive Status := Paid | Loan | Pending.

Definition Status_eqb (a b : Status) : bool :=
  match a, b with
  | Paid, Paid | Loan, Loan | Pending, Pending => true
  | _, _ => false
  end.

(** A user as the users listener builds it: the id and the role are
    always there, the other fields are those of the node. *)
Record User := {
  u_id : string;
  u_dbId : option string;
  u_name : option string;
  u_role : Role;
  u_phone : option string;
  u_pin : option string }.

Inductive BannerType := success | error.

Record Banner := { b_type : BannerType; b_message : string }.

Inductive ReportTab := daily | weekly | monthly | yearly.

Inductive ReportStatus := all | only_paid | only_loan.

Section Types.

Context {num : Type}.

Record Item := {
  item_id : string;
  item_name : string;
  item_price : num;
  item_stock : option num }.

Record OrderItem := { itemId : string; qty : num }.

Record Order := {
  o_id : string;
  o_waiterId : option string;
  o_time : option string;
  o_items : list OrderItem;
  o_status : option Status;
  o_collector : option string }.

Record ReportStats := {
  ordersCount : num;
  itemsCount : num;
  sales : num;
  paid : num;
  loan : num;
  pending : num }.

(** [ReportStats & { label: string }] *)
Record ReportRow := { label : string; stats : ReportStats }.

Record LoanEntry := {
  le_id : string;
  le_orderId : string;
  le_amount : num;
  le_date : option string;
  le_servedBy : option string }.

Record LoanCustomer := {
  c_id : string;
  c_dbId : option string;
  c_name : option string;
  c_phone : option string;
  c_loans : option (gmap string LoanEntry) }.

(** The [useState] cells of [App] that the modelled code reads or writes. *)
Record App := {
  users : list User;
  items : list Item;
  orders : list Order;
  loanCustomers : list LoanCustomer;
  currentUser : option User;
  banner : option Banner;
  draftWaiter : string;
  draftQty : list (string * num);
  showOrderModal : bool;
  reportTab : ReportTab;
  reportStart : string;
  reportEnd : string;
  reportStatus : ReportStatus;
  loanEntryModalOpen : bool;
  loanEntryCustomerId : string;
  loanEntryOrderId : string;
  loanStatusModalOpen : bool;
  loanStatusOrderId : string;
  loanStatusCustomerId : string;
  loanStatusSearch : string }.

(** What is stored under [rms/orders/<key>]: any field may be missing.
    [n_items] holds the lines of the order, which earlier releases stored
    as an array and this one stores as an object keyed by item id; the
    list stands for either, in the order in which the listener comes to
    read the lines. *)
Record OrderNode := {
  n_id : option string;
  n_waiterId : option string;
  n_waiter_id : option string;
  n_time : option string;
  n_status : option Status;
  n_collector : option string;
  n_items : list OrderItem }.

(** What is stored under [rms/loanCustomers/<key>]. *)
Record CustomerNode := {
  cn_id : option string;
  cn_name : option string;
  cn_phone : option string;
  cn_loans : option (gmap string LoanEntry) }.

(** The part of the realtime database under [rms/] that settlement
    touches. *)
Record Db := {
  db_orders : gmap string OrderNode;
  db_loanCustomers : gmap string CustomerNode }.

Record World := { app : App; db : Db }.

End Types.

Arguments Item : clear implicits.
Arguments OrderItem : clear implicits.
Arguments Order : clear implicits.
Arguments ReportStats : clear implicits.
Arguments ReportRow : clear implicits.
Arguments LoanEntry : clear implicits.
Arguments LoanCustomer : clear implicits.
Arguments App : clear implicits.
Arguments OrderNode : clear implicits.
Arguments CustomerNode : clear implicits.
Arguments Db : clear implicits.
Arguments World : clear implicits.

(** The outcome of a database write ([set] / [update] promise). *)
Inductive WriteResult := WriteOk | WriteFailed (message : string).

(** How a call that is to return the promise of a write ends: with a
    promise that settles, or with an exception thrown before there is a
    promise. *)
Inductive Completion := Settles (result : WriteResult) | Throws.

End Model.

(** ** The report aggregator and its exports *)

Module Reports.

Import Model.

Section Aggregator.

Context {num : Type} {JN : JsNumber num}.

(** Local time-zone offset and [Date] parsing ([None] is an Invalid Date). *)
Variable tz : Z.
Variable parseDate : string -> option Z.

(** [new Date(s).getTime()]; [new Date(undefined)] is invalid. *)
Definition newDate (s : option string) : option Z :=
  match s with
  | Some x => parseDate x
  | None => None
  end.

(** [Object.fromEntries(items.map((item) => [item.id, item]))]: a later
    entry replaces an earlier one with the same id. *)
Definition itemsById (a : App num) : gmap string (Item num) :=
  fold_left (fun m item => <[item_id item := item]> m) (items a) ∅.

Definition usersById (a : App num) : gmap string User :=
  fold_left (fun m user => <[u_id user := user]> m) (users a) ∅.

(** [itemsById[itemId]?.price ?? 0] *)
Definition priceOf (a : App num) (id : string) : num :=
  match itemsById a !! id with
  | Some item => item_price item
  | None => n_zero
  end.

Definition orderTotal (a : App num) (order : Order num) : num :=
  fold_left (fun sum entry => n_add sum (n_mul (qty entry) (priceOf a (itemId entry))))
            (o_items order) n_zero.

Definition formatPrice (value : num) : string :=
  String.append "$" (n_toFixed2 value).

Definition status_is (s : Status) (o : option Status) : bool :=
  match o with
  | Some x => Status_eqb x s
  | None => false
  end.

(** [reportStart ? new Date(reportStart) : null] *)
Definition startDate (a : App num) : option (option Z) :=
  if String.eqb (reportStart a) "" then None
  else Some (parseDate (reportStart a)).

(** [reportEnd ? new Date(reportEnd) : null], then
    [if (end) end.setHours(23, 59, 59, 999)] *)
Definition endDate (a : App num) : option (option Z) :=
  if String.eqb (reportEnd a) "" then None
  else Some (option_map (DateModel.setHours_endOfDay tz) (parseDate (reportEnd a))).

(** [t < d.getTime()] and [t > d.getTime()]: false against NaN. *)
Definition before (t : Z) (d : option Z) : bool :=
  match d with Some x => t <? x | None => false end.

Definition after (t : Z) (d : option Z) : bool :=
  match d with Some x => x <? t | None => false end.

(** The predicate of [orders.filter(...)] in [reportRows]. *)
Definition keepOrder (a : App num) (o : Order num) : bool :=
  match newDate (o_time o) with
  | None => false
  | Some t =>
    if match startDate a with Some s => before t s | None => false end then false
    else if match endDate a with Some e => after t e | None => false end then false
    else if match reportStatus a with only_paid => negb (status_is Paid (o_status o)) | _ => false end
    then false
    else if match reportStatus a with only_loan => negb (status_is Loan (o_status o)) | _ => false end
    then false
    else true
  end.

Definition filteredOrders (a : App num) : list (Order num) :=
  List.filter (keepOrder a) (orders a).

Definition bucketKey (tab : ReportTab) (date : Z) : string :=
  match tab with
  | daily => String.substring 0 10 (DateModel.toISOString date)
  | weekly => DateModel.getWeekId tz date
  | monthly =>
      (JS.String_ (DateModel.getFullYear tz date) ++ "-"
       ++ JS.padStart 2 "0" (JS.String_ (DateModel.getMonth tz date + 1)))%string
  | yearly => JS.String_ (DateModel.getFullYear tz date)
  end.

(** [Map<string, ReportStats>]: entries in insertion order; [set] on a
    present key replaces the value in place. *)
Fixpoint map_get {V} (key : string) (m : list (string * V)) : option V :=
  match m with
  | [] => None
  | (k, v) :: r => if String.eqb k key then Some v else map_get key r
  end.

Fixpoint map_set {V} (key : string) (v : V) (m : list (string * V)) : list (string * V) :=
  match m with
  | [] => [(key, v)]
  | (k, x) :: r => if String.eqb k key then (k, v) :: r else (k, x) :: map_set key v r
  end.

Definition emptyStats : ReportStats num :=
  {| ordersCount := n_zero; itemsCount := n_zero; sales := n_zero;
     paid := n_zero; loan := n_zero; pending := n_zero |}.

(** The body of [filteredOrders.forEach((order) => ...)]. *)
Definition addOrder (a : App num) (buckets : list (string * ReportStats num))
    (order : Order num) : list (string * ReportStats num) :=
  match newDate (o_time order) with
  | None => buckets
  | Some date =>
    let key := bucketKey (reportTab a) date in
    let current := default emptyStats (map_get key buckets) in
    let isLoan := status_is Loan (o_status order) in
    let isPaid := status_is Paid (o_status order) in
    map_set key
      {| ordersCount := n_add (ordersCount current) n_one;
         itemsCount := n_add (itemsCount current)
                         (fold_left (fun s i => n_add s (qty i)) (o_items order) n_zero);
         sales := n_add (sales current)
                    (fold_left (fun s i => n_add s (n_mul (qty i) (priceOf a (itemId i))))
                               (o_items order) n_zero);
         paid := if isLoan then paid current
                 else if isPaid then n_add (paid current) n_one else paid current;
         loan := if isLoan then n_add (loan current) n_one else loan current;
         pending := if isLoan then pending current
                    else if isPaid then pending current
                    else n_add (pending current) n_one |}
      buckets
  end.

(** The comparator [([a], [b]) => (a > b ? -1 : 1)]. *)
Definition compareLabels (a b : string) : Z := if JS.str_gt a b then -1 else 1.

(** [Array.prototype.sort] with that comparator.  Map keys are pairwise
    distinct, on which the comparator is a strict total order, so every
    sorting algorithm returns the same array; here an insertion sort. *)
Fixpoint insertEntry {V} (e : string * V) (l : list (string * V)) : list (string * V) :=
  match l with
  | [] => [e]
  | x :: r => if compareLabels (fst e) (fst x) <? 0 then e :: x :: r
              else x :: insertEntry e r
  end.

Definition sortEntries {V} (l : list (string * V)) : list (string * V) :=
  fold_right insertEntry [] l.

Definition buckets (a : App num) : list (string * ReportStats num) :=
  fold_left (addOrder a) (filteredOrders a) [].

Definition reportRows (a : App num) : list (ReportRow num) :=
  map (fun e => {| label := fst e; stats := snd e |}) (sortEntries (buckets a)).

End Aggregator.

End Reports.

(** ** CSV export, printable report and the on-screen total row *)

Module Renderer.

Import Model.

Section Renderers.

Context {num : Type} {JN : JsNumber num}.

Definition newline : string := String (Ascii.ascii_of_nat 10) EmptyString.

(** [r.pending ?? 0]: a row built by the aggregator always has the field. *)
Definition pendingOrZero (r : ReportRow num) : num := pending (stats r).

(** The accumulator of [reportRows.reduce((acc, r) => ({...}), {...0})]
    in [exportReportCSV]. *)
Definition csvTotal (rows : list (ReportRow num)) : ReportStats num :=
  fold_left
    (fun acc r =>
       {| ordersCount := n_add (ordersCount acc) (ordersCount (stats r));
          itemsCount := n_add (itemsCount acc) (itemsCount (stats r));
          sales := n_add (sales acc) (sales (stats r));
          paid := n_add (paid acc) (paid (stats r));
          loan := n_add (loan acc) (loan (stats r));
          pending := n_add (pending acc) (pendingOrZero r) |})
    rows
    {| ordersCount := n_zero; itemsCount := n_zero; sales := n_zero;
       paid := n_zero; loan := n_zero; pending := n_zero |}.

Definition csvHeader : list string :=
  ["Period"; "Orders"; "Items"; "Sales"; "Paid"; "Loan"; "Pending"]%string.

Definition csvCells (r : ReportRow num) : list string :=
  [label r; n_toString (ordersCount (stats r)); n_toString (itemsCount (stats r));
   n_toFixed2 (sales (stats r)); n_toString (paid (stats r));
   n_toString (loan (stats r)); n_toString (pendingOrZero r)].

Definition csvTotalCells (total : ReportStats num) : list string :=
  ["Total"%string; n_toString (ordersCount total); n_toString (itemsCount total);
   n_toFixed2 (sales total); n_toString (paid total);
   n_toString (loan total); n_toString (pending total)].

(** The text that [exportReportCSV] puts into the downloaded blob. *)
Definition exportReportCSV (rows : list (ReportRow num)) : string :=
  let lines := map csvCells rows ++ [csvTotalCells (csvTotal rows)] in
  String.concat newline (map (String.concat ",") (csvHeader :: lines)).

(** The accumulator of the [reduce] in [printReport]. *)
Definition printTotal (rows : list (ReportRow num)) : ReportStats num :=
  fold_left
    (fun acc r =>
       {| ordersCount := n_add (ordersCount acc) (ordersCount (stats r));
          itemsCount := n_add (itemsCount acc) (itemsCount (stats r));
          sales := n_add (sales acc) (sales (stats r));
          paid := n_add (paid acc) (paid (stats r));
          loan := n_add (loan acc) (loan (stats r));
          pending := n_add (pending acc) (pending (stats r)) |})
    rows
    {| ordersCount := n_zero; itemsCount := n_zero; sales := n_zero;
       paid := n_zero; loan := n_zero; pending := n_zero |}.

Definition td (s : string) : string := ("<td>" ++ s ++ "</td>")%string.

(** One line of [tableRows]. *)
Definition printRow (r : ReportRow num) : string :=
  ("<tr>" ++ td (label r)
   ++ td (n_toString (ordersCount (stats r))) ++ td (n_toString (itemsCount (stats r)))
   ++ td (String.append "$" (n_toFixed2 (sales (stats r))))
   ++ td (n_toString (paid (stats r))) ++ td (n_toString (loan (stats r)))
   ++ td (n_toString (pending (stats r))) ++ "</tr>")%string.

(** The total line of the table that [printReport] writes. *)
Definition printTotalRow (rows : list (ReportRow num)) : string :=
  let total := printTotal rows in
  ("<tr><td><strong>Total</strong></td>"
   ++ td (n_toString (ordersCount total)) ++ td (n_toString (itemsCount total))
   ++ td (String.append "$" (n_toFixed2 (sales total)))
   ++ td (n_toString (paid total)) ++ td (n_toString (loan total))
   ++ td (n_toString (pending total)) ++ "</tr>")%string.

(** A line of the template of [printReport], with its indentation. *)
Definition line (indent : nat) (s : string) : string :=
  (JS.repeat_char " " indent ++ s ++ newline)%string.

Definition quoted (s : string) : string :=
  (String (Ascii.ascii_of_nat 34) s ++ String (Ascii.ascii_of_nat 34) EmptyString)%string.

(** The template up to the rows of the table, and after its total line. *)
Definition printHead : string :=
  (newline
   ++ line 6 "<html>"
   ++ line 6 "<head><title>Reports</title></head>"
   ++ line 6 "<body>"
   ++ line 8 "<h2>Reports</h2>"
   ++ line 8 ("<table border=" ++ quoted "1" ++ " cellspacing=" ++ quoted "0"
              ++ " cellpadding=" ++ quoted "6" ++ ">")
   ++ line 10 ("<tr><th>Period</th><th>Orders</th><th>Items</th><th>Sales</th>"
               ++ "<th>Paid</th><th>Loan</th><th>Pending</th></tr>"))%string.

Definition printFoot : string :=
  (line 8 "</table>" ++ line 6 "</body>" ++ line 6 "</html>"
   ++ JS.repeat_char " " 4)%string.

(** [printReport]: the document written into the window that
    [window.open] gave; nothing is written when it gave none. *)
Definition printReport (opened : bool) (rows : list (ReportRow num)) : option string :=
  if opened then
    Some (printHead
          ++ line 10 (String.concat EmptyString (map printRow rows))
          ++ line 10 (printTotalRow rows)
          ++ printFoot)%string
  else None.

(** The six [reportRows.reduce((s, r) => s + r.<field>, 0)] of the
    on-screen total row. *)
Definition columnSum (f : ReportStats num -> num) (rows : list (ReportRow num)) : num :=
  fold_left (fun s r => n_add s (f (stats r))) rows n_zero.

(** The cells of [<div className="table__row total-row">]. *)
Definition screenTotalCells (rows : list (ReportRow num)) : list string :=
  ["Total"%string;
   n_toString (columnSum ordersCount rows);
   n_toString (columnSum itemsCount rows);
   Reports.formatPrice (columnSum sales rows);
   n_toString (columnSum paid rows);
   n_toString (columnSum loan rows);
   n_toString (columnSum pending rows)].

End Renderers.

End Renderer.

(** ** Order-id allocation *)

Module OrderIds.

Import Model.

Definition isDigit (c : ascii) : bool :=
  let n := Z.of_N (N_of_ascii c) in (48 <=? n) && (n <=? 57).

Fixpoint allDigits (s : string) : bool :=
  match s with
  | EmptyString => true
  | String c r => isDigit c && allDigits r
  end.

(** [/^order(\d+)$/.exec(s)]: the text of the capture group. *)
Definition execOrderPattern (s : string) : option string :=
  if String.prefix "order" s then
    let rest := String.substring 5 (String.length s - 5) s in
    if negb (String.eqb rest "") && allDigits rest then Some rest else None
  else None.

(** The integer that a string of decimal digits denotes. *)
Fixpoint digitsValue (acc : Z) (s : string) : Z :=
  match s with
  | EmptyString => acc
  | String c r => digitsValue (10 * acc + (Z.of_N (N_of_ascii c) - 48)) r
  end.

(** The double nearest to a non-negative integer (ties to the even
    significand); integers up to 2^53 are doubles themselves.  Magnitudes
    beyond the range of doubles are not modelled. *)
Definition toDouble (n : Z) : Z :=
  if n <=? 2 ^ 53 then n
  else
    let e := Z.log2 n - 52 in
    let q := n / 2 ^ e in
    let r := n mod 2 ^ e in
    let h := 2 ^ (e - 1) in
    let q' := if r <? h then q
              else if h <? r then q + 1
              else if Z.even q then q else q + 1 in
    q' * 2 ^ e.

(** [Number(match[1])] *)
Definition Number_ (digits : string) : Z := toDouble (digitsValue 0 digits).

(** The callback of [orders.reduce((max, o) => ..., 0)]; [Number] of a
    string of digits is never NaN. *)
Definition maxStep {num} (max : Z) (o : Order num) : Z :=
  match execOrderPattern (o_id o) with
  | None => max
  | Some digits => Z.max max (Number_ digits)
  end.

(** [nextOrderId]; [String(n)] prints an integer up to 2^53 in full. *)
Definition nextOrderId {num} (a : App num) : string :=
  let prefix := "order"%string in
  let maxExisting := fold_left maxStep (orders a) 0 in
  String.append prefix (JS.padStart 3 "0" (JS.String_ (toDouble (maxExisting + 1)))).

(** *** What the allocation is meant to compute *)

(** [id] is [order] followed by a non-empty run of digits that reads [n]. *)
Definition hasSuffix (id : string) (n : Z) : Prop :=
  exists digits : string,
    id = String.append "order" digits /\ digits <> EmptyString /\
    allDigits digits = true /\ n = digitsValue 0 digits.

(** [m] is the largest suffix among the ids, or 0 when no id has one. *)
Definition maxSuffix {num} (os : list (Order num)) (m : Z) : Prop :=
  (forall o n, In o os -> hasSuffix (o_id o) n -> n <= m) /\
  (m = 0 \/ exists o, In o os /\ hasSuffix (o_id o) m).

(** Every suffix is below 2^53, where each integer is a double. *)
Definition safeIds {num} (os : list (Order num)) : Prop :=
  forall o n, In o os -> hasSuffix (o_id o) n -> n < 2 ^ 53.

End OrderIds.

(** ** Settlement handlers and the loan ledger *)

Module Settlement.

Import Model.

Section Handlers.

Context {num : Type} {JN : JsNumber num}.

Definition set_banner (b : option Banner) (a : App num) : App num :=
  {| users := users a; items := items a; orders := orders a;
     loanCustomers := loanCustomers a; currentUser := currentUser a;
     banner := b;
     draftWaiter := draftWaiter a; draftQty := draftQty a;
     showOrderModal := showOrderModal a;
     reportTab := reportTab a; reportStart := reportStart a;
     reportEnd := reportEnd a; reportStatus := reportStatus a;
     loanEntryModalOpen := loanEntryModalOpen a;
     loanEntryCustomerId := loanEntryCustomerId a;
     loanEntryOrderId := loanEntryOrderId a;
     loanStatusModalOpen := loanStatusModalOpen a;
     loanStatusOrderId := loanStatusOrderId a;
     loanStatusCustomerId := loanStatusCustomerId a;
     loanStatusSearch := loanStatusSearch a |}.

Definition set_draft (q : list (string * num)) (modal : bool) (a : App num) : App num :=
  {| users := users a; items := items a; orders := orders a;
     loanCustomers := loanCustomers a; currentUser := currentUser a;
     banner := banner a;
     draftWaiter := draftWaiter a; draftQty := q;
     showOrderModal := modal;
     reportTab := reportTab a; reportStart := reportStart a;
     reportEnd := reportEnd a; reportStatus := reportStatus a;
     loanEntryModalOpen := loanEntryModalOpen a;
     loanEntryCustomerId := loanEntryCustomerId a;
     loanEntryOrderId := loanEntryOrderId a;
     loanStatusModalOpen := loanStatusModalOpen a;
     loanStatusOrderId := loanStatusOrderId a;
     loanStatusCustomerId := loanStatusCustomerId a;
     loanStatusSearch := loanStatusSearch a |}.

Definition set_loanEntry (open : bool) (customerId orderId : string) (a : App num) : App num :=
  {| users := users a; items := items a; orders := orders a;
     loanCustomers := loanCustomers a; currentUser := currentUser a;
     banner := banner a;
     draftWaiter := draftWaiter a; draftQty := draftQty a;
     showOrderModal := showOrderModal a;
     reportTab := reportTab a; reportStart := reportStart a;
     reportEnd := reportEnd a; reportStatus := reportStatus a;
     loanEntryModalOpen := open;
     loanEntryCustomerId := customerId;
     loanEntryOrderId := orderId;
     loanStatusModalOpen := loanStatusModalOpen a;
     loanStatusOrderId := loanStatusOrderId a;
     loanStatusCustomerId := loanStatusCustomerId a;
     loanStatusSearch := loanStatusSearch a |}.

Definition set_loanStatus (open : bool) (orderId customerId search : string)
    (a : App num) : App num :=
  {| users := users a; items := items a; orders := orders a;
     loanCustomers := loanCustomers a; currentUser := currentUser a;
     banner := banner a;
     draftWaiter := draftWaiter a; draftQty := draftQty a;
     showOrderModal := showOrderModal a;
     reportTab := reportTab a; reportStart := reportStart a;
     reportEnd := reportEnd a; reportStatus := reportStatus a;
     loanEntryModalOpen := loanEntryModalOpen a;
     loanEntryCustomerId := loanEntryCustomerId a;
     loanEntryOrderId := loanEntryOrderId a;
     loanStatusModalOpen := open;
     loanStatusOrderId := orderId;
     loanStatusCustomerId := customerId;
     loanStatusSearch := search |}.

(** The listeners hand the screen lists built from the database. *)
Definition set_lists (os : list (Order num)) (cs : list (LoanCustomer num))
    (a : App num) : App num :=
  {| users := users a; items := items a; orders := os;
     loanCustomers := cs; currentUser := currentUser a;
     banner := banner a;
     draftWaiter := draftWaiter a; draftQty := draftQty a;
     showOrderModal := showOrderModal a;
     reportTab := reportTab a; reportStart := reportStart a;
     reportEnd := reportEnd a; reportStatus := reportStatus a;
     loanEntryModalOpen := loanEntryModalOpen a;
     loanEntryCustomerId := loanEntryCustomerId a;
     loanEntryOrderId := loanEntryOrderId a;
     loanStatusModalOpen := loanStatusModalOpen a;
     loanStatusOrderId := loanStatusOrderId a;
     loanStatusCustomerId := loanStatusCustomerId a;
     loanStatusSearch := loanStatusSearch a |}.

Definition mkBanner (t : BannerType) (m : string) : option Banner :=
  Some {| b_type := t; b_message := m |}.

(** *** The database *)

(** A key of the database: a string that is not empty and has none of [.],
    [#], [$], [/], the two square brackets and the control characters.
    [ref] throws on a path that has one of these characters ([/] apart,
    which parts a path), [set] and [update] throw on a value with a key
    that is not of this kind. *)
Definition keyChar (c : ascii) : bool :=
  let n := nat_of_ascii c in
  negb ((n <? 32)%nat || (n =? 127)%nat
        || existsb (Ascii.eqb c) ["."; "#"; "$"; "/"; "["; "]"]%char).

Definition validKey (s : string) : bool :=
  negb (String.eqb s "") && forallb keyChar (list_ascii_of_string s).

Definition emptyOrderNode : OrderNode num :=
  {| n_id := None; n_waiterId := None; n_waiter_id := None; n_time := None;
     n_status := None; n_collector := None; n_items := [] |}.

Definition emptyCustomerNode : CustomerNode num :=
  {| cn_id := None; cn_name := None; cn_phone := None; cn_loans := None |}.

(** [update(ref, { status, collector })]: the two children are written,
    the other children of the node stay; a node that does not exist yet
    comes into being with just these two. *)
Definition mergeStatus (status : Status) (collector : string)
    (n : option (OrderNode num)) : option (OrderNode num) :=
  let n0 := default emptyOrderNode n in
  Some {| n_id := n_id n0; n_waiterId := n_waiterId n0;
          n_waiter_id := n_waiter_id n0; n_time := n_time n0;
          n_status := Some status; n_collector := Some collector;
          n_items := n_items n0 |}.

Definition db_updateOrder (key : string) (status : Status) (collector : string)
    (d : Db num) : Db num :=
  {| db_orders := partial_alter (mergeStatus status collector) key (db_orders d);
     db_loanCustomers := db_loanCustomers d |}.

Definition db_setOrder (key : string) (n : OrderNode num) (d : Db num) : Db num :=
  {| db_orders := <[key := n]> (db_orders d);
     db_loanCustomers := db_loanCustomers d |}.

Definition putLoan (entryId : string) (entry : LoanEntry num)
    (c : option (CustomerNode num)) : option (CustomerNode num) :=
  let c0 := default emptyCustomerNode c in
  Some {| cn_id := cn_id c0; cn_name := cn_name c0; cn_phone := cn_phone c0;
          cn_loans := Some (<[entryId := entry]> (default ∅ (cn_loans c0))) |}.

(** [set] (or [update] with all five fields) at
    [loanCustomers/<pathId>/loans/<entryId>]. *)
Definition db_setLoan (pathId entryId : string) (entry : LoanEntry num)
    (d : Db num) : Db num :=
  {| db_orders := db_orders d;
     db_loanCustomers := partial_alter (putLoan entryId entry) pathId (db_loanCustomers d) |}.

(** *** The listeners ([onValue]) *)

Definition orElse {A} (a b : option A) : option A :=
  match a with Some _ => a | None => b end.

Definition orderOfNode (key : string) (n : OrderNode num) : Order num :=
  {| o_id := default key (n_id n);
     o_waiterId := orElse (n_waiterId n) (n_waiter_id n);
     o_time := n_time n;
     o_status := Some (default Pending (n_status n));
     o_collector := Some (default EmptyString (n_collector n));
     o_items := n_items n |}.

Definition customerOfNode (dbId : string) (c : CustomerNode num) : LoanCustomer num :=
  {| c_id := default dbId (cn_id c);
     c_dbId := Some dbId;
     c_name := cn_name c;
     c_phone := cn_phone c;
     c_loans := Some (default ∅ (cn_loans c)) |}.

Definition ordersSnapshot (d : Db num) : list (Order num) :=
  map (fun kn => orderOfNode (fst kn) (snd kn)) (map_to_list (db_orders d)).

Definition customersSnapshot (d : Db num) : list (LoanCustomer num) :=
  map (fun kc => customerOfNode (fst kc) (snd kc)) (map_to_list (db_loanCustomers d)).

(** The screen shows the current database: the lists are the snapshots in
    some arrangement (the order listener sorts by time). *)
Definition synced (w : World num) : Prop :=
  Permutation (orders (app w)) (ordersSnapshot (db w)) /\
  Permutation (loanCustomers (app w)) (customersSnapshot (db w)).

Definition refresh (w : World num) : World num :=
  {| app := set_lists (ordersSnapshot (db w)) (customersSnapshot (db w)) (app w);
     db := db w |}.

(** *** The handlers *)

Definition collectorFor (a : App num) (status : Status) : string :=
  match status with
  | Paid | Loan =>
      match currentUser a with
      | Some user => default "Unknown"%string (u_name user)
      | None => "Unknown"%string
      end
  | Pending => EmptyString
  end.

(** [updateOrderStatus(id, status)]; [result] is how the [update] promise
    settles. *)
Definition updateOrderStatus (id : string) (status : Status) (result : WriteResult)
    (w : World num) : World num :=
  let collector := collectorFor (app w) status in
  match result with
  | WriteOk =>
      {| app := set_banner (mkBanner success "Order status updated.") (app w);
         db := db_updateOrder id status collector (db w) |}
  | WriteFailed message =>
      {| app := set_banner (mkBanner error message) (app w); db := db w |}
  end.

Definition handleStatusChange (order : Order num) (status : Status)
    (result : WriteResult) (w : World num) : World num :=
  match status with
  | Loan => {| app := set_loanStatus true (o_id order) "" "" (app w); db := db w |}
  | _ => updateOrderStatus (o_id order) status result w
  end.

(** The radio button of the loan-customer modal:
    [onChange={() => setLoanStatusCustomerId(c.id)}]. *)
Definition pickLoanCustomer (customerId : string) (w : World num) : World num :=
  {| app := set_loanStatus (loanStatusModalOpen (app w)) (loanStatusOrderId (app w))
                           customerId (loanStatusSearch (app w)) (app w);
     db := db w |}.

(** The property key that [obj[k]] uses for [k]. *)
Definition propertyKey (k : option string) : string := default "undefined"%string k.

(** [usersById[order.waiterId]?.name ?? order.waiterId]; [usersById] is
    a plain object, so a key that is no user's id is looked up on
    [Object.prototype]. *)
Definition servedByOf (a : App num) (order : Order num) : option string :=
  match Reports.usersById a !! propertyKey (o_waiterId order) with
  | Some user => orElse (u_name user) (o_waiterId order)
  | None => orElse (JS.inheritedName (propertyKey (o_waiterId order))) (o_waiterId order)
  end.

(** [Object.values(customer.loans ?? {})] *)
Definition loanValues (customer : LoanCustomer num) : list (LoanEntry num) :=
  map snd (map_to_list (default ∅ (c_loans customer))).

Definition entryFor (a : App num) (entryId : string) (order : Order num) : LoanEntry num :=
  {| le_id := entryId; le_orderId := o_id order;
     le_amount := Reports.orderTotal a order;
     le_date := o_time order;
     le_servedBy := servedByOf a order |}.

(** [set] and [update] look through the value before anything is sent,
    and throw when a property is [undefined] or a number is not finite
    (the size limits of the database apart): a loan entry passes when its
    date and servedBy are there and its amount is finite. *)
Definition accepted (entry : LoanEntry num) : bool :=
  match le_date entry, le_servedBy entry with
  | Some _, Some _ => n_isFinite (le_amount entry)
  | _, _ => false
  end.

(** [addLoanEntryForOrder(order, customer)]: the new world and how the
    call ends.  [pushKey] is the key that [push] generates ([ref.key] is
    never null for a child location), [result] how the promise of [set]
    settles when [set] returns one. *)
Definition addLoanEntryForOrder (order : Order num) (customer : LoanCustomer num)
    (pushKey : string) (result : WriteResult) (w : World num)
    : World num * Completion :=
  let pathId := default (c_id customer) (c_dbId customer) in
  let existing :=
    List.find (fun l => String.eqb (le_orderId l) (o_id order)) (loanValues customer) in
  match existing with
  | Some _ => (w, Settles WriteOk)
  | None =>
      let entry := entryFor (app w) pushKey order in
      if accepted entry then
        match result with
        | WriteOk =>
            ({| app := app w; db := db_setLoan pathId pushKey entry (db w) |},
             Settles WriteOk)
        | WriteFailed message => (w, Settles (WriteFailed message))
        end
      else (w, Throws)
  end.

(** [confirmLoanStatus]: the two writes are issued one after the other,
    each with its own promise.  The modal is closed in the [finally] of
    the second promise: when [addLoanEntryForOrder] throws there is no
    such promise, the handler ends there and the modal stays as it is. *)
Definition confirmLoanStatus (pushKey : string) (orderWrite loanWrite : WriteResult)
    (w : World num) : World num :=
  let a := app w in
  if String.eqb (loanStatusOrderId a) "" || String.eqb (loanStatusCustomerId a) "" then
    {| app := set_banner (mkBanner error "Select a loan customer.") a; db := db w |}
  else
    match List.find (fun o => String.eqb (o_id o) (loanStatusOrderId a)) (orders a),
          List.find (fun c => String.eqb (c_id c) (loanStatusCustomerId a)) (loanCustomers a)
    with
    | Some order, Some customer =>
        let w1 := updateOrderStatus (o_id order) Loan orderWrite w in
        match addLoanEntryForOrder order customer pushKey loanWrite w1 with
        | (w2, Settles _) =>
            {| app := set_loanStatus false "" "" "" (app w2); db := db w2 |}
        | (w2, Throws) => w2
        end
    | _, _ =>
        {| app := set_banner (mkBanner error "Invalid selection.") a; db := db w |}
    end.

(** [addLoanEntry]: the manual entry of the loan book; [now] is
    [Date.now()].  When [update] throws, the handler ends with the screen
    as it was. *)
Definition addLoanEntry (now : Z) (result : WriteResult) (w : World num) : World num :=
  let a := app w in
  if String.eqb (loanEntryCustomerId a) "" || String.eqb (loanEntryOrderId a) "" then
    {| app := set_banner (mkBanner error "Select customer and loan order.") a; db := db w |}
  else
    match List.find (fun c => String.eqb (c_id c) (loanEntryCustomerId a)) (loanCustomers a),
          List.find (fun o => String.eqb (o_id o) (loanEntryOrderId a)) (orders a)
    with
    | Some customer, Some order =>
        let entryId := String.append "loan-" (JS.String_ now) in
        let entry := entryFor a entryId order in
        let pathId := default (c_id customer) (c_dbId customer) in
        if accepted entry then
          match result with
          | WriteOk =>
              {| app := set_banner (mkBanner success "Loan entry added.")
                          (set_loanEntry false "" "" a);
                 db := db_setLoan pathId entryId entry (db w) |}
          | WriteFailed message =>
              {| app := set_banner (mkBanner error message) a; db := db w |}
          end
        else w
    | _, _ =>
        {| app := set_banner (mkBanner error "Invalid selection.") a; db := db w |}
    end.

(** [handleCreateOrder]: [pushKey] is the key of [push(dbPath('orders'))],
    [now] the current time.  The lines go into the node in the order of
    the draft; the database hands the object [itemsMap] back with its
    keys in an order of its own, so of the order of the lines of a stored
    order nothing is to be read off this list. *)
Definition handleCreateOrder (pushKey : string) (now : Z) (result : WriteResult)
    (w : World num) : World num :=
  let a := set_banner None (app w) in
  let selected :=
    map (fun e => {| itemId := fst e; qty := snd e |})
        (List.filter (fun e => n_gt0 (snd e)) (draftQty a)) in
  if String.eqb (draftWaiter a) "" then
    {| app := set_banner (mkBanner error "Pick a waiter to assign the order.") a;
       db := db w |}
  else if (List.length selected =? 0)%nat then
    {| app := set_banner (mkBanner error "Add at least one item before submitting.") a;
       db := db w |}
  else
    let orderId := OrderIds.nextOrderId a in
    let payload :=
      {| n_id := Some orderId; n_waiterId := None;
         n_waiter_id := Some (draftWaiter a);
         n_time := Some (DateModel.toISOString now);
         n_status := Some Pending; n_collector := Some EmptyString;
         n_items := selected |} in
    match result with
    | WriteOk =>
        {| app := set_banner (mkBanner success "Order captured and stock updated.")
                    (set_draft [] false a);
           db := db_setOrder pushKey payload (db w) |}
    | WriteFailed message =>
        {| app := set_banner (mkBanner error message) a; db := db w |}
    end.

End Handlers.

End Settlement.

(** ** The ledger's invariants and the settlement transitions *)

Module Ledger.

Import Model Settlement.

Section Invariants.

Context {num : Type} {JN : JsNumber num}.

(** The loan map stored under customer [path]. *)
Definition loansAt (d : Db num) (path : string) : gmap string (LoanEntry num) :=
  match db_loanCustomers d !! path with
  | Some c => default ∅ (cn_loans c)
  | None => ∅
  end.

(** I1: no two loan entries anywhere share an [orderId]. *)
Definition noOrderLoanedTwice (d : Db num) : Prop :=
  forall p1 p2 k1 k2 e1 e2,
    loansAt d p1 !! k1 = Some e1 -> loansAt d p2 !! k2 = Some e2 ->
    le_orderId e1 = le_orderId e2 -> p1 = p2 /\ k1 = k2.

(** The same within each customer's own loans. *)
Definition noOrderLoanedTwicePerCustomer (d : Db num) : Prop :=
  forall p k1 k2 e1 e2,
    loansAt d p !! k1 = Some e1 -> loansAt d p !! k2 = Some e2 ->
    le_orderId e1 = le_orderId e2 -> k1 = k2.

(** The customer stored at [path] holds a loan entry for order [orderId]. *)
Definition holdsLoanFor (d : Db num) (path orderId : string) : Prop :=
  exists k e, loansAt d path !! k = Some e /\ le_orderId e = orderId.

(** The loans of a customer, as the screen has them, hold an entry for
    order [orderId]. *)
Definition viewHolds (customer : LoanCustomer num) (orderId : string) : Prop :=
  exists l, In l (loanValues customer) /\ le_orderId l = orderId.

(** [customer.dbId ?? customer.id] *)
Definition pathOf (customer : LoanCustomer num) : string :=
  default (c_id customer) (c_dbId customer).

(** A key that [push] may generate: not in use under any customer. *)
Definition freshKey (key : string) (d : Db num) : Prop :=
  forall path, loansAt d path !! key = None.

(** One move at the order list: the collector picks a status on an order
    card ("loan" opens the customer modal, the others write at once),
    picks a customer in the modal, confirms (the two writes settle either
    way, the new entry under whatever key [push] hands out), and the
    listeners deliver the new snapshots before the next click. *)
Inductive step : World num -> World num -> Prop :=
| step_status (w : World num) (order : Order num) (status : Status) (r : WriteResult) :
    In order (orders (app w)) ->
    step w (handleStatusChange order status r w)
| step_pick (w : World num) (customerId : string) :
    step w (pickLoanCustomer customerId w)
| step_confirm (w : World num) (key : string) (orderWrite loanWrite : WriteResult) :
    synced w ->
    step w (confirmLoanStatus key orderWrite loanWrite w)
| step_listen (w : World num) (os : list (Order num)) (cs : list (LoanCustomer num)) :
    Permutation os (ordersSnapshot (db w)) ->
    Permutation cs (customersSnapshot (db w)) ->
    step w {| app := set_lists os cs (app w); db := db w |}.

Inductive steps : World num -> World num -> Prop :=
| steps_refl (w : World num) : steps w w
| steps_more (w1 w2 w3 : World num) : step w1 w2 -> steps w2 w3 -> steps w1 w3.

End Invariants.

End Ledger.

(** ** Concrete numbers and dates for worked examples *)

Module Sample.

Import Model.

(** Whole amounts: [toFixed(2)] appends two zero decimals. *)
#[export] Instance Z_JsNumber : JsNumber Z :=
  {| n_zero := 0; n_one := 1; n_add := Z.add; n_mul := Z.mul;
     n_gt0 := fun x => 0 <? x;
     n_isFinite := fun _ => true;
     n_toString := JS.String_;
     n_toFixed2 := fun x => String.append (JS.String_ x) ".00" |}.

Definition digitAt (s : string) (i : nat) : option Z :=
  match String.get i s with
  | Some c => if OrderIds.isDigit c then Some (Z.of_N (N_of_ascii c) - 48) else None
  | None => None
  end.

Definition twoDigits (s : string) (i : nat) : option Z :=
  match digitAt s i, digitAt s (i + 1) with
  | Some a, Some b => Some (10 * a + b)
  | _, _ => None
  end.

Definition charAt (s : string) (i : nat) (c : ascii) : bool :=
  match String.get i s with
  | Some x => Ascii.eqb x c
  | None => false
  end.

(** A date parser for the two shapes the application itself produces:
    [YYYY-MM-DD] (a date input, midnight UTC) and
    [YYYY-MM-DDTHH:mm:ss.sssZ] ([toISOString]). *)
Definition parseIso (s : string) : option Z :=
  match twoDigits s 0, twoDigits s 2, twoDigits s 5, twoDigits s 8 with
  | Some c, Some y, Some m, Some d =>
      if charAt s 4 "-" && charAt s 7 "-" && (1 <=? m) && (m <=? 12)
         && (1 <=? d) && (d <=? 31) then
        let day := DateModel.MakeDay (100 * c + y) (m - 1) d in
        if (String.length s =? 10)%nat then Some (DateModel.MakeDate day 0)
        else
          match twoDigits s 11, twoDigits s 14, twoDigits s 17,
                twoDigits s 20, digitAt s 22 with
          | Some h, Some mi, Some sec, Some ms2, Some ms1 =>
              if (String.length s =? 24)%nat && charAt s 10 "T" && charAt s 13 ":"
                 && charAt s 16 ":" && charAt s 19 "." && charAt s 23 "Z"
                 && (h <=? 23) && (mi <=? 59) && (sec <=? 59) then
                Some (DateModel.MakeDate day
                        (((h * 60 + mi) * 60 + sec) * 1000 + 10 * ms2 + ms1))
              else None
          | _, _, _, _, _ => None
          end
      else None
  | _, _, _, _ => None
  end.

End Sample.

(** ** Fixed-width decimal labels and what the report is meant to show *)

Module Labels.

Import DateModel Model.

(** The character of decimal digit [k]. *)
Definition digit (k : Z) : ascii := ascii_of_N (Z.to_N (48 + k)).

Definition digits2 (n : Z) : string :=
  String (digit (n / 10)) (String (digit (n mod 10)) EmptyString).

Definition digits4 (n : Z) : string :=
  String (digit (n / 1000)) (String (digit (n / 100 mod 10)) (digits2 (n mod 100))).

(** [YYYY-MM-DD] *)
Definition dayLabel (y m d : Z) : string :=
  (digits4 y ++ "-" ++ digits2 m ++ "-" ++ digits2 d)%string.

(** [YYYY-MM] *)
Definition monthLabel (y m : Z) : string := (digits4 y ++ "-" ++ digits2 m)%string.

(** Lexicographic comparison of two triples. *)
Definition lex3 (a1 b1 c1 a2 b2 c2 : Z) : comparison :=
  match a1 ?= a2 with
  | Eq => match b1 ?= b2 with Eq => c1 ?= c2 | c => c end
  | c => c
  end.

(** [P 0 && ... && P (n - 1)] *)
Fixpoint forall_upto (P : Z -> bool) (n : nat) : bool :=
  match n with
  | O => true
  | S k => P (Z.of_nat k) && forall_upto P k
  end.

(** The status filter of a report admits a status. *)
Definition statusAdmits (f : ReportStatus) (s : option Status) : Prop :=
  match f with
  | all => True
  | only_paid => s = Some Paid
  | only_loan => s = Some Loan
  end.

(** [e'] is 23:59:59.999, local time, of the local day that contains [e]. *)
Definition endOfLocalDay (tz e e' : Z) : Prop :=
  Day (LocalTime tz e') = Day (LocalTime tz e) /\
  TimeWithinDay (LocalTime tz e') = 86399999.

(** The label of a bucket has its year in four digits. *)
Definition fourDigitYear (tz : Z) (tab : ReportTab) (t : Z) : Prop :=
  match tab with
  | daily => 0 <= YearFromTime t <= 9999
  | _ => 1000 <= getFullYear tz t <= 9999
  end.

(** The position in time of the period that [t] falls in: the later the
    period, the larger the number. *)
Definition period (tz : Z) (tab : ReportTab) (t : Z) : Z :=
  match tab with
  | daily => Day t
  | weekly => thursdayOf (Day (LocalTime tz t))
  | monthly => 12 * getFullYear tz t + getMonth tz t
  | yearly => getFullYear tz t
  end.

(** Entries in descending order of their keys. *)
Definition desc {V} (e1 e2 : string * V) : Prop := JS.str_gt (fst e1) (fst e2) = true.

End Labels.

(** ** A small restaurant, for worked examples *)

Module Scenario.

Import Model Sample.

Definition amina : User :=
  {| u_id := "-Nu1"; u_dbId := Some "-Nu1"%string; u_name := Some "Amina"%string;
     u_role := waiter;
     u_phone := Some "615000001"%string; u_pin := Some "1234"%string |}.

Definition yusuf : User :=
  {| u_id := "-Nu2"; u_dbId := Some "-Nu2"%string; u_name := Some "Yusuf"%string;
     u_role := collector;
     u_phone := Some "615000002"%string; u_pin := Some "4321"%string |}.

Definition tea : Item Z :=
  {| item_id := "-Ni1"; item_name := "Tea"; item_price := 5; item_stock := Some 0 |}.

Definition rice : Item Z :=
  {| item_id := "-Ni2"; item_name := "Rice"; item_price := 10; item_stock := Some 0 |}.

(** The screen of collector Yusuf with the given orders, customers and
    report settings; the order form holds two teas for waiter Amina. *)
Definition screen (os : list (Order Z)) (cs : list (LoanCustomer Z))
    (tab : ReportTab) (start finish : string) (status : ReportStatus) : App Z :=
  {| users := [amina; yusuf]; items := [tea; rice]; orders := os;
     loanCustomers := cs; currentUser := Some yusuf; banner := None;
     draftWaiter := "-Nu1"; draftQty := [("-Ni1"%string, 2)];
     showOrderModal := true;
     reportTab := tab; reportStart := start; reportEnd := finish;
     reportStatus := status;
     loanEntryModalOpen := false; loanEntryCustomerId := EmptyString;
     loanEntryOrderId := EmptyString;
     loanStatusModalOpen := false; loanStatusOrderId := EmptyString;
     loanStatusCustomerId := EmptyString; loanStatusSearch := EmptyString |}.

Definition order (id time : string) (status : Status) (its : list (OrderItem Z))
    : Order Z :=
  {| o_id := id; o_waiterId := Some "-Nu1"%string; o_time := Some time;
     o_items := its; o_status := Some status; o_collector := Some EmptyString |}.

(** Two teas paid on 5 January 2024, one rice on loan the day after, and
    an open order later that day. *)
Definition january : list (Order Z) :=
  [ order "order001" "2024-01-05T10:00:00.000Z" Paid [{| itemId := "-Ni1"; qty := 2 |}];
    order "order002" "2024-01-06T11:30:00.000Z" Loan [{| itemId := "-Ni2"; qty := 1 |}];
    order "order003" "2024-01-06T19:45:00.000Z" Pending [{| itemId := "-Ni1"; qty := 1 |}] ].

(** An order book whose highest id has reached 2^53. *)
Definition hugeIds : list (Order Z) :=
  [ order "order9007199254740992" "2024-01-05T10:00:00.000Z" Paid [] ].

Definition customerNode (name phone : string) : CustomerNode Z :=
  {| cn_id := None; cn_name := Some name; cn_phone := Some phone; cn_loans := None |}.

(** The database with two loan customers and no order yet. *)
Definition db0 : Db Z :=
  {| db_orders := ∅;
     db_loanCustomers :=
       <["-Nc1"%string := customerNode "Halima" "615000011"]>
         (<["-Nc2"%string := customerNode "Omar" "615000012"]> ∅) |}.

Definition world0 : World Z :=
  Settlement.refresh {| app := screen [] [] daily "" "" all; db := db0 |}.

(** An order stored under its own id, as the earlier releases wrote it. *)
Definition db1 : Db Z :=
  {| db_orders :=
       <["order001"%string :=
           {| n_id := Some "order001"%string; n_waiterId := None;
              n_waiter_id := Some "-Nu1"%string;
              n_time := Some "2024-01-05T10:00:00.000Z"%string;
              n_status := Some Pending; n_collector := Some EmptyString;
              n_items := [{| itemId := "-Ni1"; qty := 2 |}] |}]> ∅;
     db_loanCustomers := db_loanCustomers db0 |}.

Definition world1 : World Z :=
  Settlement.refresh {| app := screen [] [] daily "" "" all; db := db1 |}.

Definition order1 : Order Z :=
  order "order001" "2024-01-05T10:00:00.000Z" Pending [{| itemId := "-Ni1"; qty := 2 |}].

(** On [world1], "loan" picked on the card of order001 and customer
    Halima picked in the modal. *)
Definition atModal : World Z :=
  Settlement.pickLoanCustomer "-Nc1"
    (Settlement.handleStatusChange order1 Loan WriteOk world1).

(** Order001 settled as a loan of Halima, both writes through. *)
Definition loaned : World Z :=
  Settlement.refresh (Settlement.confirmLoanStatus "-Nl1" WriteOk WriteOk atModal).

Definition order1_loan : Order Z :=
  {| o_id := "order001"; o_waiterId := Some "-Nu1"%string;
     o_time := Some "2024-01-05T10:00:00.000Z"%string;
     o_items := [{| itemId := "-Ni1"; qty := 2 |}];
     o_status := Some Loan; o_collector := Some "Yusuf"%string |}.

(** The collector sets the order back to pending. *)
Definition reopened : World Z :=
  Settlement.refresh (Settlement.handleStatusChange order1_loan Pending WriteOk loaned).

(** ... and settles it as a loan again, of the same customer or of Omar. *)
Definition againSame : World Z :=
  Settlement.confirmLoanStatus "-Nl2" WriteOk WriteOk
    (Settlement.pickLoanCustomer "-Nc1"
       (Settlement.handleStatusChange order1 Loan WriteOk reopened)).

Definition againOther : World Z :=
  Settlement.confirmLoanStatus "-Nl2" WriteOk WriteOk
    (Settlement.pickLoanCustomer "-Nc2"
       (Settlement.handleStatusChange order1 Loan WriteOk reopened)).

(** Halima as the screen of [world1] shows her. *)
Definition halima : LoanCustomer Z :=
  Settlement.customerOfNode "-Nc1" (customerNode "Halima" "615000011").

(** The entry that the first settlement writes. *)
Definition entry1 : LoanEntry Z :=
  {| le_id := "-Nl1"; le_orderId := "order001"; le_amount := 10;
     le_date := Some "2024-01-05T10:00:00.000Z"%string;
     le_servedBy := Some "Amina"%string |}.

(** Omar as the screen of [loaned] shows him. *)
Definition omar : LoanCustomer Z :=
  Settlement.customerOfNode "-Nc2" (customerNode "Omar" "615000012").

(** An order taken through the order form of this release: stored under
    the key that [push] made. *)
Definition created : World Z :=
  Settlement.refresh (Settlement.handleCreateOrder "-No1" 1704448800000 WriteOk world0).

(** "Paid" picked on its card. *)
Definition paidClick : World Z :=
  Settlement.handleStatusChange order1 Paid WriteOk created.

End Scenario.

(** ** Text primitives of the sign-in and staff screens *)

Module Text.

(** Text that leaves ASCII is held as its UTF-8 bytes.  The functions
    below read a string one code unit at a time in JavaScript; on bytes
    they give the encoding of the same result, since every byte of a
    character beyond ASCII is 128 or more and no encoding is the tail of
    another. *)

Definition bytes (l : list N) : string :=
  fold_right (fun n s => String (ascii_of_N n) s) EmptyString l.

(** The WhiteSpace and LineTerminator code points of ECMA-262, encoded:
    TAB, LF, VT, FF, CR, SP, U+00A0, U+1680, U+2000 to U+200A, U+2028,
    U+2029, U+202F, U+205F, U+3000 and U+FEFF. *)
Definition whiteSpace : list string :=
  map bytes
    [ [9]; [10]; [11]; [12]; [13]; [32];
      [194; 160];
      [225; 154; 128];
      [226; 128; 128]; [226; 128; 129]; [226; 128; 130]; [226; 128; 131];
      [226; 128; 132]; [226; 128; 133]; [226; 128; 134]; [226; 128; 135];
      [226; 128; 136]; [226; 128; 137]; [226; 128; 138];
      [226; 128; 168]; [226; 128; 169];
      [226; 128; 175];
      [226; 129; 159];
      [227; 128; 128];
      [239; 187; 191] ]%N.

(** [s.slice(k)] for [k >= 0]. *)
Definition slice (k : nat) (s : string) : string :=
  String.substring k (String.length s - k) s.

(** [s.startsWith(p)] *)
Definition startsWith (s p : string) : bool := String.prefix p s.

(** [s.endsWith(x)] *)
Definition endsWith (s x : string) : bool :=
  let n := String.length s in
  let m := String.length x in
  (m <=? n)%nat && String.eqb (String.substring (n - m) m s) x.

(** [s] without one white-space character at its front, if it has one. *)
Definition dropFront (s : string) : option string :=
  match List.find (startsWith s) whiteSpace with
  | Some w => Some (slice (String.length w) s)
  | None => None
  end.

(** ... and at its end. *)
Definition dropBack (s : string) : option string :=
  match List.find (endsWith s) whiteSpace with
  | Some w => Some (String.substring 0 (String.length s - String.length w) s)
  | None => None
  end.

Fixpoint strip (drop : string -> option string) (fuel : nat) (s : string) : string :=
  match fuel with
  | O => s
  | S k => match drop s with
           | Some r => strip drop k r
           | None => s
           end
  end.

(** [s.trim()] *)
Definition trim (s : string) : string :=
  let front := strip dropFront (String.length s) s in
  strip dropBack (String.length front) front.

(** [s.replace(/\D/g, '')] *)
Fixpoint digitsOnly (s : string) : string :=
  match s with
  | EmptyString => EmptyString
  | String c r => if OrderIds.isDigit c then String c (digitsOnly r) else digitsOnly r
  end.

(** [/^\d{4}$/.test(s)] *)
Definition fourDigits (s : string) : bool :=
  (String.length s =? 4)%nat && OrderIds.allDigits s.

End Text.

(** ** Phone numbers *)

Module Phone.

Import Text.

Definition normalizePhone (phone : string) : string :=
  let digits := digitsOnly phone in
  if startsWith digits "25290" then slice 5 digits
  else if startsWith digits "2520" then slice 4 digits
  else if startsWith digits "252" then slice 3 digits
  else if startsWith digits "0" then slice 1 digits
  else digits.

(** The country and trunk prefixes that [normalizePhone] takes off. *)
Definition prefixes : list string := ["25290"; "2520"; "252"; "0"; ""]%string.

End Phone.

(** ** Sign-in, sessions and staff management *)

Module Staff.

Import Model Text Phone.

Inductive Tab := tab_dash | tab_orders | tab_staff | tab_items | tab_reports | tab_loans.

Definition Role_eqb (a b : Role) : bool :=
  match a, b with
  | admin, admin | waiter, waiter | collector, collector => true
  | _, _ => false
  end.

(** [ROLE_LABEL] *)
Definition ROLE_LABEL (r : Role) : string :=
  match r with
  | admin => "Admin"
  | waiter => "Waiter"
  | collector => "Collector"
  end.

(** A user as the users listener hands it to the screen: the id and the
    role are always there, the name, phone and PIN are whatever the
    database node holds. *)
Record StaffUser := {
  su_id : string;
  su_dbId : option string;
  su_name : option string;
  su_role : Role;
  su_phone : option string;
  su_pin : option string }.

(** What is stored under [rms/users/<key>]: any field may be missing. *)
Record UserNode := {
  un_id : option string;
  un_dbId : option string;
  un_name : option string;
  un_phone : option string;
  un_pin : option string;
  un_role : option Role }.

(** What is stored under [rms/log/<key>]. *)
Record LogNode := {
  ln_userId : string;
  ln_time : string;
  ln_type : string;
  ln_detail : option string }.

(** The item of [localStorage] under [SESSION_KEY]: the object that
    [handleLogin] wrote ([JSON.parse] gives back what [JSON.stringify]
    encoded), or a text that [JSON.parse] rejects.  Other well-formed JSON
    is not modelled. *)
Inductive SessionItem :=
| Session (userId : string) (expiresAt : Z)
| Garbled.

Record Store := {
  st_users : gmap string UserNode;
  st_log : gmap string LogNode;
  st_session : option SessionItem }.

(** The [useState] cells that sign-in and staff management read or write. *)
Record Screen := {
  s_users : list StaffUser;
  s_currentUser : option StaffUser;
  s_banner : option Banner;
  s_draftWaiter : string;
  s_authPhone : string;
  s_authPin : string;
  s_authError : string;
  s_tab : Tab;
  s_sidebarOpen : bool;
  s_profileOpen : bool;
  s_newWaiterName : string;
  s_newWaiterPhone : string;
  s_newWaiterRole : Role;
  s_waiterModalOpen : bool }.

Record Desk := { d_screen : Screen; d_store : Store }.

(** *** State updates *)

Definition with_users (us : list StaffUser) (s : Screen) : Screen :=
  {| s_users := us; s_currentUser := s_currentUser s; s_banner := s_banner s;
     s_draftWaiter := s_draftWaiter s; s_authPhone := s_authPhone s;
     s_authPin := s_authPin s; s_authError := s_authError s; s_tab := s_tab s;
     s_sidebarOpen := s_sidebarOpen s; s_profileOpen := s_profileOpen s;
     s_newWaiterName := s_newWaiterName s; s_newWaiterPhone := s_newWaiterPhone s;
     s_newWaiterRole := s_newWaiterRole s; s_waiterModalOpen := s_waiterModalOpen s |}.

Definition with_currentUser (u : option StaffUser) (s : Screen) : Screen :=
  {| s_users := s_users s; s_currentUser := u; s_banner := s_banner s;
     s_draftWaiter := s_draftWaiter s; s_authPhone := s_authPhone s;
     s_authPin := s_authPin s; s_authError := s_authError s; s_tab := s_tab s;
     s_sidebarOpen := s_sidebarOpen s; s_profileOpen := s_profileOpen s;
     s_newWaiterName := s_newWaiterName s; s_newWaiterPhone := s_newWaiterPhone s;
     s_newWaiterRole := s_newWaiterRole s; s_waiterModalOpen := s_waiterModalOpen s |}.

Definition with_banner (b : option Banner) (s : Screen) : Screen :=
  {| s_users := s_users s; s_currentUser := s_currentUser s; s_banner := b;
     s_draftWaiter := s_draftWaiter s; s_authPhone := s_authPhone s;
     s_authPin := s_authPin s; s_authError := s_authError s; s_tab := s_tab s;
     s_sidebarOpen := s_sidebarOpen s; s_profileOpen := s_profileOpen s;
     s_newWaiterName := s_newWaiterName s; s_newWaiterPhone := s_newWaiterPhone s;
     s_newWaiterRole := s_newWaiterRole s; s_waiterModalOpen := s_waiterModalOpen s |}.

Definition with_draftWaiter (id : string) (s : Screen) : Screen :=
  {| s_users := s_users s; s_currentUser := s_currentUser s; s_banner := s_banner s;
     s_draftWaiter := id; s_authPhone := s_authPhone s;
     s_authPin := s_authPin s; s_authError := s_authError s; s_tab := s_tab s;
     s_sidebarOpen := s_sidebarOpen s; s_profileOpen := s_profileOpen s;
     s_newWaiterName := s_newWaiterName s; s_newWaiterPhone := s_newWaiterPhone s;
     s_newWaiterRole := s_newWaiterRole s; s_waiterModalOpen := s_waiterModalOpen s |}.

Definition with_authError (e : string) (s : Screen) : Screen :=
  {| s_users := s_users s; s_currentUser := s_currentUser s; s_banner := s_banner s;
     s_draftWaiter := s_draftWaiter s; s_authPhone := s_authPhone s;
     s_authPin := s_authPin s; s_authError := e; s_tab := s_tab s;
     s_sidebarOpen := s_sidebarOpen s; s_profileOpen := s_profileOpen s;
     s_newWaiterName := s_newWaiterName s; s_newWaiterPhone := s_newWaiterPhone s;
     s_newWaiterRole := s_newWaiterRole s; s_waiterModalOpen := s_waiterModalOpen s |}.

Definition with_tab (t : Tab) (s : Screen) : Screen :=
  {| s_users := s_users s; s_currentUser := s_currentUser s; s_banner := s_banner s;
     s_draftWaiter := s_draftWaiter s; s_authPhone := s_authPhone s;
     s_authPin := s_authPin s; s_authError := s_authError s; s_tab := t;
     s_sidebarOpen := s_sidebarOpen s; s_profileOpen := s_profileOpen s;
     s_newWaiterName := s_newWaiterName s; s_newWaiterPhone := s_newWaiterPhone s;
     s_newWaiterRole := s_newWaiterRole s; s_waiterModalOpen := s_waiterModalOpen s |}.

Definition with_sidebarOpen (b : bool) (s : Screen) : Screen :=
  {| s_users := s_users s; s_currentUser := s_currentUser s; s_banner := s_banner s;
     s_draftWaiter := s_draftWaiter s; s_authPhone := s_authPhone s;
     s_authPin := s_authPin s; s_authError := s_authError s; s_tab := s_tab s;
     s_sidebarOpen := b; s_profileOpen := s_profileOpen s;
     s_newWaiterName := s_newWaiterName s; s_newWaiterPhone := s_newWaiterPhone s;
     s_newWaiterRole := s_newWaiterRole s; s_waiterModalOpen := s_waiterModalOpen s |}.

Definition with_profileOpen (b : bool) (s : Screen) : Screen :=
  {| s_users := s_users s; s_currentUser := s_currentUser s; s_banner := s_banner s;
     s_draftWaiter := s_draftWaiter s; s_authPhone := s_authPhone s;
     s_authPin := s_authPin s; s_authError := s_authError s; s_tab := s_tab s;
     s_sidebarOpen := s_sidebarOpen s; s_profileOpen := b;
     s_newWaiterName := s_newWaiterName s; s_newWaiterPhone := s_newWaiterPhone s;
     s_newWaiterRole := s_newWaiterRole s; s_waiterModalOpen := s_waiterModalOpen s |}.

(** The four cells of the add-user form. *)
Definition with_form (name phone : string) (role : Role) (open : bool) (s : Screen)
    : Screen :=
  {| s_users := s_users s; s_currentUser := s_currentUser s; s_banner := s_banner s;
     s_draftWaiter := s_draftWaiter s; s_authPhone := s_authPhone s;
     s_authPin := s_authPin s; s_authError := s_authError s; s_tab := s_tab s;
     s_sidebarOpen := s_sidebarOpen s; s_profileOpen := s_profileOpen s;
     s_newWaiterName := name; s_newWaiterPhone := phone;
     s_newWaiterRole := role; s_waiterModalOpen := open |}.

(** *** The database and the session item *)

Definition with_session (item : option SessionItem) (st : Store) : Store :=
  {| st_users := st_users st; st_log := st_log st; st_session := item |}.

Definition with_nodes (m : gmap string UserNode) (st : Store) : Store :=
  {| st_users := m; st_log := st_log st; st_session := st_session st |}.

Definition emptyUserNode : UserNode :=
  {| un_id := None; un_dbId := None; un_name := None; un_phone := None;
     un_pin := None; un_role := None |}.

(** [update(ref, payload)] on a user node: the children that the payload
    names are written, the others stay; a node that does not exist yet
    comes into being with just the payload. *)
Definition mergeUser (name phone pin : option string) (role : option Role)
    (n : option UserNode) : option UserNode :=
  let n0 := default emptyUserNode n in
  Some {| un_id := un_id n0; un_dbId := un_dbId n0;
          un_name := Settlement.orElse name (un_name n0);
          un_phone := Settlement.orElse phone (un_phone n0);
          un_pin := Settlement.orElse pin (un_pin n0);
          un_role := Settlement.orElse role (un_role n0) |}.

(** [addLog(entry)]: [push(dbPath('log'), entry).catch(() => null)], the
    outcome of the write is dropped. *)
Definition addLog (key : string) (result : WriteResult) (entry : LogNode)
    (st : Store) : Store :=
  match result with
  | WriteOk => {| st_users := st_users st; st_log := <[key := entry]> (st_log st);
                  st_session := st_session st |}
  | WriteFailed _ => st
  end.

(** [currentUser?.id ?? 'system'] *)
Definition actor (s : Screen) : string :=
  match s_currentUser s with
  | Some u => su_id u
  | None => "system"
  end.

(** *** The users listener *)

(** [{ id: storedId ?? dbId, dbId, ...rest, role }]: the spread comes
    after [dbId], so a [dbId] child of the node would replace the key. *)
Definition userOfNode (dbId : string) (n : UserNode) : StaffUser :=
  {| su_id := default dbId (un_id n);
     su_dbId := Some (default dbId (un_dbId n));
     su_name := un_name n;
     su_role := default waiter (un_role n);
     su_phone := un_phone n;
     su_pin := un_pin n |}.

(** The callback of [onValue(dbPath('users'), ...)] on the entries of a
    snapshot.  The effect depends on [db] and [currentUser] only, so the
    callback reads [draftWaiter] and [currentUser] as they were in the
    render that subscribed: [draftWaiterSeen] and [currentUserSeen]. *)
Definition usersListener (draftWaiterSeen : string)
    (currentUserSeen : option StaffUser) (entries : list (string * UserNode))
    (s : Screen) : Screen :=
  let list := map (fun e => userOfNode (fst e) (snd e)) entries in
  let s1 := with_users list s in
  let s2 :=
    if String.eqb draftWaiterSeen "" then
      match List.find (fun u => Role_eqb (su_role u) waiter) list with
      | Some firstWaiter => with_draftWaiter (su_id firstWaiter) s1
      | None => s1
      end
    else s1 in
  match currentUserSeen with
  | Some cu =>
      match List.find (fun u => String.eqb (su_id u) (su_id cu)) list with
      | Some _ => s2
      | None => with_currentUser None s2
      end
  | None => s2
  end.

(** *** Sign-in *)

(** [found.role === 'waiter' || found.role === 'collector' ? 'orders' : 'dash'] *)
Definition homeTab (r : Role) : Tab :=
  match r with
  | waiter | collector => tab_orders
  | admin => tab_dash
  end.

(** [user.pin !== pin] *)
Definition pinDiffers (user : StaffUser) (pin : string) : bool :=
  match su_pin user with
  | Some p => negb (String.eqb p pin)
  | None => true
  end.

(** The callback of [users.find] in [handleLogin]; [None] when
    [normalizePhone(user.phone)] throws because the phone is missing. *)
Definition loginMatches (phone normalized pin : string) (user : StaffUser)
    : option bool :=
  if pinDiffers user pin then Some false
  else
    match su_phone user with
    | None => None
    | Some userPhone =>
        let stored := normalizePhone userPhone in
        Some (String.eqb userPhone phone
              || String.eqb stored normalized
              || endsWith stored normalized
              || endsWith normalized stored)
    end.

(** [list.find(callback)] with a callback that may throw. *)
Fixpoint findOrThrow {A} (callback : A -> option bool) (l : list A)
    : option (option A) :=
  match l with
  | [] => Some None
  | x :: r =>
      match callback x with
      | None => None
      | Some true => Some (Some x)
      | Some false => findOrThrow callback r
      end
  end.

(** [`Welcome, ${match.name}!`] *)
Definition welcome (user : StaffUser) : string :=
  ("Welcome, " ++ default "undefined" (su_name user) ++ "!")%string.

(** [handleLogin]: [now] is the clock at [new Date()], [later] at the
    [Date.now()] of the session item; [logKey] and [logWrite] are the key
    and the outcome of the log write. *)
Definition handleLogin (now later : Z) (logKey : string) (logWrite : WriteResult)
    (d : Desk) : Desk :=
  let s := d_screen d in
  if (List.length (s_users s) =? 0)%nat then
    {| d_screen := with_authError "Data is still loading. Try again in a moment." s;
       d_store := d_store d |}
  else
    let phone := trim (s_authPhone s) in
    let normalized := normalizePhone phone in
    let pin := trim (s_authPin s) in
    match findOrThrow (loginMatches phone normalized pin) (s_users s) with
    | None => d
    | Some None =>
        {| d_screen := with_authError "Invalid phone or PIN. Try again." s;
           d_store := d_store d |}
    | Some (Some user) =>
        let s1 :=
          with_banner (Settlement.mkBanner success (welcome user))
            (with_profileOpen false
               (with_sidebarOpen false
                  (with_tab (homeTab (su_role user))
                     (with_currentUser (Some user) (with_authError "" s))))) in
        let s2 := if Role_eqb (su_role user) waiter
                  then with_draftWaiter (su_id user) s1 else s1 in
        let logged :=
          addLog logKey logWrite
            {| ln_userId := su_id user; ln_time := DateModel.toISOString now;
               ln_type := "login"; ln_detail := None |} (d_store d) in
        {| d_screen := s2;
           d_store := with_session (Some (Session (su_id user) (later + 60 * 60 * 1000)))
                        logged |}
    end.

Definition handleLogout (d : Desk) : Desk :=
  {| d_screen :=
       with_profileOpen false
         (with_draftWaiter "" (with_banner None (with_currentUser None (d_screen d))));
     d_store := with_session None (d_store d) |}.

(** The effect that restores a session: it runs when [users] or
    [currentUser] change; [now] is [Date.now()]. *)
Definition restoreSession (now : Z) (d : Desk) : Desk :=
  let s := d_screen d in
  match s_currentUser s with
  | Some _ => d
  | None =>
      match st_session (d_store d) with
      | None => d
      | Some item =>
          if (List.length (s_users s) =? 0)%nat then d
          else
            match item with
            | Garbled => {| d_screen := s; d_store := with_session None (d_store d) |}
            | Session userId expiresAt =>
                if expiresAt <? now then
                  {| d_screen := s; d_store := with_session None (d_store d) |}
                else
                  match List.find (fun u => String.eqb (su_id u) userId) (s_users s) with
                  | Some found =>
                      let s1 := with_currentUser (Some found) s in
                      let s2 := if Role_eqb (su_role found) waiter
                                then with_draftWaiter (su_id found) s1 else s1 in
                      {| d_screen := with_tab (homeTab (su_role found)) s2;
                         d_store := d_store d |}
                  | None => d
                  end
            end
      end
  end.

(** *** Staff management *)

(** [users.find((u) => u.id === id)] *)
Definition userById (s : Screen) (id : string) : option StaffUser :=
  List.find (fun u => String.eqb (su_id u) id) (s_users s).

(** [target?.dbId ?? id] *)
Definition pathIdOf (target : option StaffUser) (id : string) : string :=
  match target with
  | Some u => default id (su_dbId u)
  | None => id
  end.

(** [currentUser?.id === id] *)
Definition isSelf (s : Screen) (id : string) : bool :=
  match s_currentUser s with
  | Some u => String.eqb (su_id u) id
  | None => false
  end.

(** [target?.role === 'admin'] *)
Definition isAdminTarget (target : option StaffUser) : bool :=
  match target with
  | Some u => Role_eqb (su_role u) admin
  | None => false
  end.

(** [addWaiter]: [now] is [Date.now()], [later] the clock when the write
    has settled; [userKey] and [logKey] are the keys that [push] makes. *)
Definition addWaiter (now later : Z) (userKey logKey : string)
    (userWrite logWrite : WriteResult) (d : Desk) : Desk :=
  let s := with_banner None (d_screen d) in
  if String.eqb (trim (s_newWaiterName s)) "" || String.eqb (trim (s_newWaiterPhone s)) ""
  then
    {| d_screen := with_banner (Settlement.mkBanner error "Fill name and phone for the new staff member.") s;
       d_store := d_store d |}
  else
    let pin := "4321"%string in
    let id := String.append "waiter-" (JS.String_ now) in
    let newUser :=
      {| un_id := Some id; un_dbId := None;
         un_name := Some (trim (s_newWaiterName s));
         un_phone := Some (trim (s_newWaiterPhone s));
         un_pin := Some pin; un_role := Some (s_newWaiterRole s) |} in
    match userWrite with
    | WriteOk =>
        let stored := with_nodes (<[userKey := newUser]> (st_users (d_store d))) (d_store d) in
        {| d_screen :=
             with_banner (Settlement.mkBanner success (String.append (ROLE_LABEL (s_newWaiterRole s)) " added."))
               (with_form "" "" waiter false s);
           d_store :=
             addLog logKey logWrite
               {| ln_userId := actor s; ln_time := DateModel.toISOString later;
                  ln_type := "waiter_add";
                  ln_detail := Some (trim (s_newWaiterName s)) |} stored |}
    | WriteFailed message =>
        {| d_screen := with_banner (Settlement.mkBanner error message) s; d_store := d_store d |}
    end.

Definition resetWaiterPin (id : string) (later : Z) (logKey : string)
    (userWrite logWrite : WriteResult) (d : Desk) : Desk :=
  let s := d_screen d in
  let target := userById s id in
  let pathId := pathIdOf target id in
  match userWrite with
  | WriteOk =>
      let stored :=
        with_nodes (partial_alter (mergeUser None None (Some "0000"%string) None) pathId
                      (st_users (d_store d))) (d_store d) in
      {| d_screen := with_banner (Settlement.mkBanner success "PIN reset to 0000.") s;
         d_store :=
           addLog logKey logWrite
             {| ln_userId := actor s; ln_time := DateModel.toISOString later;
                ln_type := "waiter_reset_pin"; ln_detail := Some id |} stored |}
  | WriteFailed message =>
      {| d_screen := with_banner (Settlement.mkBanner error message) s; d_store := d_store d |}
  end.

(** [pin && !/^\d{4}$/.test(pin.trim())] *)
Definition badPin (pin : option string) : bool :=
  match pin with
  | Some p => negb (String.eqb p "") && negb (fourDigits (trim p))
  | None => false
  end.

(** The [pin] of the payload: [pin.trim()] if [pin?.trim()] is not empty. *)
Definition pinPayload (pin : option string) : option string :=
  match pin with
  | Some p => if String.eqb (trim p) "" then None else Some (trim p)
  | None => None
  end.

(** [target?.role === 'admin' || currentUser?.id === id ? target?.role ?? role : role] *)
Definition enforcedRole (s : Screen) (target : option StaffUser) (id : string)
    (role : Role) : Role :=
  if isAdminTarget target || isSelf s id then
    match target with
    | Some u => su_role u
    | None => role
    end
  else role.

Definition updateWaiterProfile (id name phone : string) (role : Role)
    (pin : option string) (later : Z) (logKey : string)
    (userWrite logWrite : WriteResult) (d : Desk) : Desk :=
  let s := d_screen d in
  let nextName := trim name in
  let nextPhone := trim phone in
  if String.eqb nextName "" || String.eqb nextPhone "" then
    {| d_screen := with_banner (Settlement.mkBanner error "Provide both name and phone.") s;
       d_store := d_store d |}
  else
    let target := userById s id in
    if isAdminTarget target && negb (isSelf s id) then
      {| d_screen := with_banner (Settlement.mkBanner error "Admins cannot modify another admin.") s;
         d_store := d_store d |}
    else if badPin pin then
      {| d_screen := with_banner (Settlement.mkBanner error "PIN must be 4 digits.") s;
         d_store := d_store d |}
    else
      let pathId := pathIdOf target id in
      match userWrite with
      | WriteOk =>
          let stored :=
            with_nodes
              (partial_alter
                 (mergeUser (Some nextName) (Some nextPhone) (pinPayload pin)
                            (Some (enforcedRole s target id role)))
                 pathId (st_users (d_store d))) (d_store d) in
          {| d_screen := with_banner (Settlement.mkBanner success "Staff updated.") s;
             d_store :=
               addLog logKey logWrite
                 {| ln_userId := actor s; ln_time := DateModel.toISOString later;
                    ln_type := "waiter_update"; ln_detail := Some nextName |} stored |}
      | WriteFailed message =>
          {| d_screen := with_banner (Settlement.mkBanner error message) s; d_store := d_store d |}
      end.

Definition deleteWaiter (id : string) (later : Z) (logKey : string)
    (userWrite logWrite : WriteResult) (d : Desk) : Desk :=
  let s := d_screen d in
  let target := userById s id in
  if isAdminTarget target && negb (isSelf s id) then
    {| d_screen := with_banner (Settlement.mkBanner error "Admins cannot remove another admin.") s;
       d_store := d_store d |}
  else if isSelf s id then
    {| d_screen := with_banner (Settlement.mkBanner error "Cannot delete the signed-in user.") s;
       d_store := d_store d |}
  else
    let pathId := pathIdOf target id in
    match userWrite with
    | WriteOk =>
        let stored := with_nodes (delete pathId (st_users (d_store d))) (d_store d) in
        {| d_screen := with_banner (Settlement.mkBanner success "Staff removed.") s;
           d_store :=
             addLog logKey logWrite
               {| ln_userId := actor s; ln_time := DateModel.toISOString later;
                  ln_type := "waiter_delete"; ln_detail := Some id |} stored |}
    | WriteFailed message =>
        {| d_screen := with_banner (Settlement.mkBanner error message) s; d_store := d_store d |}
    end.

End Staff.

(** ** What the staff screen keeps *)

Module StaffRules.

Import Model Text Phone Staff.

(** The entries of a users snapshot, turned into the list of the screen. *)
Definition listed (entries : list (string * UserNode)) : list StaffUser :=
  map (fun e => userOfNode (fst e) (snd e)) entries.

(** The screen lists the users of the database, in some arrangement. *)
Definition shown (d : Desk) : Prop :=
  exists entries,
    Permutation entries (map_to_list (st_users (d_store d))) /\
    s_users (d_screen d) = listed entries.

(** No user node has a [dbId] child of its own. *)
Definition plainNodes (st : Store) : Prop :=
  forall k n, st_users st !! k = Some n -> un_dbId n = None.

(** Every PIN in the database is four decimal digits. *)
Definition pinsWellFormed (st : Store) : Prop :=
  forall k n p, st_users st !! k = Some n -> un_pin n = Some p -> fourDigits p = true.

(** The node under [k] is an admin. *)
Definition adminAt (st : Store) (k : string) : Prop :=
  exists n, st_users st !! k = Some n /\ un_role n = Some admin.

(** Whoever is signed in is on the list of the screen. *)
Definition signedInListed (s : Screen) : Prop :=
  forall cu, s_currentUser s = Some cu ->
             exists u, In u (s_users s) /\ su_id u = su_id cu.

(** One move at the sign-in or the staff screen.  The users listener runs
    on a snapshot of the database, with the [currentUser] of the present
    render; [push] makes a key that is not in use; the buttons of the
    staff list act on a listed user, on a screen that shows the
    database. *)
Inductive move : Desk -> Desk -> Prop :=
| move_login now later key r d :
    move d (handleLogin now later key r d)
| move_logout d :
    move d (handleLogout d)
| move_restore now d :
    move d (restoreSession now d)
| move_users draftWaiterSeen entries d :
    Permutation entries (map_to_list (st_users (d_store d))) ->
    move d {| d_screen := usersListener draftWaiterSeen (s_currentUser (d_screen d))
                            entries (d_screen d);
              d_store := d_store d |}
| move_add now later userKey logKey r1 r2 d :
    st_users (d_store d) !! userKey = None ->
    move d (addWaiter now later userKey logKey r1 r2 d)
| move_reset id later logKey r1 r2 d :
    shown d -> In id (map su_id (s_users (d_screen d))) ->
    move d (resetWaiterPin id later logKey r1 r2 d)
| move_update id name phone role pin later logKey r1 r2 d :
    shown d -> In id (map su_id (s_users (d_screen d))) ->
    move d (updateWaiterProfile id name phone role pin later logKey r1 r2 d)
| move_delete id later logKey r1 r2 d :
    shown d -> In id (map su_id (s_users (d_screen d))) ->
    move d (deleteWaiter id later logKey r1 r2 d).

Inductive moves : Desk -> Desk -> Prop :=
| moves_refl d : moves d d
| moves_more d1 d2 d3 : move d1 d2 -> moves d2 d3 -> moves d1 d3.

End StaffRules.

(** ** The order list and the dashboard charts *)

Module Board.

Import Model.

Inductive OrderFilter := show_all | show_active | show_done | show_paid | show_loan.

(** [text.includes(x)] *)
Fixpoint includes (text x : string) : bool :=
  String.prefix x text
  || match text with
     | EmptyString => false
     | String _ rest => includes rest x
     end.

Section Views.

Context {num : Type} {JN : JsNumber num}.

(** [Date] parsing ([None] is an Invalid Date) and [toLowerCase]. *)
Variable parseDate : string -> option Z.
Variable toLowerCase : string -> string.

Definition orderPriority (order : Order num) : Z :=
  match o_status order with
  | None | Some Pending => 2
  | Some Loan => 1
  | Some Paid => 0
  end.

(** [order.waiterId !== orderWaiterFilter] *)
Definition otherWaiter (order : Order num) (orderWaiterFilter : string) : bool :=
  match o_waiterId order with
  | Some id => negb (String.eqb id orderWaiterFilter)
  | None => true
  end.

(** [usersById[order.waiterId]?.name ?? ''], with the lookup of a plain
    object. *)
Definition waiterName (a : App num) (order : Order num) : string :=
  match Reports.usersById a !! Settlement.propertyKey (o_waiterId order) with
  | Some user => default EmptyString (u_name user)
  | None => default EmptyString (JS.inheritedName (Settlement.propertyKey (o_waiterId order)))
  end.

(** The list behind the order tabs; [orderWaiterFilter] and [search] are
    the cells of the waiter drop-down and the search box. *)
Definition ordersFiltered (a : App num) (orderWaiterFilter search : string)
    : list (Order num) :=
  List.filter
    (fun order =>
       if negb (String.eqb orderWaiterFilter "all") && otherWaiter order orderWaiterFilter
       then false
       else
         let text := toLowerCase (o_id order ++ " " ++ waiterName a order)%string in
         includes text (toLowerCase (Text.trim search)))
    (orders a).

Definition isActive (o : Order num) : bool :=
  match o_status o with
  | None | Some Pending => true
  | _ => false
  end.

Definition activeOrders (l : list (Order num)) : list (Order num) := List.filter isActive l.

Definition paidOrders (l : list (Order num)) : list (Order num) :=
  List.filter (fun o => Reports.status_is Paid (o_status o)) l.

Definition loanOrders (l : list (Order num)) : list (Order num) :=
  List.filter (fun o => Reports.status_is Loan (o_status o)) l.

Definition doneOrders (l : list (Order num)) : list (Order num) :=
  paidOrders l ++ loanOrders l.

(** [orderList] for the chip [orderFilter] over [ordersFiltered]. *)
Definition orderList (orderFilter : OrderFilter) (l : list (Order num))
    : list (Order num) :=
  match orderFilter with
  | show_all => l
  | show_active => activeOrders l
  | show_done => doneOrders l
  | show_paid => paidOrders l
  | show_loan => loanOrders l
  end.

(** [new Date(b.time).getTime() - new Date(a.time).getTime()]; [None] is
    NaN. *)
Definition timeDifference (a b : Order num) : option Z :=
  match Reports.newDate parseDate (o_time b), Reports.newDate parseDate (o_time a) with
  | Some tb, Some ta => Some (tb - ta)
  | _, _ => None
  end.

(** The comparator of [orderListSorted]; [Array.prototype.sort] reads a
    NaN result as 0. *)
Definition compareOrders (a b : Order num) : Z :=
  let pa := orderPriority a in
  let pb := orderPriority b in
  if negb (pa =? pb) then pb - pa
  else default 0 (timeDifference a b).

(** [Array.prototype.sort] is stable: elements that compare as equal keep
    their order.  On a list whose times all parse the comparator is a
    total preorder, and every stable sort returns the same array; here an
    insertion sort. *)
Fixpoint insertOrder (x : Order num) (l : list (Order num)) : list (Order num) :=
  match l with
  | [] => [x]
  | y :: r => if compareOrders x y <=? 0 then x :: y :: r else y :: insertOrder x r
  end.

Definition orderListSorted (l : list (Order num)) : list (Order num) :=
  fold_right insertOrder [] l.

(** One entry of [waiterCharts]. *)
Record WaiterChart := {
  wc_waiter : User;
  wc_orders : nat;
  wc_loan : nat;
  wc_paid : nat }.

(** [o.waiterId === w.id] *)
Definition servedBy (w : User) (o : Order num) : bool :=
  match o_waiterId o with
  | Some id => String.eqb id (u_id w)
  | None => false
  end.

Definition waiterCharts (a : App num) : list WaiterChart :=
  let waiters := List.filter (fun u => match u_role u with waiter => true | _ => false end)
                             (users a) in
  map (fun w =>
         let list := List.filter (servedBy w) (orders a) in
         {| wc_waiter := w;
            wc_orders := List.length list;
            wc_loan := List.length (List.filter (fun o => Reports.status_is Loan (o_status o)) list);
            wc_paid := List.length
                         (List.filter (fun o => negb (Reports.status_is Loan (o_status o))) list) |})
      waiters.

Record StatusStats := {
  ss_paid : nat;
  ss_loan : nat;
  ss_pending : nat;
  ss_total : nat }.

Definition waiterStatusStats (a : App num) : StatusStats :=
  {| ss_paid := List.length (List.filter (fun o => Reports.status_is Paid (o_status o)) (orders a));
     ss_loan := List.length (List.filter (fun o => Reports.status_is Loan (o_status o)) (orders a));
     ss_pending := List.length (List.filter isActive (orders a));
     ss_total := List.length (orders a) |}.

End Views.

(** *** What the order list is meant to show *)

Section Meaning.

Context {num : Type}.

Variable parseDate : string -> option Z.

(** [a] may stand before [b]: a more urgent status, or the same urgency
    and not older. *)
Definition mayPrecede (a b : Order num) : Prop :=
  orderPriority b < orderPriority a \/
  (orderPriority a = orderPriority b /\
   exists ta tb, Reports.newDate parseDate (o_time a) = Some ta /\
                 Reports.newDate parseDate (o_time b) = Some tb /\ tb <= ta).

Definition timesParse (l : list (Order num)) : Prop :=
  forall o, In o l -> exists t, Reports.newDate parseDate (o_time o) = Some t.

End Meaning.

End Board.

(** ** Numbers typed into a form *)

Module Input.

(** [n_le0] is [x <= 0] and [n_lt0] is [x < 0] on a JavaScript number
    (both false on NaN, as [x > 0] is). *)
Class JsSign (num : Type) : Type := {
  n_le0 : num -> bool;
  n_lt0 : num -> bool }.

(** [n_ofString] is [Number(s)] and [n_isNaN] is [Number.isNaN(x)]. *)
Class JsInput (num : Type) : Type := {
  n_ofString : string -> num;
  n_isNaN : num -> bool }.

End Input.

(** ** The order form *)

Module Draft.

Import Model Input.

Section Form.

Context {num : Type} {JN : JsNumber num} {JS : JsSign num}.

(** [delete obj[key]] *)
Fixpoint map_delete {V} (key : string) (m : list (string * V)) : list (string * V) :=
  match m with
  | [] => []
  | (k, v) :: r => if String.eqb k key then r else (k, v) :: map_delete key r
  end.

(** [next[key] = qty] on a plain object: the entry is set, but for the key
    [__proto__] where the object has no entry of that name of its own;
    there the assignment goes to the accessor of [Object.prototype], which
    ignores a number. *)
Definition assign {V} (key : string) (v : V) (m : list (string * V)) : list (string * V) :=
  match Reports.map_get key m with
  | None => if String.eqb key "__proto__" then m else Reports.map_set key v m
  | Some _ => Reports.map_set key v m
  end.

(** [updateDraftQty(itemId, qty)].  The draft is an object whose keys are
    item ids, kept here as the list of its entries.  A new key goes to the
    end of the list; in the object a key that is an array index comes
    before the other keys, so the place of an entry in the list says
    nothing about the object: what is looked up under a key does. *)
Definition updateDraftQty (itemId : string) (qty : num) (a : App num) : App num :=
  let prev := draftQty a in
  let next := if n_le0 qty then map_delete itemId prev
              else assign itemId qty prev in
  Settlement.set_draft next (showOrderModal a) a.

(** [draftTotal] *)
Definition draftTotal (a : App num) : num :=
  fold_left (fun sum e => n_add sum (n_mul (snd e) (Reports.priceOf a (fst e))))
            (draftQty a) n_zero.

(** The lines that [handleCreateOrder] takes from the draft. *)
Definition selected (a : App num) : list (OrderItem num) :=
  map (fun e => {| itemId := fst e; qty := snd e |})
      (List.filter (fun e => n_gt0 (snd e)) (draftQty a)).

(** The draft holds each item id at most once. *)
Definition wellKeyed (a : App num) : Prop := List.NoDup (map fst (draftQty a)).

(** A key written in decimal digits only.  A node all of whose keys are of
    this kind may come back from the database as an array, which the
    orders listener takes as it is, without item ids. *)
Definition numeral (s : string) : bool :=
  negb (String.eqb s "") && forallb OrderIds.isDigit (list_ascii_of_string s).

(** The lines of an order form that go into [itemsMap] ([__proto__] does
    not become a key of it), that [set] takes, and that come back as an
    object keyed by item id. *)
Definition storable (lines : list (OrderItem num)) : Prop :=
  Forall (fun l => itemId l <> "__proto__"%string /\
                   Settlement.validKey (itemId l) = true /\
                   n_isFinite (qty l) = true) lines /\
  Exists (fun l => numeral (itemId l) = false) lines.

End Form.

End Draft.

(** ** What a report row adds up *)

Module Tally.

Import Model.

Section Counting.

Context {num : Type} {JN : JsNumber num}.

Variable tz : Z.
Variable parseDate : string -> option Z.

(** The number that [k] increments of [0] by [1] give. *)
Definition counter (k : nat) : num := Nat.iter k (fun x => n_add x n_one) n_zero.

(** The label of the period that an order falls in. *)
Definition labelOf (a : App num) (o : Order num) : option string :=
  option_map (Reports.bucketKey tz (reportTab a)) (Reports.newDate parseDate (o_time o)).

(** The orders of the report that fall in the period labelled [l], in the
    order of the order list. *)
Definition ordersOf (a : App num) (l : string) : list (Order num) :=
  List.filter (fun o => match labelOf a o with
                        | Some k => String.eqb k l
                        | None => false
                        end)
              (Reports.filteredOrders tz parseDate a).

(** [n + 1], [k] times over. *)
Definition increments (k : nat) (n : num) : num := Nat.iter k (fun x => n_add x n_one) n.

(** [order.items.reduce((s, i) => s + i.qty, 0)] *)
Definition itemsOf (o : Order num) : num :=
  fold_left (fun s i => n_add s (qty i)) (o_items o) n_zero.

(** [l] labels the period of order [o]. *)
Definition inBucket (a : App num) (l : string) (o : Order num) : bool :=
  match labelOf a o with
  | Some k => String.eqb k l
  | None => false
  end.

(** The statistics of a bucket after one more order: the assignments to
    [current] in the body of [filteredOrders.forEach]. *)
Definition bump (a : App num) (current : ReportStats num) (order : Order num)
    : ReportStats num :=
  let isLoan := Reports.status_is Loan (o_status order) in
  let isPaid := Reports.status_is Paid (o_status order) in
  {| ordersCount := n_add (ordersCount current) n_one;
     itemsCount := n_add (itemsCount current)
                     (fold_left (fun s i => n_add s (qty i)) (o_items order) n_zero);
     sales := n_add (sales current)
                (fold_left (fun s i => n_add s (n_mul (qty i) (Reports.priceOf a (itemId i))))
                           (o_items order) n_zero);
     paid := if isLoan then paid current
             else if isPaid then n_add (paid current) n_one else paid current;
     loan := if isLoan then n_add (loan current) n_one else loan current;
     pending := if isLoan then pending current
                else if isPaid then pending current
                else n_add (pending current) n_one |}.

Definition isLoan (o : Order num) : bool := Reports.status_is Loan (o_status o).
Definition isPaid (o : Order num) : bool := Reports.status_is Paid (o_status o).
Definition isOpen (o : Order num) : bool := negb (isLoan o) && negb (isPaid o).

End Counting.

End Tally.

(** ** The menu: items, prices and stock *)

Module Pantry.

Import Model Input.

Section Handlers.

Context {num : Type} {JS : JsSign num} {JI : JsInput num}.

(** What is stored under [rms/items/<key>]: any field may be missing. *)
Record ItemNode := {
  in_name : option string;
  in_price : option num;
  in_stock : option num }.

Record ItemStore := {
  is_items : gmap string ItemNode;
  is_log : gmap string Staff.LogNode }.

(** The [useState] cells that the item handlers read or write. *)
Record ItemScreen := {
  p_items : list (Item num);
  p_currentUser : option User;
  p_banner : option Banner;
  p_newItemName : string;
  p_newItemPrice : string;
  p_newItemStock : string;
  p_itemModalOpen : bool;
  p_itemActionItem : option (Item num);
  p_itemActionName : string;
  p_itemActionPrice : string;
  p_itemActionStock : string;
  p_openItemAction : option string }.

Record Shop := { sh_screen : ItemScreen; sh_store : ItemStore }.

Definition with_notice (b : option Banner) (s : ItemScreen) : ItemScreen :=
  {| p_items := p_items s; p_currentUser := p_currentUser s; p_banner := b;
     p_newItemName := p_newItemName s; p_newItemPrice := p_newItemPrice s;
     p_newItemStock := p_newItemStock s; p_itemModalOpen := p_itemModalOpen s;
     p_itemActionItem := p_itemActionItem s; p_itemActionName := p_itemActionName s;
     p_itemActionPrice := p_itemActionPrice s; p_itemActionStock := p_itemActionStock s;
     p_openItemAction := p_openItemAction s |}.

(** The four cells of the add-item form. *)
Definition with_newItem (name price stock : string) (open : bool) (s : ItemScreen) : ItemScreen :=
  {| p_items := p_items s; p_currentUser := p_currentUser s; p_banner := p_banner s;
     p_newItemName := name; p_newItemPrice := price;
     p_newItemStock := stock; p_itemModalOpen := open;
     p_itemActionItem := p_itemActionItem s; p_itemActionName := p_itemActionName s;
     p_itemActionPrice := p_itemActionPrice s; p_itemActionStock := p_itemActionStock s;
     p_openItemAction := p_openItemAction s |}.

(** [setItemActionItem(null); setOpenItemAction(null)] *)
Definition closeItemAction (s : ItemScreen) : ItemScreen :=
  {| p_items := p_items s; p_currentUser := p_currentUser s; p_banner := p_banner s;
     p_newItemName := p_newItemName s; p_newItemPrice := p_newItemPrice s;
     p_newItemStock := p_newItemStock s; p_itemModalOpen := p_itemModalOpen s;
     p_itemActionItem := None; p_itemActionName := p_itemActionName s;
     p_itemActionPrice := p_itemActionPrice s; p_itemActionStock := p_itemActionStock s;
     p_openItemAction := None |}.

Definition with_items (m : gmap string ItemNode) (st : ItemStore) : ItemStore :=
  {| is_items := m; is_log := is_log st |}.

Definition emptyItemNode : ItemNode :=
  {| in_name := None; in_price := None; in_stock := None |}.

(** [update(ref, payload)] on an item node. *)
Definition mergeItem (name : option string) (price stock : option num)
    (n : option ItemNode) : option ItemNode :=
  let n0 := default emptyItemNode n in
  Some {| in_name := Settlement.orElse name (in_name n0);
          in_price := Settlement.orElse price (in_price n0);
          in_stock := Settlement.orElse stock (in_stock n0) |}.

(** [addLog(entry)] from an item handler. *)
Definition logItem (key : string) (result : WriteResult) (entry : Staff.LogNode)
    (st : ItemStore) : ItemStore :=
  match result with
  | WriteOk => {| is_items := is_items st; is_log := <[key := entry]> (is_log st) |}
  | WriteFailed _ => st
  end.

(** [currentUser?.id ?? 'system'] *)
Definition itemActor (s : ItemScreen) : string :=
  match p_currentUser s with
  | Some u => u_id u
  | None => "system"
  end.

(** [Number.isNaN(price) || price <= 0] *)
Definition badPrice (price : num) : bool := n_isNaN price || n_le0 price.

(** [Number.isNaN(stock) || stock < 0] *)
Definition badStock (stock : num) : bool := n_isNaN stock || n_lt0 stock.

Definition updateItemStock (id stockStr : string) (result : WriteResult) (w : Shop)
    : Shop :=
  let s := sh_screen w in
  let stock := n_ofString stockStr in
  if badStock stock then
    {| sh_screen := with_notice (Settlement.mkBanner error "Stock must be 0 or above.") s;
       sh_store := sh_store w |}
  else
    match result with
    | WriteOk =>
        {| sh_screen := with_notice (Settlement.mkBanner success "Stock updated.") s;
           sh_store := with_items (partial_alter (mergeItem None None (Some stock)) id
                                     (is_items (sh_store w))) (sh_store w) |}
    | WriteFailed message =>
        {| sh_screen := with_notice (Settlement.mkBanner error message) s; sh_store := sh_store w |}
    end.

(** [addItem]: [itemKey] and [logKey] are the keys that [push] makes,
    [later] the clock when the write has settled. *)
Definition addItem (later : Z) (itemKey logKey : string)
    (itemWrite logWrite : WriteResult) (w : Shop) : Shop :=
  let s := with_notice None (sh_screen w) in
  if String.eqb (Text.trim (p_newItemName s)) "" then
    {| sh_screen := with_notice (Settlement.mkBanner error "Provide an item name.") s;
       sh_store := sh_store w |}
  else
    let price := n_ofString (p_newItemPrice s) in
    let stock := n_ofString (p_newItemStock s) in
    if badPrice price then
      {| sh_screen := with_notice (Settlement.mkBanner error "Provide a valid price above 0.") s;
         sh_store := sh_store w |}
    else if badStock stock then
      {| sh_screen := with_notice (Settlement.mkBanner error "Provide a stock 0 or above.") s;
         sh_store := sh_store w |}
    else
      let newItem := {| in_name := Some (Text.trim (p_newItemName s));
                        in_price := Some price; in_stock := Some stock |} in
      match itemWrite with
      | WriteOk =>
          {| sh_screen := with_notice (Settlement.mkBanner success "Item added.")
                            (with_newItem "" "0" "0" false s);
             sh_store :=
               logItem logKey logWrite
                 {| Staff.ln_userId := itemActor s;
                    Staff.ln_time := DateModel.toISOString later;
                    Staff.ln_type := "item_add";
                    Staff.ln_detail := Some (Text.trim (p_newItemName s)) |}
                 (with_items (<[itemKey := newItem]> (is_items (sh_store w))) (sh_store w)) |}
      | WriteFailed message =>
          {| sh_screen := with_notice (Settlement.mkBanner error message) s; sh_store := sh_store w |}
      end.

Definition updateItem (later : Z) (logKey : string)
    (itemWrite logWrite : WriteResult) (w : Shop) : Shop :=
  let s := sh_screen w in
  match p_itemActionItem s with
  | None => w
  | Some itemActionItem =>
      let name := Text.trim (p_itemActionName s) in
      let price := n_ofString (p_itemActionPrice s) in
      let stock := n_ofString (p_itemActionStock s) in
      if String.eqb name "" then
        {| sh_screen := with_notice (Settlement.mkBanner error "Provide an item name.") s;
           sh_store := sh_store w |}
      else if badPrice price then
        {| sh_screen := with_notice (Settlement.mkBanner error "Provide a valid price above 0.") s;
           sh_store := sh_store w |}
      else if badStock stock then
        {| sh_screen := with_notice (Settlement.mkBanner error "Provide a stock 0 or above.") s;
           sh_store := sh_store w |}
      else
        match itemWrite with
        | WriteOk =>
            {| sh_screen := with_notice (Settlement.mkBanner success "Item updated.") (closeItemAction s);
               sh_store :=
                 logItem logKey logWrite
                   {| Staff.ln_userId := itemActor s;
                      Staff.ln_time := DateModel.toISOString later;
                      Staff.ln_type := "item_update";
                      Staff.ln_detail := Some name |}
                   (with_items
                      (partial_alter (mergeItem (Some name) (Some price) (Some stock))
                         (item_id itemActionItem) (is_items (sh_store w)))
                      (sh_store w)) |}
        | WriteFailed message =>
            {| sh_screen := with_notice (Settlement.mkBanner error message) s; sh_store := sh_store w |}
        end
  end.

(** [itemsById[id]?.name ?? id], with the lookup of a plain object. *)
Definition itemName (s : ItemScreen) (id : string) : string :=
  match fold_left (fun m item => <[item_id item := item]> m) (p_items s)
                  (∅ : gmap string (Item num)) !! id with
  | Some item => item_name item
  | None => default id (JS.inheritedName id)
  end.

Definition deleteItem (id : string) (later : Z) (logKey : string)
    (itemWrite logWrite : WriteResult) (w : Shop) : Shop :=
  let s := sh_screen w in
  let name := itemName s id in
  match itemWrite with
  | WriteOk =>
      {| sh_screen := with_notice (Settlement.mkBanner success "Item removed.") s;
         sh_store :=
           logItem logKey logWrite
             {| Staff.ln_userId := itemActor s;
                Staff.ln_time := DateModel.toISOString later;
                Staff.ln_type := "item_delete";
                Staff.ln_detail := Some name |}
             (with_items (delete id (is_items (sh_store w))) (sh_store w)) |}
  | WriteFailed message =>
      {| sh_screen := with_notice (Settlement.mkBanner error message) s; sh_store := sh_store w |}
  end.

(** *** What the menu keeps *)

(** Every name in the database is not blank, every price is a number
    above 0 and every stock is a number that is not below 0. *)
Definition itemsWellFormed (st : ItemStore) : Prop :=
  forall k n, is_items st !! k = Some n ->
    (forall name, in_name n = Some name -> name <> EmptyString) /\
    (forall price, in_price n = Some price -> badPrice price = false) /\
    (forall stock, in_stock n = Some stock -> badStock stock = false).

(** One item handler runs; [push] makes a key that is not in use. *)
Inductive stocks : Shop -> Shop -> Prop :=
| stocks_level id stockStr r w :
    stocks w (updateItemStock id stockStr r w)
| stocks_add later itemKey logKey r1 r2 w :
    is_items (sh_store w) !! itemKey = None ->
    stocks w (addItem later itemKey logKey r1 r2 w)
| stocks_update later logKey r1 r2 w :
    stocks w (updateItem later logKey r1 r2 w)
| stocks_delete id later logKey r1 r2 w :
    stocks w (deleteItem id later logKey r1 r2 w).

Inductive restocks : Shop -> Shop -> Prop :=
| restocks_refl w : restocks w w
| restocks_more w1 w2 w3 : stocks w1 w2 -> restocks w2 w3 -> restocks w1 w3.

End Handlers.

Arguments ItemNode : clear implicits.
Arguments ItemStore : clear implicits.
Arguments ItemScreen : clear implicits.
Arguments Shop : clear implicits.

End Pantry.

(** ** Numbers for worked examples of the forms *)

Module Typed.

Import Model Input.

#[export] Instance Z_JsSign : JsSign Z :=
  {| n_le0 := fun x => x <=? 0; n_lt0 := fun x => x <? 0 |}.

(** Whole numbers and NaN ([None]). *)
#[export] Instance whole_JsSign : JsSign (option Z) :=
  {| n_le0 := fun x => match x with Some z => z <=? 0 | None => false end;
     n_lt0 := fun x => match x with Some z => z <? 0 | None => false end |}.

(** [Number] on the texts that the examples type: a run of decimal digits
    is read as its value (the empty text as 0); every other text is taken
    as NaN here. *)
#[export] Instance whole_JsInput : JsInput (option Z) :=
  {| n_ofString := fun s => if OrderIds.allDigits s then Some (OrderIds.Number_ s) else None;
     n_isNaN := fun x => match x with Some _ => false | None => true end |}.

End Typed.

(** ** A small staff, for worked examples *)

Module Office.

Import Model Text Phone Staff StaffRules.

(** The admin, stored without an id of her own. *)
Definition sahra : UserNode :=
  {| un_id := None; un_dbId := None; un_name := Some "Sahra"%string;
     un_phone := Some "+252 90 123 4567"%string; un_pin := Some "2468"%string;
     un_role := Some admin |}.

(** A waiter, as [addWaiter] stores one. *)
Definition bile : UserNode :=
  {| un_id := Some "waiter-1700000000000"%string; un_dbId := None;
     un_name := Some "Bile"%string; un_phone := Some "0907654321"%string;
     un_pin := Some "4321"%string; un_role := Some waiter |}.

Definition store0 : Store :=
  {| st_users := <["-Nu1"%string := sahra]> (<["-Nu2"%string := bile]> ∅);
     st_log := ∅; st_session := None |}.

(** The screen with the staff of [store0] on it, [user] signed in, the
    given phone and PIN typed at sign-in and the given name and phone in
    the add-user form. *)
Definition screen0 (user : option StaffUser) (authPhone authPin name phone : string)
    : Screen :=
  {| s_users := listed (map_to_list (st_users store0));
     s_currentUser := user; s_banner := None; s_draftWaiter := EmptyString;
     s_authPhone := authPhone; s_authPin := authPin; s_authError := EmptyString;
     s_tab := tab_dash; s_sidebarOpen := false; s_profileOpen := false;
     s_newWaiterName := name; s_newWaiterPhone := phone;
     s_newWaiterRole := collector; s_waiterModalOpen := true |}.

(** Nobody signed in, a phone and a PIN typed. *)
Definition frontDesk (authPhone authPin : string) : Desk :=
  {| d_screen := screen0 None authPhone authPin "" ""; d_store := store0 |}.

(** Sahra signed in, the add-user form filled in. *)
Definition backOffice : Desk :=
  {| d_screen := screen0 (Some (userOfNode "-Nu1" sahra)) "" "" " Hodan " "0905550101";
     d_store := store0 |}.

(** The users listener delivers the database of [d]. *)
Definition snapshot (d : Desk) : Desk :=
  {| d_screen := usersListener (s_draftWaiter (d_screen d)) (s_currentUser (d_screen d))
                   (map_to_list (st_users (d_store d))) (d_screen d);
     d_store := d_store d |}.

(** Sahra tries to remove herself, then gives herself a new PIN and tries
    to make herself a waiter, and, once the listener has delivered the
    change, removes Bile. *)
Definition afterTries : Desk :=
  deleteWaiter "waiter-1700000000000" 3000 "-Nlog3" WriteOk WriteOk
    (snapshot
       (updateWaiterProfile "-Nu1" "Sahra" "+252 90 123 4567" waiter (Some "1357"%string)
          2000 "-Nlog2" WriteOk WriteOk
          (deleteWaiter "-Nu1" 1000 "-Nlog1" WriteOk WriteOk backOffice))).

End Office.

(** ** A small menu, for worked examples *)

Module Larder.

Import Model Input Pantry Typed.

Definition teaNode : ItemNode (option Z) :=
  {| in_name := Some "Tea"%string; in_price := Some (Some 5); in_stock := Some (Some 0) |}.

Definition shop0 : Shop (option Z) :=
  {| sh_screen :=
       {| p_items := []; p_currentUser := None; p_banner := None;
          p_newItemName := "Rice"; p_newItemPrice := "10"; p_newItemStock := "";
          p_itemModalOpen := true; p_itemActionItem := None;
          p_itemActionName := EmptyString; p_itemActionPrice := "0";
          p_itemActionStock := "0"; p_openItemAction := None |};
     sh_store := {| is_items := <["-Ni1"%string := teaNode]> ∅; is_log := ∅ |} |}.

(** Rice is added, then twelve teas are put on the shelf. *)
Definition restocked : Shop (option Z) :=
  updateItemStock "-Ni1" "12" WriteOk (addItem 1000 "-Ni2" "-Nlog1" WriteOk WriteOk shop0).

End Larder.

(** ** Orders for worked examples of the order form and the ledger *)

Module Tray.

Import Model Sample Typed Scenario.

(** The form of [world0] with three rices added to its two teas. *)
Definition twoLines : World Z :=
  {| app := Draft.updateDraftQty "-Ni2" 3 (app world0); db := db world0 |}.

(** Order001 as taken by a waiter whose id is no user's but names a
    property of [Object.prototype]. *)
Definition orderOfNobody : Order Z :=
  {| o_id := "order001"; o_waiterId := Some "constructor"%string;
     o_time := Some "2024-01-05T10:00:00.000Z"%string;
     o_items := [{| itemId := "-Ni1"; qty := 2 |}];
     o_status := Some Pending; o_collector := Some EmptyString |}.

(** Order001 without its time. *)
Definition orderUntimed : Order Z :=
  {| o_id := "order001"; o_waiterId := Some "-Nu1"%string; o_time := None;
     o_items := [{| itemId := "-Ni1"; qty := 2 |}];
     o_status := Some Pending; o_collector := Some EmptyString |}.

(** The customer modal of [atModal] over a screen that lists [order]. *)
Definition modalOver (order : Order Z) : World Z :=
  {| app := Settlement.set_lists [order] (loanCustomers (app atModal)) (app atModal);
     db := db atModal |}.

End Tray.

(** * Theorems *)

(** ** The calendar *)

Module DateFacts.

Import DateModel.

Lemma DayFromYear_step y : DayFromYear (y + 1) = DayFromYear y + DaysInYear y.
Proof.
  unfold DayFromYear, DaysInYear, isLeap.
  destruct (Z.eqb_spec (y mod 4) 0), (Z.eqb_spec (y mod 100) 0),
    (Z.eqb_spec (y mod 400) 0); simpl; Z.div_mod_to_equations; lia.
Qed.

Lemma DayFromYear_mono a b : a <= b -> DayFromYear a <= DayFromYear b.
Proof. unfold DayFromYear. intros. Z.div_mod_to_equations. lia. Qed.

(** [YearFromDay d] is the year whose days include [d]. *)
Lemma YearFromDay_bounds d :
  DayFromYear (YearFromDay d) <= d < DayFromYear (YearFromDay d + 1).
Proof.
  unfold YearFromDay, DayFromYear.
  destruct (Z.min_spec ((d + 134774) mod 146097 / 36524) 3) as [[? ->]|[? ->]];
    match goal with
    | |- context [Z.min ?a 3] => destruct (Z.min_spec a 3) as [[? ->]|[? ->]]
    end;
    Z.div_mod_to_equations; lia.
Qed.

Lemma YearFromDay_unique d y :
  DayFromYear y <= d < DayFromYear (y + 1) -> YearFromDay d = y.
Proof.
  intros Hy. pose proof (YearFromDay_bounds d) as Hb.
  destruct (Z.lt_trichotomy (YearFromDay d) y) as [Hlt|[Heq|Hgt]]; [|exact Heq|].
  - pose proof (DayFromYear_mono (YearFromDay d + 1) y ltac:(lia)). lia.
  - pose proof (DayFromYear_mono (y + 1) (YearFromDay d) ltac:(lia)). lia.
Qed.

Lemma YearFromDay_mono a b : a <= b -> YearFromDay a <= YearFromDay b.
Proof.
  intros Hab. pose proof (YearFromDay_bounds a) as Ha.
  pose proof (YearFromDay_bounds b) as Hb.
  destruct (Z.le_gt_cases (YearFromDay a) (YearFromDay b)) as [|Hgt]; [assumption|].
  pose proof (DayFromYear_mono (YearFromDay b + 1) (YearFromDay a) ltac:(lia)). lia.
Qed.

Lemma DayWithinYear_range t :
  0 <= DayWithinYear t < DaysInYear (YearFromTime t).
Proof.
  unfold DayWithinYear, YearFromTime.
  pose proof (YearFromDay_bounds (Day t)) as Hb.
  rewrite DayFromYear_step in Hb. lia.
Qed.

Lemma monthOfYearDay_range leap dy : 0 <= monthOfYearDay leap dy <= 11.
Proof.
  unfold monthOfYearDay.
  repeat match goal with
         | |- context [if ?a <? ?b then _ else _] => destruct (Z.ltb_spec a b)
         end; lia.
Qed.

Lemma Day_MakeDate n r : 0 <= r < msPerDay -> Day (MakeDate n r) = n.
Proof. unfold Day, MakeDate, msPerDay. intros. Z.div_mod_to_equations. lia. Qed.

Lemma TimeWithinDay_MakeDate n r :
  0 <= r < msPerDay -> TimeWithinDay (MakeDate n r) = r.
Proof. unfold TimeWithinDay, MakeDate, msPerDay. intros. Z.div_mod_to_equations. lia. Qed.

(** Year, month and date of a time value make up its day number again. *)
Lemma MakeDay_from_time t :
  MakeDay (YearFromTime t) (MonthFromTime t) (DateFromTime t) = Day t.
Proof.
  unfold MakeDay, DateFromTime.
  pose proof (monthOfYearDay_range (InLeapYear t) (DayWithinYear t)) as Hm.
  fold (MonthFromTime t) in Hm.
  replace (MonthFromTime t / 12) with 0 by (Z.div_mod_to_equations; lia).
  replace (MonthFromTime t mod 12) with (MonthFromTime t)
    by (Z.div_mod_to_equations; lia).
  rewrite Z.add_0_r. fold (InLeapYear t). unfold DayWithinYear. lia.
Qed.

Lemma MakeDay_shift t k :
  MakeDay (YearFromTime t) (MonthFromTime t) (DateFromTime t + k) = Day t + k.
Proof. rewrite <- (MakeDay_from_time t). unfold MakeDay. lia. Qed.

Lemma setUTCDate_days t dt :
  setUTCDate t dt = MakeDate (Day t + (dt - DateFromTime t)) (TimeWithinDay t).
Proof.
  unfold setUTCDate. f_equal.
  replace dt with (DateFromTime t + (dt - DateFromTime t)) at 1 by lia.
  apply MakeDay_shift.
Qed.

Lemma Date_UTC_jan1 y :
  ~ (0 <= y <= 99) -> Date_UTC y 0 1 = MakeDate (DayFromYear y) 0.
Proof.
  intros Hy. unfold Date_UTC.
  destruct ((0 <=? y) && (y <=? 99)) eqn:E.
  - apply andb_true_iff in E. lia.
  - unfold MakeDay, MakeDate.
    change (0 / 12) with 0. change (0 mod 12) with 0.
    replace (y + 0) with y by lia.
    change (monthStart (isLeap y) 0) with 0. lia.
Qed.

Lemma Date_UTC_local tz d :
  ~ (0 <= getFullYear tz d <= 99) ->
  Date_UTC (getFullYear tz d) (getMonth tz d) (getDate tz d)
  = MakeDate (Day (LocalTime tz d)) 0.
Proof.
  intros Hy. unfold Date_UTC.
  destruct ((0 <=? getFullYear tz d) && (getFullYear tz d <=? 99)) eqn:E.
  - apply andb_true_iff in E. lia.
  - unfold getFullYear, getMonth, getDate. now rewrite MakeDay_from_time.
Qed.

(** The ISO definitions say what they should. *)
Lemma thursdayOf_is_thursday n : isoWeekday (thursdayOf n) = 4.
Proof. unfold thursdayOf, isoWeekday. Z.div_mod_to_equations. lia. Qed.

Lemma thursdayOf_same_week n :
  let monday := n - isoWeekday n + 1 in
  isoWeekday monday = 1 /\ monday <= n <= monday + 6 /\ thursdayOf n = monday + 3.
Proof. unfold thursdayOf, isoWeekday. cbv zeta. Z.div_mod_to_equations. lia. Qed.

Lemma firstThursday_spec y :
  isoWeekday (firstThursday y) = 4 /\
  DayFromYear y <= firstThursday y <= DayFromYear y + 6.
Proof. unfold firstThursday, isoWeekday. cbv zeta. Z.div_mod_to_equations. lia. Qed.

Lemma isoWeek_range n : 1 <= isoWeek n <= 53.
Proof.
  unfold isoWeek.
  pose proof (YearFromDay_bounds (thursdayOf n)) as Hb. fold (isoYear n) in Hb.
  rewrite DayFromYear_step in Hb.
  pose proof (thursdayOf_is_thursday n) as HT.
  pose proof (firstThursday_spec (isoYear n)) as [HF HFr].
  assert (DaysInYear (isoYear n) <= 366) by (unfold DaysInYear; destruct isLeap; lia).
  revert HT HF HFr Hb H.
  generalize (thursdayOf n) (firstThursday (isoYear n)) (DayFromYear (isoYear n))
    (DaysInYear (isoYear n)).
  intros T F J L. unfold isoWeekday. intros. Z.div_mod_to_equations. lia.
Qed.

End DateFacts.

(** ** Weekly bucketing *)

Module WeekIdFacts.

Import DateModel DateFacts.

(** Outside the years that [Date.UTC] re-reads, [getWeekId] is the week id
    of the local calendar day. *)
Lemma getWeekId_isoWeekId tz d :
  ~ (0 <= getFullYear tz d <= 99) ->
  ~ (0 <= isoYear (Day (LocalTime tz d)) <= 99) ->
  getWeekId tz d = isoWeekId (Day (LocalTime tz d)).
Proof.
  intros Hy Hy2. unfold getWeekId, isoWeekId.
  set (n := Day (LocalTime tz d)) in *.
  rewrite (Date_UTC_local tz d Hy). fold n.
  assert (Hms : 0 <= 0 < msPerDay) by (unfold msPerDay; lia).
  unfold getUTCDay, WeekDay, getUTCDate, getUTCFullYear.
  rewrite setUTCDate_days.
  rewrite (TimeWithinDay_MakeDate n 0 Hms), !(Day_MakeDate n 0 Hms).
  set (dayNum := if (n + 4) mod 7 =? 0 then 7 else (n + 4) mod 7).
  assert (Hdn : dayNum = isoWeekday n).
  { unfold dayNum, isoWeekday.
    destruct (Z.eqb_spec ((n + 4) mod 7) 0); Z.div_mod_to_equations; lia. }
  replace (n + (DateFromTime (MakeDate n 0) + 4 - dayNum - DateFromTime (MakeDate n 0)))
    with (thursdayOf n) by (unfold thursdayOf; lia).
  unfold YearFromTime. rewrite (Day_MakeDate _ 0 Hms).
  fold (isoYear n).
  rewrite (Date_UTC_jan1 _ Hy2).
  do 3 f_equal.
  unfold isoWeek, firstThursday, JS.ceil_div, MakeDate, msPerDay.
  pose proof (YearFromDay_bounds (thursdayOf n)) as Hb. fold (isoYear n) in Hb.
  pose proof (thursdayOf_is_thursday n) as HT.
  revert HT. generalize (thursdayOf n) (DayFromYear (isoYear n)) Hb. clear.
  intros T J [HJ _] HT. unfold isoWeekday in *.
  Z.div_mod_to_equations. lia.
Qed.

Example isoWeekId_known_dates :
  isoWeekId (MakeDay 2021 0 3) = "2020-W53"%string /\
  isoWeekId (MakeDay 2015 11 31) = "2015-W53"%string /\
  isoWeekId (MakeDay 2024 11 30) = "2025-W1"%string /\
  isoWeekId (MakeDay 2026 0 1) = "2026-W1"%string.
Proof. vm_compute. repeat split; reflexivity. Qed.




End WeekIdFacts.

(** ** String order and decimal labels *)

Module StringFacts.

Import Labels.

Lemma ascii_compare_refl a : Ascii.compare a a = Eq.
Proof. unfold Ascii.compare. apply N.compare_refl. Qed.

Lemma ascii_compare_Gt_trans a b c :
  Ascii.compare a b = Gt -> Ascii.compare b c = Gt -> Ascii.compare a c = Gt.
Proof. unfold Ascii.compare. rewrite !N.compare_gt_iff. lia. Qed.

Lemma compare_Gt_trans a : forall b c,
  String.compare a b = Gt -> String.compare b c = Gt -> String.compare a c = Gt.
Proof.
  induction a as [|x a IH]; intros [|y b] [|z c]; simpl; try congruence.
  destruct (Ascii.compare x y) eqn:Exy; try discriminate;
    destruct (Ascii.compare y z) eqn:Eyz; try discriminate; intros H1 H2.
  - apply Ascii.compare_eq_iff in Exy, Eyz. subst. rewrite ascii_compare_refl. eauto.
  - apply Ascii.compare_eq_iff in Exy. subst. now rewrite Eyz.
  - apply Ascii.compare_eq_iff in Eyz. subst. now rewrite Exy.
  - now rewrite (ascii_compare_Gt_trans x y z).
Qed.

Lemma str_gt_trans a b c :
  JS.str_gt a b = true -> JS.str_gt b c = true -> JS.str_gt a c = true.
Proof.
  unfold JS.str_gt.
  destruct (String.compare a b) eqn:E1; try discriminate.
  destruct (String.compare b c) eqn:E2; try discriminate.
  now rewrite (compare_Gt_trans a b c).
Qed.

Lemma str_gt_total a b : a <> b -> JS.str_gt a b = false -> JS.str_gt b a = true.
Proof.
  unfold JS.str_gt. intros Hne. rewrite (String.compare_antisym b a).
  destruct (String.compare a b) eqn:E; simpl; try congruence.
  apply String.compare_eq_iff in E. contradiction.
Qed.

Lemma str_gt_Gt a b : JS.str_gt a b = true <-> String.compare a b = Gt.
Proof. unfold JS.str_gt. destruct (String.compare a b); split; congruence. Qed.

Lemma compare_app_same_length s1 : forall s2 r1 r2,
  String.length s1 = String.length s2 ->
  String.compare (s1 ++ r1) (s2 ++ r2) =
  match String.compare s1 s2 with Eq => String.compare r1 r2 | c => c end.
Proof.
  induction s1 as [|x s1 IH]; intros [|y s2] r1 r2 Hlen; simpl in *; try discriminate.
  - reflexivity.
  - destruct (Ascii.compare x y); try reflexivity. apply IH. congruence.
Qed.

Lemma digit_compare a b :
  0 <= a <= 9 -> 0 <= b <= 9 -> Ascii.compare (digit a) (digit b) = (a ?= b).
Proof.
  intros Ha Hb. unfold Ascii.compare, digit.
  rewrite !N_ascii_embedding by lia.
  rewrite Z2N.inj_compare by lia.
  destruct (Z.compare_spec a b);
    [apply Z.compare_eq_iff|apply Z.compare_lt_iff|apply Z.compare_gt_iff]; lia.
Qed.

Ltac by_compare :=
  symmetry;
  first [ apply Z.compare_eq_iff; Z.div_mod_to_equations; lia
        | apply Z.compare_lt_iff; Z.div_mod_to_equations; lia
        | apply Z.compare_gt_iff; Z.div_mod_to_equations; lia ].

Lemma digits2_compare a b :
  0 <= a <= 99 -> 0 <= b <= 99 -> String.compare (digits2 a) (digits2 b) = (a ?= b).
Proof.
  intros Ha Hb. unfold digits2. simpl.
  rewrite !digit_compare by (Z.div_mod_to_equations; lia).
  destruct (Z.compare_spec (a / 10) (b / 10));
    [destruct (Z.compare_spec (a mod 10) (b mod 10))| |]; by_compare.
Qed.

Lemma digits4_compare a b :
  0 <= a <= 9999 -> 0 <= b <= 9999 -> String.compare (digits4 a) (digits4 b) = (a ?= b).
Proof.
  intros Ha Hb. unfold digits4.
  change (String.compare (String ?x (String ?y ?s)) (String ?x' (String ?y' ?s')))
    with (match Ascii.compare x x' with
          | Eq => match Ascii.compare y y' with Eq => String.compare s s' | ne => ne end
          | ne => ne
          end).
  rewrite !digit_compare by (Z.div_mod_to_equations; lia).
  rewrite digits2_compare by (Z.div_mod_to_equations; lia).
  destruct (Z.compare_spec (a / 1000) (b / 1000));
    [destruct (Z.compare_spec (a / 100 mod 10) (b / 100 mod 10));
       [destruct (Z.compare_spec (a mod 100) (b mod 100))| |] | |];
    by_compare.
Qed.

Lemma forall_upto_spec P n :
  forall_upto P n = true -> forall z, 0 <= z < Z.of_nat n -> P z = true.
Proof.
  induction n as [|k IH]; simpl; intros H z Hz; [lia|].
  apply andb_true_iff in H as [H1 H2].
  destruct (Z.eq_dec z (Z.of_nat k)) as [->|Hne]; [assumption|].
  apply IH; [assumption|lia].
Qed.

Lemma forall_below (P : Z -> bool) (n : Z) :
  forall_upto P (Z.to_nat n) = true -> forall z, 0 <= z < n -> P z = true.
Proof. intros H z Hz. apply (forall_upto_spec P (Z.to_nat n) H). lia. Qed.

(** Padding to two and to four digits, checked number by number. *)
Lemma pad2_digits2 n : 0 <= n <= 99 -> DateModel.pad 2 n = digits2 n.
Proof.
  intros Hn. apply String.eqb_eq.
  apply (forall_below (fun z => String.eqb (DateModel.pad 2 z) (digits2 z)) 100);
    [vm_compute; reflexivity|lia].
Qed.

Lemma pad4_digits4 n : 0 <= n <= 9999 -> DateModel.pad 4 n = digits4 n.
Proof.
  intros Hn. apply String.eqb_eq.
  apply (forall_below (fun z => String.eqb (DateModel.pad 4 z) (digits4 z)) 10000);
    [vm_compute; reflexivity|lia].
Qed.

Lemma String_digits4 n : 1000 <= n <= 9999 -> JS.String_ n = digits4 n.
Proof.
  intros Hn. apply String.eqb_eq.
  pose proof (forall_below
    (fun z => (z <? 1000) || String.eqb (JS.String_ z) (digits4 z)) 10000) as H.
  specialize (H ltac:(vm_compute; reflexivity) n ltac:(lia)).
  apply orb_true_iff in H as [H|H]; [lia|assumption].
Qed.

Lemma dayLabel_compare y1 m1 d1 y2 m2 d2 :
  0 <= y1 <= 9999 -> 0 <= y2 <= 9999 -> 0 <= m1 <= 99 -> 0 <= m2 <= 99 ->
  0 <= d1 <= 99 -> 0 <= d2 <= 99 ->
  String.compare (dayLabel y1 m1 d1) (dayLabel y2 m2 d2) = lex3 y1 m1 d1 y2 m2 d2.
Proof.
  intros. unfold dayLabel, lex3.
  rewrite compare_app_same_length by reflexivity.
  rewrite digits4_compare by lia.
  destruct (y1 ?= y2); try reflexivity.
  change (String.compare ("-" ++ ?a) ("-" ++ ?b)) with (String.compare a b).
  rewrite compare_app_same_length by reflexivity.
  rewrite digits2_compare by lia.
  destruct (m1 ?= m2); try reflexivity.
  change (String.compare ("-" ++ ?a) ("-" ++ ?b)) with (String.compare a b).
  now rewrite digits2_compare by lia.
Qed.

Lemma monthLabel_compare y1 m1 y2 m2 :
  0 <= y1 <= 9999 -> 0 <= y2 <= 9999 -> 0 <= m1 <= 99 -> 0 <= m2 <= 99 ->
  String.compare (monthLabel y1 m1) (monthLabel y2 m2)
  = match y1 ?= y2 with Eq => m1 ?= m2 | c => c end.
Proof.
  intros. unfold monthLabel.
  rewrite compare_app_same_length by reflexivity.
  rewrite digits4_compare by lia.
  destruct (y1 ?= y2); try reflexivity.
  change (String.compare ("-" ++ ?a) ("-" ++ ?b)) with (String.compare a b).
  now rewrite digits2_compare by lia.
Qed.

End StringFacts.

(** ** The report aggregator *)

Module ReportFacts.

Import DateModel DateFacts Model Reports Labels StringFacts.

Lemma monthOfYearDay_lt leap a b :
  monthOfYearDay leap a < monthOfYearDay leap b -> a < b.
Proof.
  unfold monthOfYearDay. destruct leap;
    repeat match goal with
           | |- context [if ?x <? ?y then _ else _] => destruct (Z.ltb_spec x y)
           end; lia.
Qed.

Lemma MonthFromTime_range t : 0 <= MonthFromTime t <= 11.
Proof. apply monthOfYearDay_range. Qed.

Lemma DateFromTime_range t : 1 <= DateFromTime t <= 31.
Proof.
  unfold DateFromTime, MonthFromTime.
  pose proof (DayWithinYear_range t) as Hr. unfold DaysInYear in Hr.
  fold (InLeapYear t) in Hr.
  revert Hr. generalize (DayWithinYear t) (InLeapYear t). intros dy leap Hr.
  unfold monthOfYearDay, monthStart. destruct leap;
    repeat match goal with
           | |- context [if ?x <? ?y then _ else _] => destruct (Z.ltb_spec x y)
           end; simpl; lia.
Qed.

(** Civil dates are ordered as their day numbers are. *)
Lemma civil_compare t1 t2 :
  lex3 (YearFromTime t1) (MonthFromTime t1) (DateFromTime t1)
       (YearFromTime t2) (MonthFromTime t2) (DateFromTime t2)
  = (Day t1 ?= Day t2).
Proof.
  unfold lex3.
  pose proof (YearFromDay_bounds (Day t1)) as B1.
  pose proof (YearFromDay_bounds (Day t2)) as B2.
  fold (YearFromTime t1) in B1. fold (YearFromTime t2) in B2.
  destruct (Z.compare_spec (YearFromTime t1) (YearFromTime t2)) as [Hy|Hy|Hy].
  - unfold DateFromTime, MonthFromTime, InLeapYear, DayWithinYear. rewrite Hy.
    set (leap := isLeap (YearFromTime t2)). set (J := DayFromYear (YearFromTime t2)).
    destruct (Z.compare_spec (monthOfYearDay leap (Day t1 - J))
                             (monthOfYearDay leap (Day t2 - J))) as [Hm|Hm|Hm].
    + rewrite Hm.
      destruct (Z.compare_spec (Day t1) (Day t2));
        [apply Z.compare_eq_iff|apply Z.compare_lt_iff|apply Z.compare_gt_iff]; lia.
    + apply monthOfYearDay_lt in Hm. symmetry. apply Z.compare_lt_iff. lia.
    + apply monthOfYearDay_lt in Hm. symmetry. apply Z.compare_gt_iff. lia.
  - symmetry. apply Z.compare_lt_iff.
    pose proof (DayFromYear_mono (YearFromTime t1 + 1) (YearFromTime t2) ltac:(lia)). lia.
  - symmetry. apply Z.compare_gt_iff.
    pose proof (DayFromYear_mono (YearFromTime t2 + 1) (YearFromTime t1) ltac:(lia)). lia.
Qed.

(** The first ten characters of the ISO string of a four-digit year. *)
Lemma daily_key t :
  0 <= YearFromTime t <= 9999 ->
  String.substring 0 10 (toISOString t)
  = dayLabel (YearFromTime t) (MonthFromTime t + 1) (DateFromTime t).
Proof.
  intros Hy. unfold toISOString, isoYearString.
  replace ((0 <=? YearFromTime t) && (YearFromTime t <=? 9999)) with true
    by (symmetry; apply andb_true_iff; split; apply Z.leb_le; lia).
  pose proof (MonthFromTime_range t) as Hm.
  pose proof (DateFromTime_range t) as Hd.
  rewrite pad4_digits4 by lia.
  rewrite !(pad2_digits2 (MonthFromTime t + 1)) by lia.
  rewrite !(pad2_digits2 (DateFromTime t)) by lia.
  unfold dayLabel, digits4, digits2.
  cbn [String.substring String.append]. reflexivity.
Qed.

Lemma setHours_endOfDay_spec tz e : endOfLocalDay tz e (setHours_endOfDay tz e).
Proof.
  unfold endOfLocalDay, setHours_endOfDay, LocalTime, UTC, Day, TimeWithinDay,
    MakeDate, msPerDay.
  split; Z.div_mod_to_equations; lia.
Qed.

Lemma endOfLocalDay_unique tz e e' :
  endOfLocalDay tz e e' -> e' = setHours_endOfDay tz e.
Proof.
  unfold endOfLocalDay, setHours_endOfDay, LocalTime, UTC, Day, TimeWithinDay,
    MakeDate, msPerDay.
  intros [H1 H2]. Z.div_mod_to_equations. lia.
Qed.

Lemma status_is_true s o : status_is s o = true <-> o = Some s.
Proof.
  unfold status_is. destruct o as [x|]; [|split; discriminate].
  destruct x, s; simpl; split; intros H; try discriminate; try reflexivity; congruence.
Qed.

Section Aggregator.

Context {num : Type} {JN : JsNumber num}.
Variable tz : Z.
Variable parseDate : string -> option Z.

Lemma lower_ok (a : App num) t :
  match startDate parseDate a with Some s => before t s | None => false end = false <->
  (forall s, reportStart a <> EmptyString -> parseDate (reportStart a) = Some s -> s <= t).
Proof.
  unfold startDate, before.
  destruct (String.eqb_spec (reportStart a) "") as [Es|Es].
  - split; [congruence|reflexivity].
  - destruct (parseDate (reportStart a)) as [s|].
    + split.
      * intros H s' _ [= <-]. apply Z.ltb_ge. exact H.
      * intros H. apply Z.ltb_ge, H; [assumption|reflexivity].
    + split; [discriminate|reflexivity].
Qed.

Lemma upper_ok (a : App num) t :
  match endDate tz parseDate a with Some e => after t e | None => false end = false <->
  (forall e, reportEnd a <> EmptyString -> parseDate (reportEnd a) = Some e ->
     exists e', endOfLocalDay tz e e' /\ t <= e').
Proof.
  unfold endDate, after.
  destruct (String.eqb_spec (reportEnd a) "") as [Es|Es].
  - split; [congruence|reflexivity].
  - destruct (parseDate (reportEnd a)) as [e|]; simpl.
    + split.
      * intros H e0 _ [= <-]. exists (setHours_endOfDay tz e).
        split; [apply setHours_endOfDay_spec|]. apply Z.ltb_ge. exact H.
      * intros H. destruct (H e Es eq_refl) as (e' & He' & Hle).
        apply endOfLocalDay_unique in He'. subst e'. now apply Z.ltb_ge.
    + split; [discriminate|reflexivity].
Qed.

Lemma status_ok (a : App num) (o : Order num) :
  match reportStatus a with
  | only_paid => negb (status_is Paid (o_status o)) | _ => false end = false /\
  match reportStatus a with
  | only_loan => negb (status_is Loan (o_status o)) | _ => false end = false <->
  statusAdmits (reportStatus a) (o_status o).
Proof.
  destruct (reportStatus a); simpl.
  - tauto.
  - rewrite negb_false_iff, status_is_true. tauto.
  - rewrite negb_false_iff, status_is_true. tauto.
Qed.

Lemma keepOrder_true (a : App num) (o : Order num) :
  keepOrder tz parseDate a o = true <->
  exists t, newDate parseDate (o_time o) = Some t /\
    (forall s, reportStart a <> EmptyString -> parseDate (reportStart a) = Some s -> s <= t) /\
    (forall e, reportEnd a <> EmptyString -> parseDate (reportEnd a) = Some e ->
       exists e', endOfLocalDay tz e e' /\ t <= e') /\
    statusAdmits (reportStatus a) (o_status o).
Proof.
  unfold keepOrder.
  destruct (newDate parseDate (o_time o)) as [t|];
    [|split; [discriminate|intros (t & H & _); discriminate]].
  split.
  - intros H. exists t. split; [reflexivity|].
    rewrite <- lower_ok, <- upper_ok, <- status_ok.
    repeat match type of H with
           | (if ?c then _ else _) = _ => destruct c eqn:?; try discriminate
           end.
    auto.
  - intros (t' & [= <-] & H1 & H2 & H3).
    apply lower_ok in H1. apply upper_ok in H2. apply status_ok in H3 as [H3 H4].
    now rewrite H1, H2, H3, H4.
Qed.

Lemma map_set_keys {V} (k : string) (v : V) m x :
  In x (map fst (map_set k v m)) <-> x = k \/ In x (map fst m).
Proof.
  induction m as [|[k' v'] m IH]; simpl.
  - intuition.
  - destruct (String.eqb_spec k' k) as [->|Hne]; simpl.
    + intuition.
    + rewrite IH. intuition.
Qed.

Lemma map_set_NoDup {V} (k : string) (v : V) m :
  List.NoDup (map fst m) -> List.NoDup (map fst (map_set k v m)).
Proof.
  induction m as [|[k' v'] m IH]; simpl; intros Hnd.
  - constructor; [intros []|constructor].
  - inversion Hnd as [|? ? Hnotin Hnd']; subst.
    destruct (String.eqb_spec k' k) as [->|Hne]; simpl.
    + constructor; assumption.
    + constructor; [|auto].
      rewrite map_set_keys. intros [->|Hin]; [congruence|contradiction].
Qed.

Lemma fold_addOrder_NoDup a os : forall b,
  List.NoDup (map fst b) ->
  List.NoDup (map fst (fold_left (addOrder tz parseDate a) os b)).
Proof.
  induction os as [|o os IH]; simpl; intros b Hnd; [assumption|].
  apply IH. unfold addOrder.
  destruct (newDate parseDate (o_time o)); [|assumption].
  now apply map_set_NoDup.
Qed.

Lemma fold_addOrder_keys a os : forall b l,
  In l (map fst (fold_left (addOrder tz parseDate a) os b)) <->
  In l (map fst b) \/
  exists o t, In o os /\ newDate parseDate (o_time o) = Some t /\
              l = bucketKey tz (reportTab a) t.
Proof.
  induction os as [|o os IH]; simpl; intros b l.
  - split; [auto|]. intros [H|(o & t & [] & _)]. exact H.
  - rewrite IH. unfold addOrder at 1.
    destruct (newDate parseDate (o_time o)) as [t|] eqn:Et.
    + rewrite map_set_keys. split.
      * intros [[->|H]|(o' & t' & Hin & Ht & Hl)]; eauto 8.
      * intros [H|(o' & t' & [<-|Hin] & Ht & Hl)]; eauto 8.
        left. left. congruence.
    + split.
      * intros [H|(o' & t' & Hin & Ht & Hl)]; eauto 8.
      * intros [H|(o' & t' & [<-|Hin] & Ht & Hl)]; eauto 8. congruence.
Qed.

Lemma insertEntry_perm {V} (e : string * V) l : Permutation (insertEntry e l) (e :: l).
Proof.
  induction l as [|x r IH]; simpl; [reflexivity|].
  destruct (compareLabels (fst e) (fst x) <? 0); [reflexivity|].
  rewrite IH. apply perm_swap.
Qed.

Lemma sortEntries_perm {V} (l : list (string * V)) : Permutation (sortEntries l) l.
Proof.
  induction l as [|e l IH]; simpl; [reflexivity|].
  rewrite insertEntry_perm. now constructor.
Qed.

Lemma compareLabels_neg a b : (compareLabels a b <? 0) = JS.str_gt a b.
Proof. unfold compareLabels. destruct (JS.str_gt a b); reflexivity. Qed.

Lemma insertEntry_sorted {V} (e : string * V) l :
  StronglySorted desc l -> ~ In (fst e) (map fst l) ->
  StronglySorted desc (insertEntry e l).
Proof.
  induction l as [|x r IH]; simpl; intros Hs Hnin.
  - repeat constructor.
  - inversion Hs as [|? ? Hs' Hall]; subst.
    rewrite compareLabels_neg.
    destruct (JS.str_gt (fst e) (fst x)) eqn:Egt.
    + constructor; [assumption|]. constructor; [exact Egt|].
      eapply List.Forall_impl; [|exact Hall].
      intros y Hy. unfold desc in *. eapply str_gt_trans; eassumption.
    + constructor.
      * apply IH; [assumption|tauto].
      * apply List.Forall_forall. intros y Hy.
        apply (Permutation_in _ (insertEntry_perm e r)) in Hy as [<-|Hy].
        -- apply str_gt_total; [|assumption]. intros Heq. apply Hnin. now left.
        -- rewrite List.Forall_forall in Hall. now apply Hall.
Qed.

Lemma sortEntries_sorted {V} (l : list (string * V)) :
  List.NoDup (map fst l) -> StronglySorted desc (sortEntries l).
Proof.
  induction l as [|e l IH]; simpl; intros Hnd; [constructor|].
  inversion Hnd as [|? ? Hnin Hnd']; subst.
  apply insertEntry_sorted; [auto|].
  intros Hin. apply Hnin.
  eapply Permutation_in; [|exact Hin].
  apply Permutation_map, sortEntries_perm.
Qed.

Lemma reportRows_sorted a :
  StronglySorted (fun r1 r2 : ReportRow num => JS.str_gt (label r1) (label r2) = true)
                 (reportRows tz parseDate a).
Proof.
  unfold reportRows.
  pose proof (sortEntries_sorted (buckets tz parseDate a)) as Hs.
  specialize (Hs (fold_addOrder_NoDup a _ [] (List.NoDup_nil _))).
  induction Hs as [|e l Hs IH Hall]; simpl; constructor; [assumption|].
  apply List.Forall_map. eapply List.Forall_impl; [|exact Hall]. intros y Hy. exact Hy.
Qed.

Lemma reportRows_labels (a : App num) (l : string) :
  In l (map label (reportRows tz parseDate a)) <->
  exists o t, In o (filteredOrders tz parseDate a) /\
              newDate parseDate (o_time o) = Some t /\
              l = bucketKey tz (reportTab a) t.
Proof.
  unfold reportRows. rewrite List.map_map. simpl.
  change (map (fun x : string * ReportStats num => x.1))
    with (map (@fst string (ReportStats num))).
  split.
  - intros H. eapply Permutation_in in H; [|apply Permutation_map, sortEntries_perm].
    unfold buckets in H. apply fold_addOrder_keys in H as [[]|H]. exact H.
  - intros H.
    eapply Permutation_in; [apply Permutation_map, Permutation_sym, sortEntries_perm|].
    unfold buckets. apply fold_addOrder_keys. now right.
Qed.

End Aggregator.

End ReportFacts.

Module ReportClaims.

Import DateModel DateFacts Model Sample Reports Labels StringFacts ReportFacts.

Lemma compare_succ a b : (a + 1 ?= b + 1) = (a ?= b).
Proof. rewrite (Z.add_comm a 1), (Z.add_comm b 1). apply Z.add_compare_mono_l. Qed.

Lemma monthly_key tz t :
  1000 <= getFullYear tz t <= 9999 ->
  bucketKey tz monthly t = monthLabel (getFullYear tz t) (getMonth tz t + 1).
Proof.
  intros Hy. unfold bucketKey, monthLabel.
  pose proof (MonthFromTime_range (LocalTime tz t)) as Hm. fold (getMonth tz t) in Hm.
  rewrite String_digits4 by assumption.
  change (JS.padStart 2 "0" (JS.String_ ?n)) with (pad 2 n).
  now rewrite pad2_digits2 by lia.
Qed.

(** On labels with four-digit years, the later period has the greater
    label. *)
Lemma bucketKey_order tz tab t1 t2 :
  tab <> weekly -> fourDigitYear tz tab t1 -> fourDigitYear tz tab t2 ->
  (JS.str_gt (bucketKey tz tab t1) (bucketKey tz tab t2) = true
   <-> period tz tab t2 < period tz tab t1).
Proof.
  intros Hw H1 H2. rewrite str_gt_Gt.
  destruct tab; unfold fourDigitYear, bucketKey, period in *; [| congruence | |].
  - rewrite !daily_key by assumption.
    pose proof (MonthFromTime_range t1). pose proof (MonthFromTime_range t2).
    pose proof (DateFromTime_range t1). pose proof (DateFromTime_range t2).
    rewrite dayLabel_compare by lia.
    rewrite <- Z.compare_gt_iff, <- civil_compare. unfold lex3.
    now rewrite compare_succ.
  - fold (bucketKey tz monthly t1). fold (bucketKey tz monthly t2).
    rewrite !monthly_key by assumption.
    pose proof (MonthFromTime_range (LocalTime tz t1)) as Hm1.
    pose proof (MonthFromTime_range (LocalTime tz t2)) as Hm2.
    fold (getMonth tz t1) in Hm1. fold (getMonth tz t2) in Hm2.
    rewrite monthLabel_compare by lia.
    rewrite compare_succ.
    destruct (Z.compare_spec (getFullYear tz t1) (getFullYear tz t2)).
    + rewrite Z.compare_gt_iff; lia.
    + split; [discriminate|lia].
    + split; [lia|reflexivity].
  - rewrite !String_digits4 by assumption.
    rewrite digits4_compare by lia. apply Z.compare_gt_iff.
Qed.

Lemma StronglySorted_later {A} (R : A -> A -> Prop) pre x rest y :
  StronglySorted R (pre ++ x :: rest) -> In y rest -> R x y.
Proof.
  induction pre as [|p pre IH]; simpl; intros Hs Hy.
  - apply StronglySorted_inv in Hs as [_ Hall].
    rewrite List.Forall_forall in Hall. now apply Hall.
  - apply StronglySorted_inv in Hs as [Hs _]. now apply IH.
Qed.

Section Claims.

Context {num : Type} {JN : JsNumber num}.
Variable tz : Z.
Variable parseDate : string -> option Z.

(** C6: the aggregator takes an order in exactly when its time parses to
    an instant, the instant is not before the start of the range nor after
    23:59:59.999 local time of the day the range ends on (a bound left
    empty or unreadable does not restrict), and the status filter admits
    the order; so no pending order passes a paid or a loan filter.  The
    rows of the report are the buckets of exactly these orders. *)
Theorem report_includes_iff (a : App num) :
  (forall o : Order num,
     In o (filteredOrders tz parseDate a) <->
     In o (orders a) /\
     exists t, newDate parseDate (o_time o) = Some t /\
       (forall s, reportStart a <> EmptyString ->
                  parseDate (reportStart a) = Some s -> s <= t) /\
       (forall e, reportEnd a <> EmptyString ->
                  parseDate (reportEnd a) = Some e ->
                  exists e', endOfLocalDay tz e e' /\ t <= e') /\
       statusAdmits (reportStatus a) (o_status o)) /\
  (forall o : Order num,
     reportStatus a <> all ->
     o_status o = Some Pending \/ o_status o = None ->
     ~ In o (filteredOrders tz parseDate a)) /\
  (forall l : string,
     In l (map label (reportRows tz parseDate a)) <->
     exists o t, In o (filteredOrders tz parseDate a) /\
                 newDate parseDate (o_time o) = Some t /\
                 l = bucketKey tz (reportTab a) t).
Proof.
  assert (Hiff : forall o : Order num,
     In o (filteredOrders tz parseDate a) <->
     In o (orders a) /\
     exists t, newDate parseDate (o_time o) = Some t /\
       (forall s, reportStart a <> EmptyString ->
                  parseDate (reportStart a) = Some s -> s <= t) /\
       (forall e, reportEnd a <> EmptyString ->
                  parseDate (reportEnd a) = Some e ->
                  exists e', endOfLocalDay tz e e' /\ t <= e') /\
       statusAdmits (reportStatus a) (o_status o)).
  { intros o. unfold filteredOrders. now rewrite List.filter_In, keepOrder_true. }
  split; [exact Hiff|split].
  - intros o Hall Hst Hin. apply Hiff in Hin as (_ & t & _ & _ & _ & Hadm).
    destruct (reportStatus a); simpl in Hadm; [congruence| |];
      destruct Hst as [Hst|Hst]; congruence.
  - apply reportRows_labels.
Qed.

(** C9: whatever the orders and the bucketing mode, the rows of the report
    are in strictly descending order of their labels, compared as strings;
    for the daily, monthly and yearly labels with a four-digit year
    (YYYY-MM-DD, YYYY-MM, YYYY) a label is greater exactly when its
    period is later, so of two rows the one listed first is the one of
    the more recent period. *)
Theorem reportRows_sorted_desc (a : App num) :
  StronglySorted (fun r1 r2 : ReportRow num => JS.str_gt (label r1) (label r2) = true)
                 (reportRows tz parseDate a) /\
  (forall t1 t2 : Z,
     reportTab a <> weekly ->
     fourDigitYear tz (reportTab a) t1 -> fourDigitYear tz (reportTab a) t2 ->
     (JS.str_gt (bucketKey tz (reportTab a) t1) (bucketKey tz (reportTab a) t2) = true
      <-> period tz (reportTab a) t2 < period tz (reportTab a) t1)) /\
  (forall (pre rest : list (ReportRow num)) (r1 r2 : ReportRow num) (t1 t2 : Z),
     reportRows tz parseDate a = pre ++ r1 :: rest -> In r2 rest ->
     reportTab a <> weekly ->
     label r1 = bucketKey tz (reportTab a) t1 ->
     label r2 = bucketKey tz (reportTab a) t2 ->
     fourDigitYear tz (reportTab a) t1 -> fourDigitYear tz (reportTab a) t2 ->
     period tz (reportTab a) t2 < period tz (reportTab a) t1).
Proof.
  split; [apply reportRows_sorted|]. split.
  - intros t1 t2. apply bucketKey_order.
  - intros pre rest r1 r2 t1 t2 Hrows Hin Hw Hl1 Hl2 H1 H2.
    apply (bucketKey_order tz (reportTab a) t1 t2 Hw H1 H2).
    rewrite <- Hl1, <- Hl2.
    pose proof (reportRows_sorted tz parseDate a) as Hs. rewrite Hrows in Hs.
    exact (StronglySorted_later _ pre r1 rest r2 Hs Hin).
Qed.

End Claims.

(** Two teas paid on 5 January 2024 and one rice on loan the day after,
    by day and without filters. *)
Example reportRows_two_days :
  reportRows 0 Sample.parseIso
    (Scenario.screen
       [ Scenario.order "order001" "2024-01-05" Paid [{| itemId := "-Ni1"; qty := 2 |}];
         Scenario.order "order002" "2024-01-06" Loan [{| itemId := "-Ni2"; qty := 1 |}] ]
       [] daily "" "" all)
  = [ {| label := "2024-01-06";
         stats := {| ordersCount := 1; itemsCount := 1; sales := 10;
                     paid := 0; loan := 1; pending := 0 |} |};
      {| label := "2024-01-05";
         stats := {| ordersCount := 1; itemsCount := 2; sales := 10;
                     paid := 1; loan := 0; pending := 0 |} |} ].
Proof. vm_compute. reflexivity. Qed.

(** February 2024 sorts before January 2024. *)
Lemma reportRows_sorted_desc_witness :
  JS.str_gt (bucketKey 0 monthly 1706868000000) (bucketKey 0 monthly 1704448800000) = true.
Proof.
  refine (proj2 (proj1 (proj2 (reportRows_sorted_desc 0 Sample.parseIso
            (Scenario.screen Scenario.january [] monthly "" "" all)))
            1706868000000 1704448800000 _ _ _) _).
  - discriminate.
  - vm_compute. split; discriminate.
  - vm_compute. split; discriminate.
  - vm_compute. reflexivity.
Defined.

(** With the range 5 to 6 January 2024 and the loan filter, only the
    rice order on loan is taken in. *)
Lemma report_includes_iff_witness :
  In (Scenario.order "order002" "2024-01-06T11:30:00.000Z" Loan
        [{| itemId := "-Ni2"; qty := 1 |}])
     (filteredOrders 10800000 Sample.parseIso
        (Scenario.screen Scenario.january [] daily "2024-01-05" "2024-01-06" only_loan)).
Proof.
  apply (proj1 (report_includes_iff 10800000 Sample.parseIso
           (Scenario.screen Scenario.january [] daily "2024-01-05" "2024-01-06" only_loan))).
  split; [vm_compute; auto|].
  exists 1704540600000. split; [vm_compute; reflexivity|]. split; [|split].
  - intros s _ Hs. vm_compute in Hs. injection Hs as <-. lia.
  - intros e _ He. vm_compute in He. injection He as <-.
    exists (DateModel.setHours_endOfDay 10800000 1704499200000).
    split; [apply setHours_endOfDay_spec|]. vm_compute. discriminate.
  - reflexivity.
Defined.

End ReportClaims.

(** ** Totals of the exports *)

Module RendererFacts.

Import Model Renderer.

Section Totals.

Context {num : Type} {JN : JsNumber num}.

Lemma csvTotal_from (rows : list (ReportRow num)) : forall acc : ReportStats num,
  fold_left
    (fun acc r =>
       {| ordersCount := n_add (ordersCount acc) (ordersCount (stats r));
          itemsCount := n_add (itemsCount acc) (itemsCount (stats r));
          sales := n_add (sales acc) (sales (stats r));
          paid := n_add (paid acc) (paid (stats r));
          loan := n_add (loan acc) (loan (stats r));
          pending := n_add (pending acc) (pendingOrZero r) |})
    rows acc
  = {| ordersCount := fold_left (fun s r => n_add s (ordersCount (stats r))) rows (ordersCount acc);
       itemsCount := fold_left (fun s r => n_add s (itemsCount (stats r))) rows (itemsCount acc);
       sales := fold_left (fun s r => n_add s (sales (stats r))) rows (sales acc);
       paid := fold_left (fun s r => n_add s (paid (stats r))) rows (paid acc);
       loan := fold_left (fun s r => n_add s (loan (stats r))) rows (loan acc);
       pending := fold_left (fun s r => n_add s (pending (stats r))) rows (pending acc) |}.
Proof.
  induction rows as [|r rows IH]; intros acc; simpl.
  - now destruct acc.
  - now rewrite IH.
Qed.

Lemma csvTotal_columns (rows : list (ReportRow num)) :
  csvTotal rows =
  {| ordersCount := columnSum ordersCount rows; itemsCount := columnSum itemsCount rows;
     sales := columnSum sales rows; paid := columnSum paid rows;
     loan := columnSum loan rows; pending := columnSum pending rows |}.
Proof. unfold csvTotal. now rewrite csvTotal_from. Qed.

Lemma printTotal_csvTotal (rows : list (ReportRow num)) : printTotal rows = csvTotal rows.
Proof. reflexivity. Qed.

(** C8: for every list of report rows, the total that the CSV export and
    the printable report put out is, field by field (orders, items, sales,
    paid, loan, pending), the sum over those rows taken in row order from
    0, which is how the total row on screen adds the same rows up; the
    sales figure of both is the same number, printed with two decimals.
    This holds of the text of the CSV file, of the total line of the
    printed table and of the document it stands in, and of the cells on
    screen. *)
Theorem export_total_is_column_sum (rows : list (ReportRow num)) :
  csvTotal rows =
    {| ordersCount := columnSum ordersCount rows; itemsCount := columnSum itemsCount rows;
       sales := columnSum sales rows; paid := columnSum paid rows;
       loan := columnSum loan rows; pending := columnSum pending rows |} /\
  printTotal rows = csvTotal rows /\
  exportReportCSV rows =
    String.concat newline
      (map (String.concat ",")
         (csvHeader :: map csvCells rows ++
          [["Total"%string;
            n_toString (columnSum ordersCount rows);
            n_toString (columnSum itemsCount rows);
            n_toFixed2 (columnSum sales rows);
            n_toString (columnSum paid rows);
            n_toString (columnSum loan rows);
            n_toString (columnSum pending rows)]])) /\
  screenTotalCells rows =
    ["Total"%string;
     n_toString (columnSum ordersCount rows);
     n_toString (columnSum itemsCount rows);
     String.append "$" (n_toFixed2 (columnSum sales rows));
     n_toString (columnSum paid rows);
     n_toString (columnSum loan rows);
     n_toString (columnSum pending rows)] /\
  sales (csvTotal rows) = columnSum sales rows /\
  sales (printTotal rows) = columnSum sales rows /\
  printTotalRow rows =
    ("<tr><td><strong>Total</strong></td>"
     ++ td (n_toString (columnSum ordersCount rows))
     ++ td (n_toString (columnSum itemsCount rows))
     ++ td (String.append "$" (n_toFixed2 (columnSum sales rows)))
     ++ td (n_toString (columnSum paid rows))
     ++ td (n_toString (columnSum loan rows))
     ++ td (n_toString (columnSum pending rows)) ++ "</tr>")%string /\
  printReport true rows =
    Some (printHead
          ++ line 10 (String.concat EmptyString (map printRow rows))
          ++ line 10 ("<tr><td><strong>Total</strong></td>"
                      ++ td (n_toString (columnSum ordersCount rows))
                      ++ td (n_toString (columnSum itemsCount rows))
                      ++ td (String.append "$" (n_toFixed2 (columnSum sales rows)))
                      ++ td (n_toString (columnSum paid rows))
                      ++ td (n_toString (columnSum loan rows))
                      ++ td (n_toString (columnSum pending rows)) ++ "</tr>")
          ++ printFoot)%string.
Proof.
  pose proof (csvTotal_columns rows) as Hc.
  assert (Hp : printTotalRow rows =
    ("<tr><td><strong>Total</strong></td>"
     ++ td (n_toString (columnSum ordersCount rows))
     ++ td (n_toString (columnSum itemsCount rows))
     ++ td (String.append "$" (n_toFixed2 (columnSum sales rows)))
     ++ td (n_toString (columnSum paid rows))
     ++ td (n_toString (columnSum loan rows))
     ++ td (n_toString (columnSum pending rows)) ++ "</tr>")%string).
  { unfold printTotalRow. cbn zeta. now rewrite printTotal_csvTotal, Hc. }
  split; [exact Hc|]. split; [reflexivity|].
  split; [unfold exportReportCSV, csvTotalCells; now rewrite Hc|].
  split; [reflexivity|].
  split; [now rewrite Hc|].
  split; [now rewrite printTotal_csvTotal, Hc|].
  split; [exact Hp|].
  unfold printReport. now rewrite Hp.
Qed.

End Totals.

End RendererFacts.

(** ** Order-id allocation *)

Module OrderIdFacts.

Import Model OrderIds.

Lemma substring_full s : String.substring 0 (String.length s) s = s.
Proof. induction s as [|c s IH]; simpl; [reflexivity|now rewrite IH]. Qed.

Lemma prefix_order s :
  String.prefix "order" s = true -> exists rest, s = String.append "order" rest.
Proof.
  intros H.
  do 5 (destruct s as [|? s]; simpl in H; [discriminate|];
        match type of H with
        | (if ?d then _ else _) = true => destruct d; [subst|discriminate]
        end).
  now exists s.
Qed.

(** The pattern [^order(\d+)$] matches exactly the ids made of [order] and
    a non-empty run of digits, and captures the run. *)
Lemma execOrderPattern_spec s digits :
  execOrderPattern s = Some digits <->
  s = String.append "order" digits /\ digits <> EmptyString /\ allDigits digits = true.
Proof.
  unfold execOrderPattern. split.
  - destruct (String.prefix "order" s) eqn:Ep; [|discriminate].
    apply prefix_order in Ep as [rest ->].
    change (String.length ("order" ++ rest) - 5)%nat with (String.length rest - 0)%nat.
    rewrite Nat.sub_0_r.
    change (String.substring 5 (String.length rest) ("order" ++ rest))
      with (String.substring 0 (String.length rest) rest).
    rewrite substring_full.
    destruct (String.eqb_spec rest ""); simpl; [discriminate|].
    destruct (allDigits rest) eqn:Ed; [|discriminate].
    intros [= <-]. auto.
  - intros (-> & Hne & Hd).
    assert (String.prefix "order" ("order" ++ digits) = true) as ->
      by (apply String.prefix_correct; destruct digits; reflexivity).
    change (String.length ("order" ++ digits) - 5)%nat with (String.length digits - 0)%nat.
    rewrite Nat.sub_0_r.
    change (String.substring 5 (String.length digits) ("order" ++ digits))
      with (String.substring 0 (String.length digits) digits).
    rewrite substring_full, Hd.
    destruct (String.eqb_spec digits ""); [contradiction|reflexivity].
Qed.

Lemma hasSuffix_exec id n :
  hasSuffix id n <-> exists ds, execOrderPattern id = Some ds /\ n = digitsValue 0 ds.
Proof.
  unfold hasSuffix. split; intros (ds & H); exists ds.
  - destruct H as (H1 & H2 & H3 & H4).
    split; [now apply execOrderPattern_spec|assumption].
  - destruct H as (H1 & H2). apply execOrderPattern_spec in H1. tauto.
Qed.

Lemma allDigits_value_nonneg s : forall acc,
  0 <= acc -> allDigits s = true -> acc <= digitsValue acc s.
Proof.
  induction s as [|c s IH]; simpl; intros acc Hacc Hd; [lia|].
  apply andb_true_iff in Hd as [Hc Hd]. unfold isDigit in Hc.
  apply andb_true_iff in Hc as [H1 H2]. apply Z.leb_le in H1, H2.
  specialize (IH (10 * acc + (Z.of_N (N_of_ascii c) - 48)) ltac:(lia) Hd). lia.
Qed.

Lemma toDouble_exact n : n <= 2 ^ 53 -> toDouble n = n.
Proof.
  intros H. unfold toDouble. destruct (Z.leb_spec n (2 ^ 53)); [reflexivity|lia].
Qed.

Lemma pad3_small n :
  0 <= n <= 999 ->
  JS.padStart 3 "0" (JS.String_ n) =
  String (Labels.digit (n / 100)) (Labels.digits2 (n mod 100)).
Proof.
  intros Hn. apply String.eqb_eq.
  apply (StringFacts.forall_below
    (fun z => String.eqb (JS.padStart 3 "0" (JS.String_ z))
                (String (Labels.digit (z / 100)) (Labels.digits2 (z mod 100)))) 1000);
    [vm_compute; reflexivity|lia].
Qed.

Section Allocation.

Context {num : Type}.

(** The running maximum of the [reduce]. *)
Lemma maxStep_fold (os : list (Order num)) : forall m0,
  safeIds os -> 0 <= m0 ->
  let m := fold_left maxStep os m0 in
  m0 <= m /\
  (forall o n, In o os -> hasSuffix (o_id o) n -> n <= m) /\
  (m = m0 \/ exists o, In o os /\ hasSuffix (o_id o) m).
Proof.
  induction os as [|o os IH]; intros m0 Hsafe Hm0; simpl.
  - split; [lia|]. split; [intros ? ? []|now left].
  - assert (Hsafe' : safeIds os) by (intros o' n Hin; apply Hsafe; now right).
    destruct (execOrderPattern (o_id o)) as [ds|] eqn:Ex.
    + assert (Hs : hasSuffix (o_id o) (digitsValue 0 ds))
        by (apply hasSuffix_exec; eauto).
      pose proof (Hsafe o _ (or_introl eq_refl) Hs) as Hlt.
      pose proof Ex as Hspec. apply execOrderPattern_spec in Hspec as (Hid & Hne & Hd).
      pose proof (allDigits_value_nonneg ds 0 ltac:(lia) Hd) as Hnn.
      assert (Hstep : maxStep m0 o = Z.max m0 (digitsValue 0 ds)).
      { unfold maxStep, Number_. rewrite Ex. now rewrite toDouble_exact by lia. }
      rewrite Hstep.
      destruct (IH (Z.max m0 (digitsValue 0 ds)) Hsafe' ltac:(lia)) as (Hle & Hall & Hex).
      split; [lia|]. split.
      * intros o' n [<-|Hin] Hn; [|eauto].
        apply hasSuffix_exec in Hn as (ds' & Hex' & ->).
        rewrite Ex in Hex'. injection Hex' as <-. lia.
      * destruct Hex as [Hex|(o' & Hin & Ho')];
          [|right; exists o'; split; [now right|assumption]].
        destruct (Z.max_spec m0 (digitsValue 0 ds)) as [[_ Hmax]|[_ Hmax]].
        -- right. exists o. split; [now left|]. rewrite Hex, Hmax. exact Hs.
        -- left. now rewrite Hex, Hmax.
    + assert (Hstep : maxStep m0 o = m0) by (unfold maxStep; now rewrite Ex).
      rewrite Hstep.
      destruct (IH m0 Hsafe' Hm0) as (Hle & Hall & Hex).
      split; [assumption|]. split.
      * intros o' n [<-|Hin] Hn; [|eauto].
        apply hasSuffix_exec in Hn as (ds' & Hex' & ->). congruence.
      * destruct Hex as [Hex|(o' & Hin & Ho')]; [now left|].
        right; exists o'; split; [now right|assumption].
Qed.

(** C10 (as amended): for every order collection, the empty one included,
    whose numeric suffixes all lie below 2^53, the id for a new order is
    [order] followed by one plus the largest suffix among the ids of the
    form order<digits> (0 when there is none, so the first id is
    order001), padded with zeros to three digits. *)
Theorem nextOrderId_spec (a : App num) :
  safeIds (orders a) ->
  exists m, maxSuffix (orders a) m /\
    nextOrderId a = String.append "order" (JS.padStart 3 "0" (JS.String_ (m + 1))) /\
    (m + 1 <= 999 ->
     nextOrderId a = String.append "order"
       (String (Labels.digit ((m + 1) / 100)) (Labels.digits2 ((m + 1) mod 100)))) /\
    (orders a = [] -> nextOrderId a = "order001"%string).
Proof.
  intros Hsafe.
  destruct (maxStep_fold (orders a) 0 Hsafe ltac:(lia)) as (Hle & Hall & Hex).
  set (m := fold_left maxStep (orders a) 0) in *.
  assert (Hm : m < 2 ^ 53).
  { destruct Hex as [->|(o & Hin & Ho)]; [lia|eauto]. }
  assert (Hid : nextOrderId a
                = String.append "order" (JS.padStart 3 "0" (JS.String_ (m + 1)))).
  { unfold nextOrderId. fold m. now rewrite toDouble_exact by lia. }
  exists m. split; [split; assumption|]. split; [exact Hid|]. split.
  - intros Hsmall. rewrite Hid, pad3_small by lia. reflexivity.
  - intros Hnil. unfold nextOrderId. rewrite Hnil. reflexivity.
Qed.

End Allocation.

Lemma january_safe : safeIds Scenario.january.
Proof.
  intros o n Hin Hn. apply hasSuffix_exec in Hn as (ds & Hex & ->).
  destruct Hin as [<-|[<-|[<-|[]]]]; vm_compute in Hex; injection Hex as <-;
    vm_compute; reflexivity.
Qed.

(** After order001, order002 and order003 comes order004. *)
Lemma nextOrderId_spec_witness :
  exists m, maxSuffix Scenario.january m /\
    nextOrderId (Scenario.screen Scenario.january [] daily "" "" all)
    = String.append "order" (JS.padStart 3 "0" (JS.String_ (m + 1))) /\
    nextOrderId (Scenario.screen Scenario.january [] daily "" "" all) = "order004"%string.
Proof.
  destruct (nextOrderId_spec (Scenario.screen Scenario.january [] daily "" "" all)
              january_safe) as (m & Hmax & Hid & _).
  exists m. split; [exact Hmax|]. split; [exact Hid|]. vm_compute. reflexivity.
Defined.

(** C10 as stated fails once a suffix reaches 2^53: 2^53 + 1 is not a
    double, the sum rounds back to 2^53, and the "next" id is the id that
    already exists. *)
Lemma nextOrderId_at_2_53 :
  maxSuffix Scenario.hugeIds 9007199254740992 /\
  nextOrderId (Scenario.screen Scenario.hugeIds [] daily "" "" all)
  = "order9007199254740992"%string /\
  nextOrderId (Scenario.screen Scenario.hugeIds [] daily "" "" all)
  <> String.append "order" (JS.padStart 3 "0" (JS.String_ (9007199254740992 + 1))).
Proof.
  split; [split|split].
  - intros o n [<-|[]] Hn. apply hasSuffix_exec in Hn as (ds & Hex & ->).
    vm_compute in Hex. injection Hex as <-. vm_compute. discriminate.
  - right. eexists. split; [left; reflexivity|].
    apply hasSuffix_exec. eexists. split; vm_compute; reflexivity.
  - vm_compute. reflexivity.
  - vm_compute. discriminate.
Qed.

End OrderIdFacts.

(** ** Settlement and the loan ledger *)

Module SettlementFacts.

Import Model Settlement Ledger.

Section Handlers.

Context {num : Type} {JN : JsNumber num}.

Lemma loansAt_setLoan (d : Db num) p k e q :
  loansAt (db_setLoan p k e d) q =
  if decide (p = q) then <[k := e]> (loansAt d p) else loansAt d q.
Proof.
  unfold loansAt, db_setLoan. simpl. rewrite lookup_partial_alter.
  case_decide as Hpq; [|reflexivity].
  unfold putLoan. simpl. destruct (db_loanCustomers d !! p); reflexivity.
Qed.

Lemma updateOrderStatus_ledger id st r (w : World num) :
  db_loanCustomers (db (updateOrderStatus id st r w)) = db_loanCustomers (db w).
Proof. unfold updateOrderStatus. destruct r; reflexivity. Qed.

Lemma updateOrderStatus_view id st r (w : World num) :
  orders (app (updateOrderStatus id st r w)) = orders (app w) /\
  loanCustomers (app (updateOrderStatus id st r w)) = loanCustomers (app w) /\
  users (app (updateOrderStatus id st r w)) = users (app w) /\
  items (app (updateOrderStatus id st r w)) = items (app w).
Proof. unfold updateOrderStatus. destruct r; simpl; auto. Qed.

Lemma updateOrderStatus_lookup id st r (w : World num) k :
  db_orders (db (updateOrderStatus id st r w)) !! k =
  match r with
  | WriteOk =>
      if decide (id = k)
      then mergeStatus st (collectorFor (app w) st) (db_orders (db w) !! id)
      else db_orders (db w) !! k
  | WriteFailed _ => db_orders (db w) !! k
  end.
Proof.
  unfold updateOrderStatus. destruct r; simpl; [|reflexivity].
  apply lookup_partial_alter.
Qed.

Lemma addLoanEntryForOrder_orders order customer key r (w : World num) :
  db_orders (db (fst (addLoanEntryForOrder order customer key r w))) = db_orders (db w).
Proof.
  unfold addLoanEntryForOrder. destruct (List.find _ _); [reflexivity|].
  destruct (accepted _); [destruct r|]; reflexivity.
Qed.

Lemma addLoanEntryForOrder_view order customer key r (w : World num) :
  app (fst (addLoanEntryForOrder order customer key r w)) = app w.
Proof.
  unfold addLoanEntryForOrder. destruct (List.find _ _); [reflexivity|].
  destruct (accepted _); [destruct r|]; reflexivity.
Qed.

(** The database after [confirmLoanStatus] on a proper selection is the
    one that the two writes leave. *)
Lemma confirmLoanStatus_db key r1 r2 (w : World num) order customer :
  String.eqb (loanStatusOrderId (app w)) "" || String.eqb (loanStatusCustomerId (app w)) ""
  = false ->
  List.find (fun o => String.eqb (o_id o) (loanStatusOrderId (app w))) (orders (app w))
  = Some order ->
  List.find (fun c => String.eqb (c_id c) (loanStatusCustomerId (app w)))
            (loanCustomers (app w))
  = Some customer ->
  db (confirmLoanStatus key r1 r2 w)
  = db (fst (addLoanEntryForOrder order customer key r2
               (updateOrderStatus (o_id order) Loan r1 w))).
Proof.
  intros Hsel Ho Hc. unfold confirmLoanStatus. rewrite Hsel, Ho, Hc. cbn zeta.
  destruct (addLoanEntryForOrder _ _ _ _ _) as [w2 [r|]]; reflexivity.
Qed.

(** A key that is no user's id finds the function [Object] under
    [constructor]; every other key comes back as it is. *)
Lemma inheritedName_orElse (key : string) :
  orElse (JS.inheritedName key) (Some key)
  = Some (if String.eqb key "constructor" then "Object"%string else key).
Proof.
  unfold JS.inheritedName. destruct (String.eqb key "constructor"); [reflexivity|].
  destruct (existsb _ _); reflexivity.
Qed.

(** The served-by of an order that has a waiter id. *)
Lemma servedByOf_waiter (a : App num) order waiterId :
  o_waiterId order = Some waiterId ->
  servedByOf a order
  = Some (match Reports.usersById a !! waiterId with
          | Some user => default waiterId (u_name user)
          | None => if String.eqb waiterId "constructor" then "Object"%string
                    else waiterId
          end).
Proof.
  intros Hw. unfold servedByOf. rewrite Hw.
  change (propertyKey (Some waiterId)) with waiterId.
  destruct (Reports.usersById a !! waiterId) as [user|].
  - now destruct (u_name user).
  - apply inheritedName_orElse.
Qed.

(** The served-by of an order without a waiter id is missing, unless a
    user goes by the id [undefined]. *)
Lemma servedByOf_no_waiter (a : App num) order :
  o_waiterId order = None ->
  Reports.usersById a !! "undefined"%string = None ->
  servedByOf a order = None.
Proof.
  intros Hw Hu. unfold servedByOf. rewrite Hw.
  change (propertyKey None) with "undefined"%string. now rewrite Hu.
Qed.

(** The entry of an order passes the check of [set] exactly when the
    order has a time, its served-by is there and its total is finite. *)
Lemma accepted_entryFor (a : App num) key order :
  accepted (entryFor a key order) = true <->
  is_Some (o_time order) /\ is_Some (servedByOf a order) /\
  n_isFinite (Reports.orderTotal a order) = true.
Proof.
  unfold accepted, entryFor. cbn [le_date le_servedBy le_amount].
  destruct (o_time order) as [time|], (servedByOf a order) as [name|]; split;
    try discriminate;
    try (intros ([? ?] & [? ?] & ?); discriminate).
  - intros H. eauto.
  - intros (_ & _ & H). exact H.
Qed.

Lemma not_accepted_entryFor (a : App num) key order :
  accepted (entryFor a key order) = false <->
  o_time order = None \/ servedByOf a order = None \/
  n_isFinite (Reports.orderTotal a order) = false.
Proof.
  unfold accepted, entryFor. cbn [le_date le_servedBy le_amount].
  destruct (o_time order) as [time|], (servedByOf a order) as [name|]; split;
    auto; intros [H|[H|H]]; try discriminate; auto.
Qed.

Lemma find_existing (customer : LoanCustomer num) (oid : string) :
  (exists l, List.find (fun l => String.eqb (le_orderId l) oid) (loanValues customer)
             = Some l)
  <-> viewHolds customer oid.
Proof.
  unfold viewHolds. split.
  - intros (l & Hf). apply List.find_some in Hf as [Hin Heq].
    apply String.eqb_eq in Heq. eauto.
  - intros (l & Hin & Heq).
    destruct (List.find _ _) as [l'|] eqn:Hf; [eauto|].
    eapply List.find_none in Hf; [|exact Hin]. simpl in Hf.
    apply String.eqb_neq in Hf. contradiction.
Qed.

Lemma find_none_existing (customer : LoanCustomer num) (oid : string) :
  List.find (fun l => String.eqb (le_orderId l) oid) (loanValues customer) = None
  <-> ~ viewHolds customer oid.
Proof.
  rewrite <- find_existing. split.
  - intros Hn (l & Hl). congruence.
  - intros Hn. destruct (List.find _ _) as [l|] eqn:E; [|reflexivity].
    exfalso. apply Hn. eauto.
Qed.

Lemma loanValues_lookup (customer : LoanCustomer num) l :
  In l (loanValues customer) <-> exists k, default ∅ (c_loans customer) !! k = Some l.
Proof.
  unfold loanValues. rewrite in_map_iff. split.
  - intros ([k e] & <- & Hin). exists k.
    apply list_elem_of_In, elem_of_map_to_list in Hin. exact Hin.
  - intros (k & Hk). exists (k, l). split; [reflexivity|].
    apply list_elem_of_In, elem_of_map_to_list. exact Hk.
Qed.

(** A customer on a screen that shows the database is the snapshot of
    its node: its path is the node's key and its loans are the node's. *)
Lemma synced_customer (w : World num) customer :
  synced w -> In customer (loanCustomers (app w)) ->
  exists dbId, c_dbId customer = Some dbId /\
    default ∅ (c_loans customer) = loansAt (db w) dbId.
Proof.
  intros [_ Hc] Hin.
  eapply Permutation_in in Hin; [|exact Hc].
  unfold customersSnapshot in Hin. apply in_map_iff in Hin as ([k c] & <- & Hin).
  apply list_elem_of_In, elem_of_map_to_list in Hin.
  exists k. split; [reflexivity|]. unfold loansAt. simpl. now rewrite Hin.
Qed.

Lemma entryFor_ext (a a' : App num) key order :
  items a = items a' -> users a = users a' ->
  entryFor a key order = entryFor a' key order.
Proof.
  intros Hi Hu. unfold entryFor, servedByOf, Reports.orderTotal, Reports.priceOf,
    Reports.itemsById, Reports.usersById.
  now rewrite Hi, Hu.
Qed.

(** What [confirmLoanStatus] does to the ledger. *)
Lemma confirm_ledger key r1 r2 (w : World num) :
  db_loanCustomers (db (confirmLoanStatus key r1 r2 w)) = db_loanCustomers (db w) \/
  exists order customer,
    In order (orders (app w)) /\ In customer (loanCustomers (app w)) /\
    ~ viewHolds customer (o_id order) /\ r2 = WriteOk /\
    db_loanCustomers (db (confirmLoanStatus key r1 r2 w))
    = db_loanCustomers
        (db_setLoan (pathOf customer) key (entryFor (app w) key order) (db w)).
Proof.
  destruct (String.eqb (loanStatusOrderId (app w)) ""
            || String.eqb (loanStatusCustomerId (app w)) "") eqn:Hsel.
  { left. unfold confirmLoanStatus. now rewrite Hsel. }
  destruct (List.find (fun o => String.eqb (o_id o) (loanStatusOrderId (app w)))
              (orders (app w))) as [order|] eqn:Ho.
  2: { left. unfold confirmLoanStatus. now rewrite Hsel, Ho. }
  destruct (List.find (fun c => String.eqb (c_id c) (loanStatusCustomerId (app w)))
              (loanCustomers (app w))) as [customer|] eqn:Hc.
  2: { left. unfold confirmLoanStatus. now rewrite Hsel, Ho, Hc. }
  rewrite (confirmLoanStatus_db key r1 r2 w order customer Hsel Ho Hc).
  apply List.find_some in Ho as [Ho _]. apply List.find_some in Hc as [Hc _].
  destruct (updateOrderStatus_view (o_id order) Loan r1 w) as (_ & _ & Hu & Hi).
  unfold addLoanEntryForOrder.
  destruct (List.find _ (loanValues customer)) as [l|] eqn:Hl.
  - left. cbn [fst db]. apply updateOrderStatus_ledger.
  - rewrite (entryFor_ext _ (app w) key order Hi Hu).
    destruct (accepted _); [|left; cbn [fst db]; apply updateOrderStatus_ledger].
    destruct r2 as [|msg]; [|left; cbn [fst db]; apply updateOrderStatus_ledger].
    right. exists order, customer. split; [assumption|]. split; [assumption|].
    split.
    { intros Hv. apply find_existing in Hv as (l & Hf). congruence. }
    split; [reflexivity|].
    cbn [fst db db_setLoan db_loanCustomers]. now rewrite updateOrderStatus_ledger.
Qed.

Lemma perCustomer_ext (d d' : Db num) :
  db_loanCustomers d' = db_loanCustomers d ->
  noOrderLoanedTwicePerCustomer d -> noOrderLoanedTwicePerCustomer d'.
Proof.
  intros He Hinv p k1 k2 e1 e2. unfold loansAt. rewrite He. apply Hinv.
Qed.

Lemma perCustomer_setLoan (d : Db num) p key entry :
  noOrderLoanedTwicePerCustomer d ->
  (forall k e, loansAt d p !! k = Some e -> le_orderId e <> le_orderId entry) ->
  noOrderLoanedTwicePerCustomer (db_setLoan p key entry d).
Proof.
  intros Hinv Hnew q k1 k2 e1 e2. rewrite loansAt_setLoan.
  case_decide as Hpq; [subst q|apply Hinv].
  rewrite !lookup_insert.
  repeat case_decide; subst; intros H1 H2 Heq; try reflexivity.
  - injection H1 as <-. symmetry in Heq. now apply Hnew in H2.
  - injection H2 as <-. now apply Hnew in H1.
  - eapply Hinv; eassumption.
Qed.

Lemma step_perCustomer (w w' : World num) :
  step w w' ->
  noOrderLoanedTwicePerCustomer (db w) -> noOrderLoanedTwicePerCustomer (db w').
Proof.
  intros Hstep Hinv.
  destruct Hstep as [w order status r Hin|w cid|w key r1 r2 Hsync|w os cs Ho Hc].
  - eapply perCustomer_ext; [|exact Hinv].
    unfold handleStatusChange.
    destruct status; try reflexivity; apply updateOrderStatus_ledger.
  - exact Hinv.
  - destruct (confirm_ledger key r1 r2 w)
      as [He|(order & customer & Ho & Hc & Hnv & _ & He)].
    + eapply perCustomer_ext; eassumption.
    + eapply perCustomer_ext; [exact He|].
      apply perCustomer_setLoan; [assumption|].
      intros k e Hk Heq. apply Hnv. exists e. split; [|exact Heq].
      apply loanValues_lookup.
      destruct (synced_customer w customer Hsync Hc) as (dbId & Hid & Hloans).
      exists k. rewrite Hloans. unfold pathOf in Hk. now rewrite Hid in Hk.
  - exact Hinv.
Qed.

(** A status change of an order whose node sits under the order's own
    id writes status and collector there and nothing else anywhere. *)
Lemma handleStatusChange_paid_own_key (order : Order num) (w : World num) n user :
  db_orders (db w) !! o_id order = Some n ->
  currentUser (app w) = Some user ->
  db_orders (db (handleStatusChange order Paid WriteOk w)) !! o_id order
  = Some {| n_id := n_id n; n_waiterId := n_waiterId n; n_waiter_id := n_waiter_id n;
            n_time := n_time n; n_status := Some Paid;
            n_collector := Some (default "Unknown"%string (u_name user));
            n_items := n_items n |} /\
  (forall k, k <> o_id order ->
     db_orders (db (handleStatusChange order Paid WriteOk w)) !! k
     = db_orders (db w) !! k) /\
  db_loanCustomers (db (handleStatusChange order Paid WriteOk w))
  = db_loanCustomers (db w).
Proof.
  intros Hn Hu. unfold handleStatusChange. split; [|split].
  - rewrite updateOrderStatus_lookup, decide_True by reflexivity.
    rewrite Hn. unfold mergeStatus, collectorFor. now rewrite Hu.
  - intros k Hk. rewrite updateOrderStatus_lookup, decide_False by congruence.
    reflexivity.
  - reflexivity.
Qed.

(** A node under any other key is left as it is. *)
Lemma handleStatusChange_other_key (order : Order num) status r (w : World num) key :
  key <> o_id order ->
  db_orders (db (handleStatusChange order status r w)) !! key = db_orders (db w) !! key.
Proof.
  intros Hk. unfold handleStatusChange.
  destruct status; try reflexivity;
    rewrite updateOrderStatus_lookup; destruct r; try reflexivity;
    now rewrite decide_False by congruence.
Qed.

(** The manual entry of the loan book writes its entry, when it is one
    that the database takes, whatever the ledger already holds. *)
Lemma addLoanEntry_always_writes now (w : World num) customer order :
  String.eqb (loanEntryCustomerId (app w)) "" || String.eqb (loanEntryOrderId (app w)) ""
  = false ->
  List.find (fun c => String.eqb (c_id c) (loanEntryCustomerId (app w)))
            (loanCustomers (app w)) = Some customer ->
  List.find (fun o => String.eqb (o_id o) (loanEntryOrderId (app w))) (orders (app w))
  = Some order ->
  accepted (entryFor (app w) (String.append "loan-" (JS.String_ now)) order) = true ->
  loansAt (db (addLoanEntry now WriteOk w)) (pathOf customer)
    !! String.append "loan-" (JS.String_ now)
  = Some (entryFor (app w) (String.append "loan-" (JS.String_ now)) order).
Proof.
  intros Hsel Hc Ho Hacc. unfold addLoanEntry. rewrite Hsel, Hc, Ho. cbn zeta.
  rewrite Hacc. cbn [db].
  fold (pathOf customer).
  rewrite loansAt_setLoan, decide_True by reflexivity.
  now rewrite lookup_insert_eq.
Qed.

(** The order form stores the new order under the key that [push] made,
    with the id of [nextOrderId] inside. *)
Lemma handleCreateOrder_allocates key now (w : World num) :
  draftWaiter (app w) <> EmptyString ->
  List.filter (fun e => n_gt0 (snd e)) (draftQty (app w)) <> [] ->
  exists n, db_orders (db (handleCreateOrder key now WriteOk w)) !! key = Some n /\
            n_id n = Some (OrderIds.nextOrderId (app w)) /\
            n_status n = Some Pending.
Proof.
  intros Hw Hq. unfold handleCreateOrder.
  destruct (String.eqb_spec (draftWaiter (set_banner None (app w))) "") as [E|_];
    [contradiction|].
  cbn [draftQty set_banner].
  destruct (List.filter _ (draftQty (app w))) as [|e l]; [contradiction|].
  cbn [map List.length Nat.eqb db db_setOrder db_orders].
  eexists. rewrite lookup_insert_eq. split; [reflexivity|]. split; reflexivity.
Qed.

End Handlers.

End SettlementFacts.

Module SettlementClaims.

Import Model Sample Settlement Ledger SettlementFacts Scenario.

Section Claims.

Context {num : Type} {JN : JsNumber num}.

(** C1 (as amended): the two writes of the pending -> loan settlement are
    two operations, not one: whether the order's status and collector
    change is decided by the order write alone, whether the ledger
    changes by the ledger write alone; a write that fails leaves its own
    target (the orders, or the loan ledger) unchanged and does not hold
    the other write back. *)
Theorem confirmLoanStatus_separate_writes key r1 r2 (w : World num) :
  db_orders (db (confirmLoanStatus key r1 r2 w))
  = db_orders (db (confirmLoanStatus key r1 WriteOk w)) /\
  db_loanCustomers (db (confirmLoanStatus key r1 r2 w))
  = db_loanCustomers (db (confirmLoanStatus key WriteOk r2 w)) /\
  (forall message, r1 = WriteFailed message ->
     db_orders (db (confirmLoanStatus key r1 r2 w)) = db_orders (db w)) /\
  (forall message, r2 = WriteFailed message ->
     db_loanCustomers (db (confirmLoanStatus key r1 r2 w)) = db_loanCustomers (db w)).
Proof.
  destruct (String.eqb (loanStatusOrderId (app w)) ""
            || String.eqb (loanStatusCustomerId (app w)) "") eqn:Hsel.
  { unfold confirmLoanStatus. rewrite Hsel. repeat split; reflexivity. }
  destruct (List.find (fun o => String.eqb (o_id o) (loanStatusOrderId (app w)))
              (orders (app w))) as [order|] eqn:Ho.
  2: { unfold confirmLoanStatus. rewrite Hsel, Ho. repeat split; reflexivity. }
  destruct (List.find (fun c => String.eqb (c_id c) (loanStatusCustomerId (app w)))
              (loanCustomers (app w))) as [customer|] eqn:Hc.
  2: { unfold confirmLoanStatus. rewrite Hsel, Ho, Hc. repeat split; reflexivity. }
  rewrite !(confirmLoanStatus_db key _ _ w order customer Hsel Ho Hc).
  rewrite !addLoanEntryForOrder_orders.
  destruct (updateOrderStatus_view (o_id order) Loan r1 w) as (_ & _ & Hu & Hi).
  destruct (updateOrderStatus_view (o_id order) Loan WriteOk w) as (_ & _ & Hu' & Hi').
  split; [reflexivity|]. split; [|split].
  - unfold addLoanEntryForOrder.
    rewrite (entryFor_ext _ (app w) key order Hi Hu).
    rewrite (entryFor_ext _ (app w) key order Hi' Hu').
    destruct (List.find _ (loanValues customer)).
    + cbn [fst db]. now rewrite !updateOrderStatus_ledger.
    + destruct (accepted _); [destruct r2|];
        cbn [fst db app db_setLoan db_loanCustomers];
        now rewrite !updateOrderStatus_ledger.
  - intros message ->. reflexivity.
  - intros message ->. unfold addLoanEntryForOrder.
    destruct (List.find _ (loanValues customer)); [|destruct (accepted _)];
      cbn [fst db]; apply updateOrderStatus_ledger.
Qed.

(** C2 (as amended): the pending -> loan settlement looks for an entry
    with the order's id among the loans of the target customer only, and
    writes nothing to the ledger when it finds one; so along any sequence
    of moves at the order list no customer comes to hold two loan entries
    for one order (entries of different customers may share an order). *)
Theorem settlement_keeps_one_entry_per_customer (w w' : World num) :
  steps w w' ->
  noOrderLoanedTwicePerCustomer (db w) ->
  noOrderLoanedTwicePerCustomer (db w') /\
  (forall key r1 r2 order customer,
     List.find (fun o => String.eqb (o_id o) (loanStatusOrderId (app w'))) (orders (app w'))
     = Some order ->
     List.find (fun c => String.eqb (c_id c) (loanStatusCustomerId (app w')))
               (loanCustomers (app w'))
     = Some customer ->
     viewHolds customer (o_id order) ->
     db_loanCustomers (db (confirmLoanStatus key r1 r2 w')) = db_loanCustomers (db w')).
Proof.
  intros Hsteps Hinv. split.
  - induction Hsteps as [|w1 w2 w3 Hs _ IH]; [assumption|].
    apply IH. eapply step_perCustomer; eassumption.
  - intros key r1 r2 order customer Ho Hc Hv.
    destruct (String.eqb (loanStatusOrderId (app w')) ""
              || String.eqb (loanStatusCustomerId (app w')) "") eqn:Hsel.
    { unfold confirmLoanStatus. now rewrite Hsel. }
    rewrite (confirmLoanStatus_db key r1 r2 w' order customer Hsel Ho Hc).
    unfold addLoanEntryForOrder.
    apply find_existing in Hv as (l & ->). cbn [fst]. apply updateOrderStatus_ledger.
Qed.

(** C3 (as amended): in a ledger where customer X already holds a loan
    entry for order O, adding an entry for O under a customer Y on
    settlement raises no duplicate-loan error: the promise rejects only
    if the database write itself fails, and the call throws only for an
    entry that [set] refuses (no date, no served-by, or an amount that is
    not finite), whoever holds a loan for O.  When Y's own loans on screen
    hold an entry for O, nothing is written and the call resolves;
    otherwise a write that succeeds appends a new entry for O under Y.
    In every case the entry of X stays as it was. *)
Theorem addLoanEntryForOrder_duplicate (order : Order num)
    (customer : LoanCustomer num) key r (w : World num) x k e :
  loansAt (db w) x !! k = Some e -> le_orderId e = o_id order ->
  x <> pathOf customer \/ k <> key ->
  loansAt (db (fst (addLoanEntryForOrder order customer key r w))) x !! k = Some e /\
  (snd (addLoanEntryForOrder order customer key r w) = Settles WriteOk \/
   snd (addLoanEntryForOrder order customer key r w) = Settles r \/
   (addLoanEntryForOrder order customer key r w = (w, Throws) /\
    ~ viewHolds customer (o_id order) /\
    (o_time order = None \/ servedByOf (app w) order = None \/
     n_isFinite (Reports.orderTotal (app w) order) = false))) /\
  (viewHolds customer (o_id order) ->
   addLoanEntryForOrder order customer key r w = (w, Settles WriteOk)) /\
  (~ viewHolds customer (o_id order) ->
   is_Some (o_time order) -> is_Some (servedByOf (app w) order) ->
   n_isFinite (Reports.orderTotal (app w) order) = true ->
   r = WriteOk ->
   snd (addLoanEntryForOrder order customer key r w) = Settles WriteOk /\
   loansAt (db (fst (addLoanEntryForOrder order customer key r w))) (pathOf customer)
     !! key
   = Some {| le_id := key; le_orderId := o_id order;
             le_amount := Reports.orderTotal (app w) order;
             le_date := o_time order;
             le_servedBy := servedByOf (app w) order |}).
Proof.
  intros Hk He Hfresh. unfold addLoanEntryForOrder. fold (pathOf customer).
  destruct (List.find _ (loanValues customer)) as [l|] eqn:Hf.
  - split; [exact Hk|]. split; [now left|]. split; [reflexivity|].
    intros Hn. apply find_none_existing in Hn. congruence.
  - apply find_none_existing in Hf.
    destruct (accepted (entryFor (app w) key order)) eqn:Hacc.
    + destruct r as [|message]; cbn [fst snd db].
      * split.
        { rewrite loansAt_setLoan. case_decide as Hp; [|exact Hk].
          subst x. rewrite lookup_insert_ne; [exact Hk|].
          destruct Hfresh as [Hx|Hne]; congruence. }
        split; [now left|]. split; [contradiction|].
        intros _ _ _ _ _. split; [reflexivity|].
        cbn [app]. rewrite loansAt_setLoan, decide_True by reflexivity.
        now rewrite lookup_insert_eq.
      * split; [exact Hk|]. split; [right; now left|]. split; [contradiction|].
        intros _ _ _ _ [=].
    + cbn [fst snd]. split; [exact Hk|]. split.
      { right. right. split; [reflexivity|]. split; [exact Hf|].
        now apply (not_accepted_entryFor (app w) key order). }
      split; [contradiction|].
      intros _ Ht Hs Hfin _.
      assert (accepted (entryFor (app w) key order) = true) as Hyes
        by now apply accepted_entryFor.
      congruence.
Qed.

(** C4 (as amended): an order is settled as a loan of a chosen customer
    and the ledger write goes through.  When that customer's loans
    already hold an entry for the order, none is created.  Otherwise,
    for an order that has a time and a waiterId and whose total is a
    finite number (the order's id and the customer's path id being keys
    of the database), exactly one loan entry is created under that customer
    and nothing else in the ledger changes; its amount is the order's
    total at that moment (the sum over the line items of quantity times
    the item's current price, 0 for an item that is gone), its date is
    the order's time field, and its servedBy is the name of the user
    whose id is the order's waiterId, or, when there is no such user or
    the user has no name, the waiterId itself, but "Object" for a
    waiterId "constructor" that is no user's id (which the plain object
    [usersById] finds on [Object.prototype]).  For an order without a
    time, with a total that is not finite, or without a waiterId (and no
    user of the id "undefined"), [set] throws: no entry is created and
    the customer modal stays as it was. *)
Theorem confirmLoanStatus_entry key r1 (w : World num) order customer :
  String.eqb (loanStatusOrderId (app w)) "" || String.eqb (loanStatusCustomerId (app w)) ""
  = false ->
  List.find (fun o => String.eqb (o_id o) (loanStatusOrderId (app w))) (orders (app w))
  = Some order ->
  List.find (fun c => String.eqb (c_id c) (loanStatusCustomerId (app w)))
            (loanCustomers (app w))
  = Some customer ->
  freshKey key (db w) ->
  (viewHolds customer (o_id order) ->
   db_loanCustomers (db (confirmLoanStatus key r1 WriteOk w)) = db_loanCustomers (db w)) /\
  (~ viewHolds customer (o_id order) ->
   forall waiterId time,
   validKey (o_id order) = true -> validKey (pathOf customer) = true ->
   o_waiterId order = Some waiterId -> o_time order = Some time ->
   n_isFinite (Reports.orderTotal (app w) order) = true ->
   loansAt (db (confirmLoanStatus key r1 WriteOk w)) (pathOf customer)
   = <[key :=
         {| le_id := key; le_orderId := o_id order;
            le_amount :=
              fold_left
                (fun sum entry =>
                   n_add sum
                     (n_mul (qty entry)
                        (match Reports.itemsById (app w) !! itemId entry with
                         | Some item => item_price item
                         | None => n_zero
                         end)))
                (o_items order) n_zero;
            le_date := Some time;
            le_servedBy :=
              Some (match Reports.usersById (app w) !! waiterId with
                    | Some user => default waiterId (u_name user)
                    | None => if String.eqb waiterId "constructor"
                              then "Object"%string else waiterId
                    end) |}]> (loansAt (db w) (pathOf customer)) /\
   size (loansAt (db (confirmLoanStatus key r1 WriteOk w)) (pathOf customer))
   = S (size (loansAt (db w) (pathOf customer))) /\
   (forall q, q <> pathOf customer ->
      loansAt (db (confirmLoanStatus key r1 WriteOk w)) q = loansAt (db w) q)) /\
  (~ viewHolds customer (o_id order) ->
   o_time order = None \/
   n_isFinite (Reports.orderTotal (app w) order) = false \/
   (o_waiterId order = None /\ Reports.usersById (app w) !! "undefined"%string = None) ->
   db_loanCustomers (db (confirmLoanStatus key r1 WriteOk w)) = db_loanCustomers (db w) /\
   loanStatusModalOpen (app (confirmLoanStatus key r1 WriteOk w))
   = loanStatusModalOpen (app w) /\
   loanStatusOrderId (app (confirmLoanStatus key r1 WriteOk w))
   = loanStatusOrderId (app w)).
Proof.
  intros Hsel Ho Hc Hfresh.
  pose proof (confirmLoanStatus_db key r1 WriteOk w order customer Hsel Ho Hc) as Hdb.
  destruct (updateOrderStatus_view (o_id order) Loan r1 w) as (_ & _ & Hu & Hi).
  pose proof (entryFor_ext _ (app w) key order Hi Hu) as Hext.
  split; [|split].
  - intros Hv. rewrite Hdb. unfold addLoanEntryForOrder.
    apply find_existing in Hv as (l & ->). cbn [fst db].
    apply updateOrderStatus_ledger.
  - intros Hn waiterId time _ _ Hw Ht Hfin. apply find_none_existing in Hn.
    assert (Hacc : accepted (entryFor (app w) key order) = true).
    { apply accepted_entryFor. rewrite Ht, (servedByOf_waiter _ _ _ Hw). eauto. }
    assert (Hentry : entryFor (app w) key order
      = {| le_id := key; le_orderId := o_id order;
           le_amount := Reports.orderTotal (app w) order;
           le_date := Some time;
           le_servedBy :=
             Some (match Reports.usersById (app w) !! waiterId with
                   | Some user => default waiterId (u_name user)
                   | None => if String.eqb waiterId "constructor"
                             then "Object"%string else waiterId
                   end) |}).
    { unfold entryFor. now rewrite Ht, (servedByOf_waiter _ _ _ Hw). }
    assert (Hl : forall q,
      loansAt (db (confirmLoanStatus key r1 WriteOk w)) q
      = if decide (pathOf customer = q)
        then <[key := entryFor (app w) key order]> (loansAt (db w) (pathOf customer))
        else loansAt (db w) q).
    { intros q. rewrite Hdb. unfold addLoanEntryForOrder. fold (pathOf customer).
      rewrite Hn, Hext, Hacc. cbn [fst db].
      rewrite loansAt_setLoan. unfold loansAt.
      now rewrite updateOrderStatus_ledger. }
    split; [|split].
    + rewrite Hl, decide_True by reflexivity. now rewrite Hentry.
    + rewrite Hl, decide_True by reflexivity.
      apply map_size_insert_None, Hfresh.
    + intros q Hq. rewrite Hl, decide_False by congruence. reflexivity.
  - intros Hn Hbad. apply find_none_existing in Hn.
    assert (Hacc : accepted (entryFor (app w) key order) = false).
    { apply not_accepted_entryFor.
      destruct Hbad as [Ht|[Hfin|[Hw Hnone]]]; [now left|right; now right|].
      right. left. now apply servedByOf_no_waiter. }
    split.
    + rewrite Hdb. unfold addLoanEntryForOrder. rewrite Hn, Hext, Hacc.
      cbn [fst db]. apply updateOrderStatus_ledger.
    + unfold confirmLoanStatus. rewrite Hsel, Ho, Hc. cbn zeta.
      unfold addLoanEntryForOrder. rewrite Hn, Hext, Hacc.
      unfold updateOrderStatus. destruct r1; split; reflexivity.
Qed.

End Claims.

(** *** The restaurant of [Scenario] *)

Lemma world1_no_loans p : loansAt (db world1) p = ∅.
Proof.
  unfold loansAt.
  change (db_loanCustomers (db world1))
    with (<["-Nc1"%string := customerNode "Halima" "615000011"]>
            (<["-Nc2"%string := customerNode "Omar" "615000012"]>
               (∅ : gmap string (CustomerNode Z)))).
  rewrite lookup_insert. case_decide; [reflexivity|].
  rewrite lookup_insert. case_decide; [reflexivity|].
  now rewrite lookup_empty.
Qed.

Lemma synced_refresh (w : World Z) : synced (refresh w).
Proof. split; reflexivity. Qed.

Lemma synced_pick id (w : World Z) : synced w -> synced (pickLoanCustomer id w).
Proof. intros H. exact H. Qed.

Lemma synced_open o (w : World Z) : synced w -> synced (handleStatusChange o Loan WriteOk w).
Proof. intros H. exact H. Qed.

(** Loan, back to pending, loan again with another customer. *)
Lemma world1_to_againOther : steps world1 againOther.
Proof.
  eapply steps_more; [apply (step_status world1 order1 Loan WriteOk); vm_compute; auto|].
  eapply steps_more; [apply (step_pick _ "-Nc1")|].
  eapply steps_more.
  { apply (step_confirm _ "-Nl1" WriteOk WriteOk).
    apply synced_pick, synced_open, synced_refresh. }
  eapply steps_more; [apply step_listen; reflexivity|].
  eapply steps_more.
  { apply (step_status _ order1_loan Pending WriteOk). vm_compute. auto. }
  eapply steps_more; [apply step_listen; reflexivity|].
  eapply steps_more.
  { apply (step_status _ order1 Loan WriteOk). vm_compute. auto. }
  eapply steps_more; [apply (step_pick _ "-Nc2")|].
  eapply steps_more.
  { apply (step_confirm _ "-Nl2" WriteOk WriteOk).
    apply synced_pick, synced_open, synced_refresh. }
  apply steps_refl.
Qed.

(** With the order write refused the order stays as it was. *)
Lemma confirmLoanStatus_separate_writes_witness :
  db_orders (db (confirmLoanStatus "-Nl1" (WriteFailed "PERMISSION_DENIED") WriteOk atModal))
  = db_orders (db atModal).
Proof.
  exact (proj1 (proj2 (proj2
           (confirmLoanStatus_separate_writes
              "-Nl1" (WriteFailed "PERMISSION_DENIED") WriteOk atModal)))
         "PERMISSION_DENIED"%string eq_refl).
Defined.

(** C1 as stated fails.  The order write is refused and the loan entry is
    written all the same; the ledger write is refused and the order is
    set to loan all the same. *)
Lemma confirmLoanStatus_not_atomic :
  db_orders (db (confirmLoanStatus "-Nl1" (WriteFailed "PERMISSION_DENIED") WriteOk atModal))
  = db_orders (db atModal) /\
  loansAt (db atModal) "-Nc1" !! "-Nl1"%string = None /\
  loansAt (db (confirmLoanStatus "-Nl1" (WriteFailed "PERMISSION_DENIED") WriteOk atModal))
          "-Nc1" !! "-Nl1"%string
  = Some entry1 /\
  db_loanCustomers
    (db (confirmLoanStatus "-Nl1" WriteOk (WriteFailed "PERMISSION_DENIED") atModal))
  = db_loanCustomers (db atModal) /\
  n_status <$> (db_orders (db atModal) !! "order001"%string) = Some (Some Pending) /\
  n_status <$> (db_orders
     (db (confirmLoanStatus "-Nl1" WriteOk (WriteFailed "PERMISSION_DENIED") atModal))
     !! "order001"%string) = Some (Some Loan).
Proof. vm_compute. repeat split; reflexivity. Qed.

(** Along the moves to [againOther] no customer holds two entries for one
    order. *)
Lemma settlement_keeps_one_entry_per_customer_witness :
  noOrderLoanedTwicePerCustomer (db againOther).
Proof.
  refine (proj1 (settlement_keeps_one_entry_per_customer
                   world1 againOther world1_to_againOther _)).
  intros p k1 k2 e1 e2. rewrite world1_no_loans, lookup_empty. discriminate.
Defined.

(** C2 as stated fails: order001 is settled as a loan of Halima, set back
    to pending, and settled as a loan of Omar; the ledger, without a
    duplicate before, now has two entries for the order. *)
Lemma one_order_loaned_to_two_customers :
  steps world1 againOther /\
  noOrderLoanedTwice (db world1) /\
  loansAt (db againOther) "-Nc1" !! "-Nl1"%string = Some entry1 /\
  le_orderId <$> (loansAt (db againOther) "-Nc2" !! "-Nl2"%string)
  = Some "order001"%string /\
  ~ noOrderLoanedTwice (db againOther).
Proof.
  split; [exact world1_to_againOther|]. split.
  { intros p1 p2 k1 k2 e1 e2. rewrite world1_no_loans, lookup_empty. discriminate. }
  split; [vm_compute; reflexivity|]. split; [vm_compute; reflexivity|].
  intros H.
  destruct (H "-Nc1" "-Nc2" "-Nl1" "-Nl2" entry1
              {| le_id := "-Nl2"; le_orderId := "order001"; le_amount := 10;
                 le_date := Some "2024-01-05T10:00:00.000Z"%string;
                 le_servedBy := Some "Amina"%string |})%string as [Hp _];
    [vm_compute; reflexivity..|discriminate].
Qed.

(** Halima's entry is untouched when the order is loaned to Omar. *)
Lemma addLoanEntryForOrder_duplicate_witness :
  loansAt (db (fst (addLoanEntryForOrder order1_loan omar "-Nl2" WriteOk loaned)))
          "-Nc1" !! "-Nl1"%string
  = Some entry1.
Proof.
  refine (proj1 (addLoanEntryForOrder_duplicate
                   order1_loan omar "-Nl2" WriteOk loaned "-Nc1" "-Nl1" entry1 _ _ _)).
  - vm_compute. reflexivity.
  - reflexivity.
  - left. vm_compute. discriminate.
Defined.

(** C3 as stated fails: Halima holds the entry of order001, the order is
    loaned to Omar, the call resolves and a second entry is appended. *)
Lemma loan_to_second_customer_not_rejected :
  In omar (loanCustomers (app loaned)) /\
  holdsLoanFor (db loaned) "-Nc1" "order001" /\
  snd (addLoanEntryForOrder order1_loan omar "-Nl2" WriteOk loaned) = Settles WriteOk /\
  loansAt (db loaned) "-Nc2" !! "-Nl2"%string = None /\
  loansAt (db (fst (addLoanEntryForOrder order1_loan omar "-Nl2" WriteOk loaned)))
          "-Nc2" !! "-Nl2"%string
  = Some {| le_id := "-Nl2"; le_orderId := "order001"; le_amount := 10;
            le_date := Some "2024-01-05T10:00:00.000Z"%string;
            le_servedBy := Some "Amina"%string |}.
Proof.
  split; [vm_compute; auto|]. split.
  { exists "-Nl1"%string, entry1. split; vm_compute; reflexivity. }
  vm_compute. repeat split; reflexivity.
Qed.

(** The first settlement of order001 creates one entry under Halima. *)
Lemma confirmLoanStatus_entry_witness :
  size (loansAt (db (confirmLoanStatus "-Nl1" WriteOk WriteOk atModal)) (pathOf halima))
  = S (size (loansAt (db atModal) (pathOf halima))).
Proof.
  refine (proj1 (proj2 (proj1 (proj2 (confirmLoanStatus_entry
                   "-Nl1" WriteOk atModal order1 halima _ _ _ _))
                   _ "-Nu1"%string "2024-01-05T10:00:00.000Z"%string _ _ _ _ _))).
  - vm_compute. reflexivity.
  - vm_compute. reflexivity.
  - vm_compute. reflexivity.
  - intros p. change (db atModal) with (db world1).
    rewrite world1_no_loans. apply lookup_empty.
  - intros (l & Hin & _). vm_compute in Hin. exact Hin.
  - reflexivity.
  - reflexivity.
  - reflexivity.
  - reflexivity.
  - reflexivity.
Defined.

(** C4 as stated fails: order001, a loan of Halima set back to pending,
    is settled as a loan of Halima again, and no entry is created. *)
Lemma second_loan_same_customer_adds_nothing :
  orders (app reopened) = [order1] /\
  o_status order1 = Some Pending /\
  db_loanCustomers (db againSame) = db_loanCustomers (db reopened) /\
  loansAt (db againSame) "-Nc1" !! "-Nl2"%string = None /\
  n_status <$> (db_orders (db againSame) !! "order001"%string) = Some (Some Loan).
Proof. vm_compute. repeat split; reflexivity. Qed.

(** The lookup of the waiter in a plain object: an order of the waiter
    "constructor", who is no user, is entered as served by "Object". *)
Lemma served_by_Object :
  Reports.usersById (app (Tray.modalOver Tray.orderOfNobody)) !! "constructor"%string
  = None /\
  loansAt (db (confirmLoanStatus "-Nl1" WriteOk WriteOk (Tray.modalOver Tray.orderOfNobody)))
          "-Nc1" !! "-Nl1"%string
  = Some {| le_id := "-Nl1"; le_orderId := "order001"; le_amount := 10;
            le_date := Some "2024-01-05T10:00:00.000Z"%string;
            le_servedBy := Some "Object"%string |}.
Proof. vm_compute. split; reflexivity. Qed.

(** An order without a time: the status is written, [set] throws on the
    entry, the ledger stays as it was and the customer modal stays open. *)
Lemma untimed_order_set_throws :
  snd (addLoanEntryForOrder Tray.orderUntimed halima "-Nl1" WriteOk
         (Tray.modalOver Tray.orderUntimed)) = Throws /\
  db_loanCustomers
    (db (confirmLoanStatus "-Nl1" WriteOk WriteOk (Tray.modalOver Tray.orderUntimed)))
  = db_loanCustomers (db (Tray.modalOver Tray.orderUntimed)) /\
  loanStatusModalOpen
    (app (confirmLoanStatus "-Nl1" WriteOk WriteOk (Tray.modalOver Tray.orderUntimed)))
  = true /\
  n_status <$> (db_orders
     (db (confirmLoanStatus "-Nl1" WriteOk WriteOk (Tray.modalOver Tray.orderUntimed)))
     !! "order001"%string) = Some (Some Loan).
Proof. vm_compute. repeat split; reflexivity. Qed.

(** C5 at the failing input: an order taken through the order form is
    stored under the key that [push] made, with id order001 inside;
    "paid" on its card writes status and collector to
    [orders/order001], a node that did not exist, and the order's own
    node stays pending, as does the order on the refreshed screen. *)
Theorem paid_on_created_order_misses_it :
  orders (app created) = [order1] /\
  db_orders (db created) !! "-No1"%string
  = Some {| n_id := Some "order001"%string; n_waiterId := None;
            n_waiter_id := Some "-Nu1"%string;
            n_time := Some "2024-01-05T10:00:00.000Z"%string;
            n_status := Some Pending; n_collector := Some ""%string;
            n_items := [{| itemId := "-Ni1"; qty := 2 |}] |} /\
  db_orders (db paidClick) !! "-No1"%string = db_orders (db created) !! "-No1"%string /\
  db_orders (db created) !! "order001"%string = None /\
  db_orders (db paidClick) !! "order001"%string
  = Some {| n_id := None; n_waiterId := None; n_waiter_id := None; n_time := None;
            n_status := Some Paid; n_collector := Some "Yusuf"%string; n_items := [] |} /\
  In order1 (orders (app (refresh paidClick))).
Proof. vm_compute. repeat split; try reflexivity. auto. Qed.

End SettlementClaims.

(** ** Text and phone numbers *)

Module TextFacts.

Import Text Phone.

Lemma append_cons c s t : String.append (String c s) t = String c (String.append s t).
Proof. reflexivity. Qed.

Lemma append_nil_r s : String.append s EmptyString = s.
Proof.
  induction s as [|c s IH]; [reflexivity|]. now rewrite append_cons, IH.
Qed.

Lemma append_assoc a b c :
  String.append (String.append a b) c = String.append a (String.append b c).
Proof.
  induction a as [|x a IH]; [reflexivity|]. now rewrite !append_cons, IH.
Qed.

Lemma length_append a b :
  String.length (String.append a b) = (String.length a + String.length b)%nat.
Proof.
  induction a as [|x a IH]; [reflexivity|].
  rewrite append_cons. cbn [String.length]. now rewrite IH.
Qed.

Lemma substring_all s : String.substring 0 (String.length s) s = s.
Proof. induction s as [|c s IH]; simpl; [reflexivity|now rewrite IH]. Qed.

Lemma substring_skip pre s n :
  String.substring (String.length pre) n (String.append pre s) = String.substring 0 n s.
Proof.
  induction pre as [|c pre IH]; [reflexivity|].
  rewrite append_cons. cbn [String.length String.substring]. exact IH.
Qed.

Lemma slice_append pre s : slice (String.length pre) (String.append pre s) = s.
Proof.
  unfold slice. rewrite substring_skip, length_append.
  replace (String.length pre + String.length s - String.length pre)%nat
    with (String.length s) by lia.
  apply substring_all.
Qed.

Lemma startsWith_split s p :
  startsWith s p = true -> s = String.append p (slice (String.length p) s).
Proof.
  unfold startsWith. revert s.
  induction p as [|c p IH]; intros s H.
  - unfold slice. cbn [String.length]. rewrite Nat.sub_0_r, substring_all. reflexivity.
  - destruct s as [|d s]; cbn [String.prefix] in H; [discriminate|].
    destruct (Ascii.ascii_dec c d) as [->|]; [|discriminate].
    rewrite append_cons. f_equal. apply IH in H. exact H.
Qed.

Lemma split_at s : forall k, (k <= String.length s)%nat ->
  s = String.append (String.substring 0 k s) (String.substring k (String.length s - k) s).
Proof.
  induction s as [|c s IH]; intros k Hk.
  - destruct k; reflexivity.
  - destruct k as [|k].
    + rewrite Nat.sub_0_r, substring_all. reflexivity.
    + cbn [String.substring String.length Nat.sub]. rewrite append_cons. f_equal.
      apply IH. cbn [String.length] in Hk. lia.
Qed.

Lemma endsWith_spec s x : endsWith s x = true <-> exists pre, s = String.append pre x.
Proof.
  unfold endsWith. rewrite andb_true_iff, Nat.leb_le, String.eqb_eq. split.
  - intros [Hle Hx]. exists (String.substring 0 (String.length s - String.length x) s).
    rewrite (split_at s (String.length s - String.length x)) at 1 by lia.
    f_equal. rewrite <- Hx at 3. f_equal. lia.
  - intros [pre ->]. rewrite length_append. split; [lia|].
    replace (String.length pre + String.length x - String.length x)%nat
      with (String.length pre) by lia.
    rewrite substring_skip. apply substring_all.
Qed.

(** Two tails of one string: one is a tail of the other. *)
Lemma tails_comparable a : forall b x y,
  String.append a x = String.append b y ->
  (exists c, x = String.append c y) \/ (exists c, y = String.append c x).
Proof.
  induction a as [|ch a IH]; intros b x y H.
  - left. now exists b.
  - destruct b as [|ch' b].
    + right. exists (String ch a). now rewrite H.
    + rewrite !append_cons in H. injection H as _ H. now apply IH in H.
Qed.

Lemma digitsOnly_allDigits s : OrderIds.allDigits (digitsOnly s) = true.
Proof.
  induction s as [|c s IH]; simpl; [reflexivity|].
  destruct (OrderIds.isDigit c) eqn:E; [simpl; now rewrite E|exact IH].
Qed.

Lemma digitsOnly_fixed s : OrderIds.allDigits s = true -> digitsOnly s = s.
Proof.
  induction s as [|c s IH]; simpl; [reflexivity|].
  intros H. apply andb_true_iff in H as [-> H]. now rewrite IH.
Qed.

Lemma allDigits_append a b :
  OrderIds.allDigits (String.append a b) = OrderIds.allDigits a && OrderIds.allDigits b.
Proof.
  induction a as [|c a IH]; [reflexivity|].
  rewrite append_cons. cbn [OrderIds.allDigits]. now rewrite IH, andb_assoc.
Qed.

Lemma digitsOnly_append a b :
  digitsOnly (String.append a b) = String.append (digitsOnly a) (digitsOnly b).
Proof.
  induction a as [|c a IH]; [reflexivity|].
  rewrite append_cons. cbn [digitsOnly].
  destruct (OrderIds.isDigit c); [rewrite append_cons|]; now rewrite IH.
Qed.

End TextFacts.

Module PhoneFacts.

Import Text Phone TextFacts.

Lemma normalizePhone_split (phone : string) :
  exists pre, In pre prefixes /\
              digitsOnly phone = String.append pre (normalizePhone phone).
Proof.
  unfold normalizePhone, prefixes.
  destruct (startsWith (digitsOnly phone) "25290") eqn:E1.
  { exists "25290"%string. split; [simpl; tauto|]. now apply startsWith_split in E1. }
  destruct (startsWith (digitsOnly phone) "2520") eqn:E2.
  { exists "2520"%string. split; [simpl; tauto|]. now apply startsWith_split in E2. }
  destruct (startsWith (digitsOnly phone) "252") eqn:E3.
  { exists "252"%string. split; [simpl; tauto|]. now apply startsWith_split in E3. }
  destruct (startsWith (digitsOnly phone) "0") eqn:E4.
  { exists "0"%string. split; [simpl; tauto|]. now apply startsWith_split in E4. }
  exists EmptyString. split; [simpl; tauto|reflexivity].
Qed.

(** X1 (normalizePhone).  The result of [normalizePhone] consists of
    decimal digits only, and it is the digits of the phone without one
    leading prefix out of 25290, 2520, 252 and 0, or without none. *)
Theorem normalizePhone_strips_one_prefix (phone : string) :
  OrderIds.allDigits (normalizePhone phone) = true /\
  exists pre, In pre prefixes /\
              digitsOnly phone = String.append pre (normalizePhone phone).
Proof.
  split; [|apply normalizePhone_split].
  destruct (normalizePhone_split phone) as (pre & _ & Heq).
  pose proof (digitsOnly_allDigits phone) as Hd.
  rewrite Heq, allDigits_append in Hd. now apply andb_true_iff in Hd as [_ Hd].
Qed.

End PhoneFacts.

(** ** Sign-in and sessions *)

Module LoginFacts.

Import Model Text Phone Staff StaffRules TextFacts.

Lemma normalizePhone_blank phone :
  digitsOnly phone = EmptyString -> normalizePhone phone = EmptyString.
Proof. intros H. unfold normalizePhone. rewrite H. reflexivity. Qed.

Lemma endsWith_blank s : endsWith s EmptyString = true.
Proof. apply endsWith_spec. exists s. now rewrite append_nil_r. Qed.

Lemma pinDiffers_false user pin : pinDiffers user pin = false <-> su_pin user = Some pin.
Proof.
  unfold pinDiffers. destruct (su_pin user) as [p|]; [|split; discriminate].
  rewrite negb_false_iff, String.eqb_eq. split; [now intros ->|now intros [= ->]].
Qed.

Lemma findOrThrow_found {A} (f : A -> option bool) l x :
  findOrThrow f l = Some (Some x) -> In x l /\ f x = Some true.
Proof.
  induction l as [|y l IH]; simpl; [discriminate|].
  destruct (f y) as [[|]|] eqn:E; [|auto with *|discriminate].
  - intros [= ->]. auto.
  - intros H. apply IH in H as [H1 H2]. auto.
Qed.

(** X2 (handleLogin, the callback of [users.find]).  A user whose PIN is
    the one typed matches whenever the digits typed end with the user's
    normalised number: whatever precedes it (a country code, a trunk
    zero) does not matter. *)
Theorem login_accepts_any_prefix (typed pin userPhone : string) (user : StaffUser) :
  su_pin user = Some pin ->
  su_phone user = Some userPhone ->
  endsWith (digitsOnly typed) (normalizePhone userPhone) = true ->
  loginMatches typed (normalizePhone typed) pin user = Some true.
Proof.
  intros Hpin Hphone Hends. unfold loginMatches.
  apply pinDiffers_false in Hpin. rewrite Hpin, Hphone. f_equal.
  apply endsWith_spec in Hends as [p1 H1].
  destruct (PhoneFacts.normalizePhone_split typed) as (p2 & _ & H2).
  rewrite H1 in H2. apply tails_comparable in H2.
  rewrite !orb_true_iff.
  destruct H2 as [[c Hc]|[c Hc]].
  - left. right. apply endsWith_spec. now exists c.
  - right. apply endsWith_spec. now exists c.
Qed.

Lemma findOrThrow_blank phone pin users user :
  List.find (fun u => negb (pinDiffers u pin)) users = Some user ->
  su_phone user <> None ->
  findOrThrow (loginMatches phone EmptyString pin) users = Some (Some user).
Proof.
  induction users as [|u users IH]; simpl; [discriminate|].
  unfold loginMatches at 1.
  destruct (pinDiffers u pin) eqn:E; simpl.
  - exact IH.
  - intros [= ->] Hphone. destruct (su_phone user) as [up|]; [|contradiction].
    now rewrite endsWith_blank, !orb_true_r.
Qed.

Lemma signed_in now later key r d user :
  (List.length (s_users (d_screen d)) =? 0)%nat = false ->
  findOrThrow (loginMatches (trim (s_authPhone (d_screen d)))
                 (normalizePhone (trim (s_authPhone (d_screen d))))
                 (trim (s_authPin (d_screen d)))) (s_users (d_screen d))
  = Some (Some user) ->
  s_currentUser (d_screen (handleLogin now later key r d)) = Some user /\
  s_users (d_screen (handleLogin now later key r d)) = s_users (d_screen d) /\
  s_tab (d_screen (handleLogin now later key r d)) = homeTab (su_role user) /\
  st_session (d_store (handleLogin now later key r d))
  = Some (Session (su_id user) (later + 3600000)) /\
  st_users (d_store (handleLogin now later key r d)) = st_users (d_store d).
Proof.
  intros Hlen Hfind. unfold handleLogin. rewrite Hlen, Hfind.
  cbn [d_screen d_store].
  destruct (Role_eqb (su_role user) waiter); destruct r; repeat split; reflexivity.
Qed.

(** X3 (handleLogin).  When the phone typed holds no digit, the first
    user on the list whose PIN is the one typed is signed in, whatever
    that user's phone is. *)
Theorem handleLogin_blank_phone now later logKey logWrite (d : Desk) (user : StaffUser) :
  digitsOnly (trim (s_authPhone (d_screen d))) = EmptyString ->
  List.find (fun u => negb (pinDiffers u (trim (s_authPin (d_screen d)))))
            (s_users (d_screen d)) = Some user ->
  su_phone user <> None ->
  s_currentUser (d_screen (handleLogin now later logKey logWrite d)) = Some user.
Proof.
  intros Hblank Hfind Hphone.
  apply signed_in.
  - destruct (s_users (d_screen d)); [discriminate|reflexivity].
  - rewrite (normalizePhone_blank _ Hblank). now apply findOrThrow_blank.
Qed.

(** What [handleLogin] comes to: nobody new is signed in and nothing is
    written, or a listed user with the PIN typed is signed in and gets a
    session of one hour. *)
Lemma login_outcome now later logKey logWrite (d : Desk) :
  let d' := handleLogin now later logKey logWrite d in
  (s_currentUser (d_screen d') = s_currentUser (d_screen d) /\ d_store d' = d_store d) \/
  (exists user,
     s_currentUser (d_screen d') = Some user /\
     In user (s_users (d_screen d)) /\
     su_pin user = Some (trim (s_authPin (d_screen d))) /\
     st_session (d_store d') = Some (Session (su_id user) (later + 3600000))).
Proof.
  cbn zeta.
  destruct ((List.length (s_users (d_screen d)) =? 0)%nat) eqn:Hlen.
  { left. unfold handleLogin. rewrite Hlen. now split. }
  destruct (findOrThrow (loginMatches (trim (s_authPhone (d_screen d)))
              (normalizePhone (trim (s_authPhone (d_screen d))))
              (trim (s_authPin (d_screen d)))) (s_users (d_screen d)))
    as [[user|]|] eqn:Hfind.
  - right. exists user.
    destruct (signed_in now later logKey logWrite d user Hlen Hfind) as (Hcu & _ & _ & Hs & _).
    apply findOrThrow_found in Hfind as [Hin Hm].
    split; [exact Hcu|]. split; [exact Hin|]. split; [|exact Hs].
    unfold loginMatches in Hm.
    destruct (pinDiffers user _) eqn:E; [discriminate|]. now apply pinDiffers_false.
  - left. unfold handleLogin. rewrite Hlen, Hfind. now split.
  - left. unfold handleLogin. rewrite Hlen, Hfind. now split.
Qed.

(** X4 (handleLogin).  Signing in takes the PIN: the user who gets signed
    in is on the list and has the PIN typed, and the session item names
    that user and expires an hour later.  When nobody gets signed in, the
    database and the session item are as before. *)
Theorem handleLogin_checks_pin now later logKey logWrite (d : Desk) :
  s_currentUser (d_screen d) = None ->
  match s_currentUser (d_screen (handleLogin now later logKey logWrite d)) with
  | Some user =>
      In user (s_users (d_screen d)) /\
      su_pin user = Some (trim (s_authPin (d_screen d))) /\
      st_session (d_store (handleLogin now later logKey logWrite d))
      = Some (Session (su_id user) (later + 3600000))
  | None => d_store (handleLogin now later logKey logWrite d) = d_store d
  end.
Proof.
  intros Hout.
  destruct (login_outcome now later logKey logWrite d)
    as [[Hcu Hst]|(user & Hcu & Hin & Hpin & Hs)]; cbn zeta in *.
  - rewrite Hcu, Hout. exact Hst.
  - rewrite Hcu. now repeat split.
Qed.

Lemma find_id_some (users : list StaffUser) user :
  In user users ->
  exists u, List.find (fun x => String.eqb (su_id x) (su_id user)) users = Some u /\
            su_id u = su_id user.
Proof.
  induction users as [|y l IH]; simpl; [contradiction|].
  destruct (String.eqb_spec (su_id y) (su_id user)) as [E|E].
  - intros _. now exists y.
  - intros [->|H]; [contradiction|]. now apply IH.
Qed.

(** X5 (handleLogin, the session effect).  After a sign-in, a reload of
    the page with the same staff list brings back a user with the same
    id, on that user's home tab, as long as the clock is not past one hour
    after the sign-in; past it, nobody is signed in and the session item
    is removed. *)
Theorem session_lasts_one_hour now later logKey logWrite (d : Desk)
    (user : StaffUser) (reloaded : Screen) (t : Z) :
  s_currentUser (d_screen d) = None ->
  s_currentUser (d_screen (handleLogin now later logKey logWrite d)) = Some user ->
  s_currentUser reloaded = None ->
  s_users reloaded = s_users (d_screen d) ->
  let back :=
    restoreSession t {| d_screen := reloaded;
                        d_store := d_store (handleLogin now later logKey logWrite d) |} in
  (t <= later + 3600000 ->
   exists u, s_currentUser (d_screen back) = Some u /\ su_id u = su_id user /\
             s_tab (d_screen back) = homeTab (su_role u)) /\
  (later + 3600000 < t ->
   s_currentUser (d_screen back) = None /\ st_session (d_store back) = None).
Proof.
  intros Hout Hin Hre Hus back.
  destruct (login_outcome now later logKey logWrite d)
    as [[Hcu _]|(user' & Hcu & Hlisted & _ & Hsession)]; cbn zeta in *;
    rewrite Hin in Hcu; [congruence|].
  injection Hcu as <-.
  assert (Hlen : (List.length (s_users reloaded) =? 0)%nat = false).
  { rewrite Hus. destruct (s_users (d_screen d)); [contradiction|reflexivity]. }
  subst back. unfold restoreSession. cbn [d_screen d_store].
  rewrite Hre, Hsession, Hlen. split.
  - intros Ht. destruct (Z.ltb_spec (later + 3600000) t) as [|_]; [lia|].
    rewrite Hus. destruct (find_id_some _ _ Hlisted) as (u & -> & Hid).
    exists u. cbn [d_screen].
    destruct (Role_eqb (su_role u) waiter); repeat split; assumption || reflexivity.
  - intros Ht. destruct (Z.ltb_spec (later + 3600000) t) as [_|]; [|lia].
    cbn [d_screen d_store with_session st_session]. now split.
Qed.

End LoginFacts.

(** ** Staff management *)

Module StaffFacts.

Import Model Text Phone Staff StaffRules TextFacts.

Lemma addLog_users k r e st : st_users (addLog k r e st) = st_users st.
Proof. now destruct r. Qed.

Lemma handleLogin_users now later key r d :
  st_users (d_store (handleLogin now later key r d)) = st_users (d_store d).
Proof.
  unfold handleLogin.
  destruct (List.length _ =? 0)%nat; [reflexivity|].
  destruct (findOrThrow _ _) as [[user|]|]; try reflexivity.
  cbn [d_store with_session st_users]. apply addLog_users.
Qed.

Lemma restoreSession_users now d :
  st_users (d_store (restoreSession now d)) = st_users (d_store d).
Proof.
  unfold restoreSession.
  destruct (s_currentUser _); [reflexivity|].
  destruct (st_session _) as [[userId expiresAt|]|]; try reflexivity;
    destruct (List.length _ =? 0)%nat; try reflexivity.
  destruct (expiresAt <? now); [reflexivity|].
  destruct (List.find _ _); reflexivity.
Qed.

Lemma addWaiter_users now later userKey logKey r1 r2 d :
  let d' := addWaiter now later userKey logKey r1 r2 d in
  st_users (d_store d') = st_users (d_store d) \/
  exists n, st_users (d_store d') = <[userKey := n]> (st_users (d_store d)) /\
            un_pin n = Some "4321"%string /\ un_dbId n = None.
Proof.
  cbn zeta. unfold addWaiter.
  destruct (String.eqb _ _ || String.eqb _ _); [now left|].
  destruct r1; [|now left].
  right. eexists. cbn [d_store]. rewrite addLog_users. cbn [with_nodes st_users].
  split; [reflexivity|]. split; reflexivity.
Qed.

Lemma resetWaiterPin_users id later logKey r1 r2 d :
  let d' := resetWaiterPin id later logKey r1 r2 d in
  st_users (d_store d') = st_users (d_store d) \/
  st_users (d_store d')
  = partial_alter (mergeUser None None (Some "0000"%string) None)
      (pathIdOf (userById (d_screen d) id) id) (st_users (d_store d)).
Proof.
  cbn zeta. unfold resetWaiterPin. destruct r1; [|now left].
  right. cbn [d_store]. now rewrite addLog_users.
Qed.

Lemma updateWaiterProfile_users id name phone role pin later logKey r1 r2 d :
  let d' := updateWaiterProfile id name phone role pin later logKey r1 r2 d in
  let s := d_screen d in
  let target := userById s id in
  st_users (d_store d') = st_users (d_store d) \/
  (isAdminTarget target && negb (isSelf s id) = false /\
   badPin pin = false /\
   st_users (d_store d')
   = partial_alter
       (mergeUser (Some (trim name)) (Some (trim phone)) (pinPayload pin)
                  (Some (enforcedRole s target id role)))
       (pathIdOf target id) (st_users (d_store d))).
Proof.
  cbn zeta. unfold updateWaiterProfile.
  destruct (String.eqb _ _ || String.eqb _ _); [now left|].
  destruct (isAdminTarget _ && negb _) eqn:E1; [now left|].
  destruct (badPin pin) eqn:E2; [now left|].
  destruct r1; [|now left].
  right. cbn [d_store]. now rewrite addLog_users.
Qed.

Lemma deleteWaiter_users id later logKey r1 r2 d :
  let d' := deleteWaiter id later logKey r1 r2 d in
  let s := d_screen d in
  let target := userById s id in
  st_users (d_store d') = st_users (d_store d) \/
  (isAdminTarget target = false /\ isSelf s id = false /\
   st_users (d_store d') = delete (pathIdOf target id) (st_users (d_store d))).
Proof.
  cbn zeta. unfold deleteWaiter.
  destruct (isAdminTarget _) eqn:E1; destruct (isSelf _ id) eqn:E2;
    cbn [andb negb]; try (now left).
  destruct r1; [|now left].
  right. cbn [d_store]. now rewrite addLog_users.
Qed.

(** The screen cells that the staff handlers leave alone. *)
Lemma management_screen d d' :
  (exists now later userKey logKey r1 r2, d' = addWaiter now later userKey logKey r1 r2 d) \/
  (exists id later logKey r1 r2, d' = resetWaiterPin id later logKey r1 r2 d) \/
  (exists id name phone role pin later logKey r1 r2,
     d' = updateWaiterProfile id name phone role pin later logKey r1 r2 d) \/
  (exists id later logKey r1 r2, d' = deleteWaiter id later logKey r1 r2 d) ->
  s_users (d_screen d') = s_users (d_screen d) /\
  s_currentUser (d_screen d') = s_currentUser (d_screen d).
Proof.
  intros [H|[H|[H|H]]].
  - destruct H as (now & later & userKey & logKey & r1 & r2 & ->). unfold addWaiter.
    destruct (String.eqb _ _ || String.eqb _ _); [now split|]. destruct r1; now split.
  - destruct H as (id & later & logKey & r1 & r2 & ->). unfold resetWaiterPin.
    destruct r1; now split.
  - destruct H as (id & name & phone & role & pin & later & logKey & r1 & r2 & ->).
    unfold updateWaiterProfile.
    destruct (String.eqb _ _ || String.eqb _ _); [now split|].
    destruct (isAdminTarget _ && negb _); [now split|].
    destruct (badPin pin); [now split|]. destruct r1; now split.
  - destruct H as (id & later & logKey & r1 & r2 & ->). unfold deleteWaiter.
    destruct (isAdminTarget _ && negb _); [now split|].
    destruct (isSelf _ id); [now split|]. destruct r1; now split.
Qed.

Lemma pinPayload_fourDigits pin p :
  badPin pin = false -> pinPayload pin = Some p -> fourDigits p = true.
Proof.
  unfold badPin, pinPayload. destruct pin as [q|]; [|discriminate].
  destruct (String.eqb_spec q "") as [->|_]; cbn [negb andb].
  - discriminate.
  - intros H. apply negb_false_iff in H.
    destruct (String.eqb (trim q) ""); [discriminate|]. now intros [= <-].
Qed.

Lemma merge_pin name phone pin role (n : option UserNode) n' p :
  mergeUser name phone pin role n = Some n' -> un_pin n' = Some p ->
  pin = Some p \/ (exists n0, n = Some n0 /\ un_pin n0 = Some p).
Proof.
  unfold mergeUser. intros [= <-]. cbn [un_pin].
  destruct pin as [q|]; cbn [Settlement.orElse]; [intros [= ->]; now left|].
  destruct n as [n0|]; cbn [default]; [|discriminate]. intros H. right. now exists n0.
Qed.

Lemma move_pins d d' : move d d' -> pinsWellFormed (d_store d) -> pinsWellFormed (d_store d').
Proof.
  intros Hmove Hp. unfold pinsWellFormed in *.
  destruct Hmove as [now later key r d|d|now d|seen entries d Hperm
                    |now later userKey logKey r1 r2 d Hfresh
                    |id later logKey r1 r2 d Hshown Hid
                    |id name phone role pin later logKey r1 r2 d Hshown Hid
                    |id later logKey r1 r2 d Hshown Hid].
  - rewrite handleLogin_users. exact Hp.
  - exact Hp.
  - rewrite restoreSession_users. exact Hp.
  - exact Hp.
  - destruct (addWaiter_users now later userKey logKey r1 r2 d) as [->|(n & -> & Hpin & _)];
      [exact Hp|].
    intros k n' p. rewrite lookup_insert. case_decide.
    + intros [= <-]. rewrite Hpin. now intros [= <-].
    + apply Hp.
  - destruct (resetWaiterPin_users id later logKey r1 r2 d) as [->| ->]; [exact Hp|].
    intros k n' p. rewrite lookup_partial_alter. case_decide; [|apply Hp].
    intros Hm Hpin. destruct (merge_pin _ _ _ _ _ _ _ Hm Hpin) as [[= <-]|(n0 & Hn0 & Hq)];
      [reflexivity|]. eapply Hp; eassumption.
  - destruct (updateWaiterProfile_users id name phone role pin later logKey r1 r2 d)
      as [->|(_ & Hbad & ->)]; [exact Hp|].
    intros k n' p. rewrite lookup_partial_alter. case_decide; [|apply Hp].
    intros Hm Hpin. destruct (merge_pin _ _ _ _ _ _ _ Hm Hpin) as [Hq|(n0 & Hn0 & Hq)].
    + eapply pinPayload_fourDigits; eassumption.
    + eapply Hp; eassumption.
  - destruct (deleteWaiter_users id later logKey r1 r2 d) as [->|(_ & _ & ->)]; [exact Hp|].
    intros k n' p. rewrite lookup_delete. case_decide; [discriminate|apply Hp].
Qed.

(** X6 (addWaiter, resetWaiterPin, updateWaiterProfile, deleteWaiter).
    Whatever is done at the sign-in and staff screens, every PIN in the
    database stays a string of exactly four decimal digits. *)
Theorem pins_stay_four_digits (d d' : Desk) :
  pinsWellFormed (d_store d) -> moves d d' -> pinsWellFormed (d_store d').
Proof.
  intros Hp Hmoves. induction Hmoves as [d|d1 d2 d3 Hmove _ IH]; [exact Hp|].
  apply IH. eapply move_pins; eassumption.
Qed.

Lemma move_signed d d' :
  move d d' -> signedInListed (d_screen d) -> signedInListed (d_screen d').
Proof.
  intros Hmove Hs. unfold signedInListed in *.
  destruct Hmove as [now later key r d|d|now d|seen entries d Hperm
                    |now later userKey logKey r1 r2 d Hfresh
                    |id later logKey r1 r2 d Hshown Hid
                    |id name phone role pin later logKey r1 r2 d Hshown Hid
                    |id later logKey r1 r2 d Hshown Hid].
  - destruct ((List.length (s_users (d_screen d)) =? 0)%nat) eqn:Hlen.
    { unfold handleLogin. rewrite Hlen. exact Hs. }
    destruct (findOrThrow (loginMatches (trim (s_authPhone (d_screen d)))
                (normalizePhone (trim (s_authPhone (d_screen d))))
                (trim (s_authPin (d_screen d)))) (s_users (d_screen d)))
      as [[user|]|] eqn:Hfind.
    + destruct (LoginFacts.signed_in now later key r d user Hlen Hfind)
        as (Hcu & Hus & _).
      intros cu. rewrite Hcu, Hus. intros [= <-]. exists user.
      apply LoginFacts.findOrThrow_found in Hfind as [Hin _]. now split.
    + unfold handleLogin. rewrite Hlen, Hfind. exact Hs.
    + unfold handleLogin. rewrite Hlen, Hfind. exact Hs.
  - intros cu. discriminate.
  - unfold restoreSession.
    destruct (s_currentUser (d_screen d)) eqn:Hcu in |- *; [exact Hs|].
    destruct (st_session _) as [[userId expiresAt|]|]; try exact Hs;
      destruct (List.length _ =? 0)%nat; try exact Hs.
    destruct (expiresAt <? now); [exact Hs|].
    destruct (List.find _ _) as [found|] eqn:Hfind; [|exact Hs].
    apply List.find_some in Hfind as [Hin _].
    intros cu. cbn [d_screen].
    destruct (Role_eqb (su_role found) waiter); cbn; intros [= <-]; now exists found.
  - cbn [d_screen]. unfold usersListener.
    set (list := map _ entries).
    set (s2 := if String.eqb seen "" then _ else _).
    assert (H2 : s_users s2 = list /\ s_currentUser s2 = s_currentUser (d_screen d)).
    { subst s2. destruct (String.eqb seen ""); [|now split].
      destruct (List.find _ list); now split. }
    destruct H2 as [Hus Hcu]. clearbody s2.
    destruct (s_currentUser (d_screen d)) as [cu0|] eqn:E.
    + destruct (List.find _ list) as [u|] eqn:Hfind.
      * intros cu. rewrite Hcu, Hus. intros [= <-].
        apply List.find_some in Hfind as [Hin Heq]. apply String.eqb_eq in Heq.
        now exists u.
      * intros cu. discriminate.
    + intros cu. rewrite Hcu. discriminate.
  - destruct (management_screen d (addWaiter now later userKey logKey r1 r2 d)) as [Hu Hc].
    { left. now repeat eexists. }
    intros cu. rewrite Hu, Hc. apply Hs.
  - destruct (management_screen d (resetWaiterPin id later logKey r1 r2 d)) as [Hu Hc].
    { right. left. now repeat eexists. }
    intros cu. rewrite Hu, Hc. apply Hs.
  - destruct (management_screen d
                (updateWaiterProfile id name phone role pin later logKey r1 r2 d))
      as [Hu Hc].
    { right. right. left. now repeat eexists. }
    intros cu. rewrite Hu, Hc. apply Hs.
  - destruct (management_screen d (deleteWaiter id later logKey r1 r2 d)) as [Hu Hc].
    { right. right. right. now repeat eexists. }
    intros cu. rewrite Hu, Hc. apply Hs.
Qed.

(** X7 (the users listener, handleLogin, handleLogout, the session
    effect).  Whoever is signed in is on the staff list of the screen: a
    user whose node is gone is signed out by the snapshot that no longer
    has it. *)
Theorem signed_in_user_is_listed (d d' : Desk) :
  signedInListed (d_screen d) -> moves d d' -> signedInListed (d_screen d').
Proof.
  intros Hs Hmoves. induction Hmoves as [d|d1 d2 d3 Hmove _ IH]; [exact Hs|].
  apply IH. eapply move_signed; eassumption.
Qed.

Lemma find_listed (users : list StaffUser) id :
  In id (map su_id users) ->
  exists u, List.find (fun x => String.eqb (su_id x) id) users = Some u.
Proof.
  induction users as [|y l IH]; simpl; [contradiction|].
  destruct (String.eqb_spec (su_id y) id) as [E|E].
  - intros _. now exists y.
  - intros [H|H]; [contradiction|]. now apply IH.
Qed.

(** On a screen that shows the database, the user found for an id is the
    user of some node, and the path of the write is the key of that
    node. *)
Lemma shown_target d id u :
  shown d -> plainNodes (d_store d) -> userById (d_screen d) id = Some u ->
  exists k n, st_users (d_store d) !! k = Some n /\ u = userOfNode k n /\
              pathIdOf (Some u) id = k.
Proof.
  intros (entries & Hperm & Hlist) Hplain Hfind.
  unfold userById in Hfind. apply List.find_some in Hfind as [Hin _].
  rewrite Hlist in Hin. unfold listed in Hin. apply List.in_map_iff in Hin as ([k n] & <- & Hin).
  eapply Permutation_in in Hin; [|exact Hperm].
  apply list_elem_of_In, elem_of_map_to_list in Hin.
  exists k, n. split; [exact Hin|]. split; [reflexivity|].
  cbn. now rewrite (Hplain k n Hin).
Qed.

Lemma merge_role name phone pin role (n : UserNode) :
  un_role n = Some admin ->
  (role = None \/ role = Some admin) ->
  exists n', mergeUser name phone pin role (Some n) = Some n' /\ un_role n' = Some admin.
Proof.
  intros Hr Hrole. eexists. split; [reflexivity|]. cbn.
  destruct Hrole as [-> | ->]; [exact Hr|reflexivity].
Qed.

Lemma move_admin d d' k :
  move d d' -> plainNodes (d_store d) -> adminAt (d_store d) k -> adminAt (d_store d') k.
Proof.
  intros Hmove Hplain (n & Hn & Hrole). unfold adminAt.
  destruct Hmove as [now later key r d|d|now d|seen entries d Hperm
                    |now later userKey logKey r1 r2 d Hfresh
                    |id later logKey r1 r2 d Hshown Hid
                    |id name phone role pin later logKey r1 r2 d Hshown Hid
                    |id later logKey r1 r2 d Hshown Hid].
  - rewrite handleLogin_users. eauto.
  - eauto.
  - rewrite restoreSession_users. eauto.
  - eauto.
  - destruct (addWaiter_users now later userKey logKey r1 r2 d) as [->|(n0 & -> & _)];
      [eauto|].
    exists n. split; [|exact Hrole]. rewrite lookup_insert_ne; [exact Hn|]. congruence.
  - destruct (resetWaiterPin_users id later logKey r1 r2 d) as [->| ->]; [eauto|].
    rewrite lookup_partial_alter. case_decide as E; [|eauto].
    rewrite E, Hn. apply merge_role; [exact Hrole|now left].
  - destruct (updateWaiterProfile_users id name phone role pin later logKey r1 r2 d)
      as [->|(Hguard & _ & ->)]; [eauto|].
    rewrite lookup_partial_alter. case_decide as E; [|eauto].
    rewrite E, Hn. apply merge_role; [exact Hrole|]. right. f_equal.
    destruct (find_listed _ _ Hid) as [u Hu]. fold (userById (d_screen d) id) in Hu.
    rewrite Hu in E, Hguard |- *.
    destruct (shown_target d id u Hshown Hplain Hu) as (k' & n' & Hn' & -> & Hk').
    rewrite Hk' in E. subst k'. rewrite Hn in Hn'. injection Hn' as <-.
    assert (Hadm : su_role (userOfNode k n) = admin) by (cbn; now rewrite Hrole).
    unfold enforcedRole, isAdminTarget in *. rewrite Hadm in *. reflexivity.
  - destruct (deleteWaiter_users id later logKey r1 r2 d) as [->|(Hadm & _ & ->)]; [eauto|].
    rewrite lookup_delete. case_decide as E; [|eauto]. exfalso.
    destruct (find_listed _ _ Hid) as [u Hu]. fold (userById (d_screen d) id) in Hu.
    rewrite Hu in E, Hadm.
    destruct (shown_target d id u Hshown Hplain Hu) as (k' & n' & Hn' & -> & Hk').
    rewrite Hk' in E. subst k'. rewrite Hn in Hn'. injection Hn' as <-.
    unfold isAdminTarget in Hadm. cbn in Hadm. rewrite Hrole in Hadm. discriminate.
Qed.

Lemma merge_plain name phone pin role (n : option UserNode) n' :
  (forall n0, n = Some n0 -> un_dbId n0 = None) ->
  mergeUser name phone pin role n = Some n' -> un_dbId n' = None.
Proof.
  intros H. unfold mergeUser. intros [= <-]. cbn.
  destruct n as [n0|]; cbn; [now apply H|reflexivity].
Qed.

Lemma move_plain d d' : move d d' -> plainNodes (d_store d) -> plainNodes (d_store d').
Proof.
  intros Hmove Hp. unfold plainNodes in *.
  destruct Hmove as [now later key r d|d|now d|seen entries d Hperm
                    |now later userKey logKey r1 r2 d Hfresh
                    |id later logKey r1 r2 d Hshown Hid
                    |id name phone role pin later logKey r1 r2 d Hshown Hid
                    |id later logKey r1 r2 d Hshown Hid].
  - rewrite handleLogin_users. exact Hp.
  - exact Hp.
  - rewrite restoreSession_users. exact Hp.
  - exact Hp.
  - destruct (addWaiter_users now later userKey logKey r1 r2 d) as [->|(n & -> & _ & Hd)];
      [exact Hp|].
    intros k n'. rewrite lookup_insert. case_decide; [now intros [= <-]|apply Hp].
  - destruct (resetWaiterPin_users id later logKey r1 r2 d) as [->| ->]; [exact Hp|].
    intros k n'. rewrite lookup_partial_alter. case_decide; [|apply Hp].
    apply merge_plain. intros n0. apply Hp.
  - destruct (updateWaiterProfile_users id name phone role pin later logKey r1 r2 d)
      as [->|(_ & _ & ->)]; [exact Hp|].
    intros k n'. rewrite lookup_partial_alter. case_decide; [|apply Hp].
    apply merge_plain. intros n0. apply Hp.
  - destruct (deleteWaiter_users id later logKey r1 r2 d) as [->|(_ & _ & ->)]; [exact Hp|].
    intros k n'. rewrite lookup_delete. case_decide; [discriminate|apply Hp].
Qed.

(** X8 (deleteWaiter, updateWaiterProfile, resetWaiterPin, addWaiter).
    An admin stays: no sequence of moves at the sign-in and staff screens
    removes the node of an admin or gives it another role. *)
Theorem admins_stay (d d' : Desk) (k : string) :
  plainNodes (d_store d) -> moves d d' ->
  adminAt (d_store d) k -> adminAt (d_store d') k.
Proof.
  intros Hplain Hmoves. induction Hmoves as [d|d1 d2 d3 Hmove _ IH]; [auto|].
  intros Ha. apply IH.
  - eapply move_plain; eassumption.
  - eapply move_admin; eassumption.
Qed.

End StaffFacts.

Module StaffRoundTrips.

Import Model Text Phone Staff StaffRules TextFacts StaffFacts.

(** X9 (addWaiter, the users listener, handleLogin).  A staff member
    added with a name and a phone that are not blank comes back from the
    database as a user with the id [waiter-<clock>], the trimmed name and
    phone, the chosen role and the PIN 4321, under the key that [push]
    made; the phone as entered and that PIN match this user at sign-in;
    and the form is cleared. *)
Theorem addWaiter_round_trip now later userKey logKey logWrite (d : Desk) :
  let s := d_screen d in
  let d' := addWaiter now later userKey logKey WriteOk logWrite d in
  trim (s_newWaiterName s) <> EmptyString ->
  trim (s_newWaiterPhone s) <> EmptyString ->
  exists n,
    st_users (d_store d') !! userKey = Some n /\
    userOfNode userKey n
    = {| su_id := String.append "waiter-" (JS.String_ now);
         su_dbId := Some userKey;
         su_name := Some (trim (s_newWaiterName s));
         su_role := s_newWaiterRole s;
         su_phone := Some (trim (s_newWaiterPhone s));
         su_pin := Some "4321"%string |} /\
    loginMatches (trim (s_newWaiterPhone s)) (normalizePhone (trim (s_newWaiterPhone s)))
                 "4321" (userOfNode userKey n) = Some true /\
    s_newWaiterName (d_screen d') = EmptyString /\
    s_newWaiterPhone (d_screen d') = EmptyString /\
    s_waiterModalOpen (d_screen d') = false.
Proof.
  cbn zeta. intros Hname Hphone. unfold addWaiter.
  cbn [with_banner s_newWaiterName s_newWaiterPhone s_newWaiterRole].
  destruct (String.eqb_spec (trim (s_newWaiterName (d_screen d))) "") as [E|_];
    [contradiction|].
  destruct (String.eqb_spec (trim (s_newWaiterPhone (d_screen d))) "") as [E|_];
    [contradiction|].
  cbn [orb d_store d_screen]. rewrite addLog_users. cbn [with_nodes st_users].
  eexists. rewrite lookup_insert_eq. split; [reflexivity|].
  split; [reflexivity|]. split; [|repeat split].
  unfold loginMatches, pinDiffers, userOfNode. cbn [su_pin su_phone un_pin un_phone].
  cbn [String.eqb Ascii.eqb Bool.eqb negb]. now rewrite String.eqb_refl.
Qed.

Lemma same_id_same_user (users : list StaffUser) u1 u2 :
  List.NoDup (map su_id users) -> In u1 users -> In u2 users ->
  su_id u1 = su_id u2 -> u1 = u2.
Proof.
  induction users as [|y l IH]; simpl; [contradiction|].
  intros Hnd. apply List.NoDup_cons_iff in Hnd as [Hy Hnd].
  intros [->|H1] [->|H2] Hid; try reflexivity.
  - exfalso. apply Hy. rewrite Hid. apply List.in_map, H2.
  - exfalso. apply Hy. rewrite <- Hid. apply List.in_map, H1.
  - now apply IH.
Qed.

(** X10 (deleteWaiter, the users listener).  On a screen that shows the
    database, with ids that are pairwise distinct, a staff member who is
    removed is on no later staff list: the snapshot after the removal has
    no user with that id. *)
Theorem deleteWaiter_unlists id later logKey logWrite (d : Desk) (target : StaffUser)
    (entries : list (string * UserNode)) :
  let d' := deleteWaiter id later logKey WriteOk logWrite d in
  shown d -> plainNodes (d_store d) ->
  List.NoDup (map su_id (s_users (d_screen d))) ->
  userById (d_screen d) id = Some target ->
  su_role target <> admin ->
  isSelf (d_screen d) id = false ->
  Permutation entries (map_to_list (st_users (d_store d'))) ->
  ~ In id (map su_id (listed entries)).
Proof.
  cbn zeta. intros Hshown Hplain Hnd Htarget Hrole Hself Hperm Hin.
  destruct (deleteWaiter_users id later logKey WriteOk logWrite d) as [Hsame|(_ & _ & Hdel)].
  { revert Hsame. unfold deleteWaiter. rewrite Htarget, Hself.
    unfold isAdminTarget. destruct (su_role target); try contradiction;
      cbn [Role_eqb andb negb d_store]; rewrite addLog_users; cbn [with_nodes st_users];
      intros Hsame;
      destruct (shown_target d id target Hshown Hplain Htarget) as (k & n & Hn & _ & Hk);
      apply (f_equal (fun m => m !! k)) in Hsame;
      rewrite Hk, lookup_delete_eq, Hn in Hsame; discriminate. }
  rewrite Htarget in Hdel.
  destruct (shown_target d id target Hshown Hplain Htarget) as (k & n & Hn & Hu & Hk).
  rewrite Hk in Hdel. rewrite Hdel in Hperm. clear Hdel.
  apply List.in_map_iff in Hin as (u' & Hid' & Hin').
  unfold listed in Hin'. apply List.in_map_iff in Hin' as ([k' n'] & <- & Hin').
  eapply Permutation_in in Hin'; [|exact Hperm].
  apply list_elem_of_In, elem_of_map_to_list, lookup_delete_Some in Hin' as [Hne Hn'].
  cbn [fst snd] in Hid'.
  destruct Hshown as (old & Hold & Hlist).
  assert (In (userOfNode k' n') (s_users (d_screen d))) as H1.
  { rewrite Hlist. unfold listed. apply List.in_map_iff. exists (k', n'). split; [reflexivity|].
    eapply Permutation_in; [symmetry; exact Hold|].
    now apply list_elem_of_In, elem_of_map_to_list. }
  assert (In target (s_users (d_screen d))) as H2.
  { unfold userById in Htarget. now apply List.find_some in Htarget as [H2 _]. }
  assert (su_id target = id) as Hid.
  { unfold userById in Htarget. apply List.find_some in Htarget as [_ H].
    now apply String.eqb_eq in H. }
  assert (userOfNode k' n' = target) as Heq.
  { apply (same_id_same_user _ _ _ Hnd H1 H2). now rewrite Hid. }
  rewrite Hu in Heq. apply (f_equal su_dbId) in Heq. cbn in Heq.
  rewrite (Hplain k n Hn), (Hplain k' n' Hn') in Heq. cbn in Heq. congruence.
Qed.

End StaffRoundTrips.

(** ** The order list and the dashboard *)

Module BoardFacts.

Import Model Reports Board.

Section Views.

Context {num : Type} {JN : JsNumber num}.

Variable parseDate : string -> option Z.

Lemma filter_split {A} (p : A -> bool) (l : list A) :
  (List.length (List.filter p l) + List.length (List.filter (fun x => negb (p x)) l)
   = List.length l)%nat.
Proof.
  induction l as [|x l IH]; [reflexivity|]. cbn [List.filter].
  destruct (p x); cbn [negb List.length]; lia.
Qed.

Lemma filter_three (l : list (Order num)) :
  (List.length (List.filter (fun o => status_is Paid (o_status o)) l)
   + List.length (List.filter (fun o => status_is Loan (o_status o)) l)
   + List.length (List.filter isActive l) = List.length l)%nat.
Proof.
  induction l as [|o l IH]; [reflexivity|]. cbn [List.filter].
  assert (H : (status_is Paid (o_status o), status_is Loan (o_status o), isActive o)
              = (true, false, false) \/
              (status_is Paid (o_status o), status_is Loan (o_status o), isActive o)
              = (false, true, false) \/
              (status_is Paid (o_status o), status_is Loan (o_status o), isActive o)
              = (false, false, true)).
  { unfold isActive, status_is. destruct (o_status o) as [[| |]|]; cbn; auto. }
  destruct H as [H|[H|H]]; injection H as -> -> ->; cbn [List.length]; lia.
Qed.

(** X11 (waiterStatusStats, waiterCharts).  The slices of the dashboard
    charts add up: paid, loan and pending orders make the total, and for
    every waiter the orders shown as loan and as paid (which takes in the
    open ones) make that waiter's orders; there is one chart for each
    user with the role waiter, in the order of the staff list. *)
Theorem dashboard_slices_add_up (a : App num) :
  (let s := waiterStatusStats a in
   ss_paid s + ss_loan s + ss_pending s = ss_total s)%nat /\
  Forall (fun c => wc_loan c + wc_paid c = wc_orders c /\
                   wc_orders c = List.length (List.filter (servedBy (wc_waiter c)) (orders a)))%nat
         (waiterCharts a) /\
  map wc_waiter (waiterCharts a)
  = List.filter (fun u => match u_role u with waiter => true | _ => false end) (users a).
Proof.
  split; [|split].
  - cbn. apply filter_three.
  - unfold waiterCharts. apply List.Forall_map, List.Forall_forall. intros w _.
    cbn [wc_loan wc_paid wc_orders wc_waiter]. split; [|reflexivity].
    apply (filter_split (fun o => status_is Loan (o_status o))).
  - unfold waiterCharts. rewrite List.map_map. cbn [wc_waiter]. apply List.map_id.
Qed.

Lemma tabs_perm (l : list (Order num)) :
  Permutation l (activeOrders l ++ paidOrders l ++ loanOrders l).
Proof.
  unfold activeOrders, paidOrders, loanOrders.
  induction l as [|o l IH]; [constructor|]. cbn [List.filter].
  assert (H : (status_is Paid (o_status o), status_is Loan (o_status o), isActive o)
              = (true, false, false) \/
              (status_is Paid (o_status o), status_is Loan (o_status o), isActive o)
              = (false, true, false) \/
              (status_is Paid (o_status o), status_is Loan (o_status o), isActive o)
              = (false, false, true)).
  { unfold isActive, status_is. destruct (o_status o) as [[| |]|]; cbn; auto. }
  destruct H as [H|[H|H]]; injection H as -> -> ->.
  - apply Permutation_cons_app. exact IH.
  - rewrite app_assoc. apply Permutation_cons_app. rewrite <- app_assoc. exact IH.
  - cbn [app]. now constructor.
Qed.

(** X12 (activeOrders, paidOrders, loanOrders, doneOrders, orderList).
    The tabs of the order list split it: every order of the filtered list
    is under exactly one of Active, Paid and Loan, Done is Paid followed
    by Loan, and All is the list itself. *)
Theorem order_tabs_split (l : list (Order num)) :
  Permutation (orderList show_all l)
              (orderList show_active l ++ orderList show_paid l ++ orderList show_loan l) /\
  orderList show_done l = orderList show_paid l ++ orderList show_loan l /\
  (forall o, In o l ->
     (In o (orderList show_active l) /\ ~ In o (orderList show_paid l)
      /\ ~ In o (orderList show_loan l)) \/
     (~ In o (orderList show_active l) /\ In o (orderList show_paid l)
      /\ ~ In o (orderList show_loan l)) \/
     (~ In o (orderList show_active l) /\ ~ In o (orderList show_paid l)
      /\ In o (orderList show_loan l))).
Proof.
  split; [apply tabs_perm|]. split; [reflexivity|].
  intros o Hin. cbn [orderList]. unfold activeOrders, paidOrders, loanOrders.
  rewrite !List.filter_In. unfold isActive, status_is.
  destruct (o_status o) as [[| |]|]; cbn [Status_eqb].
  - right. left. intuition discriminate.
  - right. right. intuition discriminate.
  - left. intuition discriminate.
  - left. intuition discriminate.
Qed.

Lemma insertOrder_perm x (l : list (Order num)) :
  Permutation (insertOrder parseDate x l) (x :: l).
Proof.
  induction l as [|y l IH]; cbn [insertOrder]; [reflexivity|].
  destruct (compareOrders parseDate x y <=? 0); [reflexivity|].
  rewrite IH. constructor.
Qed.

Lemma orderPriority_range (o : Order num) : 0 <= orderPriority o <= 2.
Proof. unfold orderPriority. destruct (o_status o) as [[| |]|]; lia. Qed.

Lemma compare_le (x y : Order num) :
  (exists t, newDate parseDate (o_time x) = Some t) ->
  (exists t, newDate parseDate (o_time y) = Some t) ->
  compareOrders parseDate x y <= 0 -> mayPrecede parseDate x y.
Proof.
  intros [tx Hx] [ty Hy]. unfold compareOrders, timeDifference, mayPrecede.
  rewrite Hx, Hy. cbn [from_option id].
  destruct (Z.eqb_spec (orderPriority x) (orderPriority y)) as [E|E]; cbn [negb]; intros H.
  - right. split; [exact E|]. exists tx, ty. repeat split. lia.
  - left. lia.
Qed.

Lemma compare_gt (x y : Order num) :
  (exists t, newDate parseDate (o_time x) = Some t) ->
  (exists t, newDate parseDate (o_time y) = Some t) ->
  0 < compareOrders parseDate x y -> mayPrecede parseDate y x.
Proof.
  intros [tx Hx] [ty Hy]. unfold compareOrders, timeDifference, mayPrecede.
  rewrite Hx, Hy. cbn [from_option id].
  destruct (Z.eqb_spec (orderPriority x) (orderPriority y)) as [E|E]; cbn [negb]; intros H.
  - right. split; [now symmetry|]. exists ty, tx. repeat split. lia.
  - left. lia.
Qed.

Lemma mayPrecede_trans (x y z : Order num) :
  mayPrecede parseDate x y -> mayPrecede parseDate y z -> mayPrecede parseDate x z.
Proof.
  unfold mayPrecede.
  intros [H1|(E1 & tx & ty & Hx & Hy & H1)] [H2|(E2 & ty' & tz & Hy' & Hz & H2)].
  - left. lia.
  - left. lia.
  - left. lia.
  - right. split; [congruence|]. exists tx, tz. repeat split; try assumption.
    rewrite Hy in Hy'. injection Hy' as <-. lia.
Qed.

Lemma insertOrder_sorted x (l : list (Order num)) :
  (exists t, newDate parseDate (o_time x) = Some t) ->
  timesParse parseDate l ->
  StronglySorted (mayPrecede parseDate) l ->
  StronglySorted (mayPrecede parseDate) (insertOrder parseDate x l).
Proof.
  intros Hx Hl Hs. induction Hs as [|y l Hs IH Hall]; cbn [insertOrder].
  - constructor; constructor.
  - assert (Hy : exists t, newDate parseDate (o_time y) = Some t) by (apply Hl; now left).
    destruct (Z.leb_spec (compareOrders parseDate x y) 0) as [Hle|Hgt].
    + pose proof (compare_le x y Hx Hy Hle) as Hxy.
      constructor; [now constructor|]. constructor; [exact Hxy|].
      eapply List.Forall_impl; [|exact Hall]. intros z Hz.
      eapply mayPrecede_trans; eassumption.
    + pose proof (compare_gt x y Hx Hy Hgt) as Hyx.
      constructor.
      * apply IH. intros o Ho. apply Hl. now right.
      * eapply Permutation_Forall; [symmetry; apply insertOrder_perm|].
        now constructor.
Qed.

Lemma includes_blank text : includes text EmptyString = true.
Proof. destruct text; reflexivity. Qed.

(** X22 (ordersFiltered).  The order list shows orders of the screen
    only; with a waiter chosen in the drop-down, only that waiter's
    orders; and with all waiters and a search text that is blank once
    trimmed and lowered, every order. *)
Theorem ordersFiltered_scope (toLowerCase : string -> string) (a : App num)
    (orderWaiterFilter search : string) :
  let visible := ordersFiltered toLowerCase a orderWaiterFilter search in
  (forall o, In o visible -> In o (orders a)) /\
  (orderWaiterFilter <> "all"%string ->
   forall o, In o visible -> o_waiterId o = Some orderWaiterFilter) /\
  (orderWaiterFilter = "all"%string ->
   toLowerCase (Text.trim search) = EmptyString -> visible = orders a).
Proof.
  cbn zeta. unfold ordersFiltered. split; [|split].
  - intros o Ho. now apply List.filter_In in Ho as [Ho _].
  - intros Hw o Ho. apply List.filter_In in Ho as [_ Ho].
    destruct (String.eqb_spec orderWaiterFilter "all") as [|_]; [contradiction|].
    cbn [negb andb] in Ho. unfold otherWaiter in Ho.
    destruct (o_waiterId o) as [wid|]; [|discriminate Ho].
    destruct (String.eqb_spec wid orderWaiterFilter) as [E|E]; [now rewrite E|discriminate Ho].
  - intros -> ->. cbn [String.eqb Ascii.eqb Bool.eqb negb andb].
    induction (orders a) as [|o l IH]; [reflexivity|].
    cbn [List.filter]. rewrite includes_blank. now f_equal.
Qed.

(** X13 (orderPriority, orderListSorted).  When the times of the orders
    all parse, the sorted order list holds the same orders, open ones
    first, then loans, then paid ones, and among orders of the same kind
    the newer one first. *)
Theorem orderListSorted_ranks (l : list (Order num)) :
  timesParse parseDate l ->
  Permutation (orderListSorted parseDate l) l /\
  StronglySorted (mayPrecede parseDate) (orderListSorted parseDate l).
Proof.
  intros Hl. unfold orderListSorted.
  induction l as [|x l IH]; cbn [fold_right].
  - split; constructor.
  - destruct IH as [Hp Hs]. { intros o Ho. apply Hl. now right. }
    split.
    + rewrite insertOrder_perm. now constructor.
    + apply insertOrder_sorted; [apply Hl; now left| |exact Hs].
      intros o Ho. apply Hl. right. eapply Permutation_in; eassumption.
Qed.

End Views.

End BoardFacts.

(** ** Objects and maps kept as lists of entries *)

Module MapFacts.

Import Reports Draft.

Lemma map_get_set_same {V} k (v : V) m : map_get k (map_set k v m) = Some v.
Proof.
  induction m as [|[k' x] m IH]; cbn [map_set map_get].
  - now rewrite String.eqb_refl.
  - destruct (String.eqb_spec k' k) as [E|E]; cbn [map_get].
    + subst. now rewrite String.eqb_refl.
    + destruct (String.eqb_spec k' k); [contradiction|exact IH].
Qed.

Lemma map_get_set_other {V} k j (v : V) m : j <> k -> map_get j (map_set k v m) = map_get j m.
Proof.
  intros Hne. induction m as [|[k' x] m IH]; cbn [map_set map_get].
  - destruct (String.eqb_spec k j); [congruence|reflexivity].
  - destruct (String.eqb_spec k' k) as [E|E]; cbn [map_get].
    + subst. destruct (String.eqb_spec k j); [congruence|reflexivity].
    + now rewrite IH.
Qed.

Lemma map_set_key_of {V} k j (v : V) m :
  In j (map fst (map_set k v m)) -> j = k \/ In j (map fst m).
Proof.
  induction m as [|[k' x] m IH]; cbn [map_set map fst In].
  - intros [H|[]]. now left.
  - destruct (String.eqb k' k); cbn [map fst In]; tauto.
Qed.

Lemma map_set_keeps_keys {V} k (v : V) m :
  List.NoDup (map fst m) -> List.NoDup (map fst (map_set k v m)).
Proof.
  induction m as [|[k' x] m IH]; cbn [map_set map fst].
  - intros _. constructor; [intros []|constructor].
  - intros H. apply List.NoDup_cons_iff in H as [Hk H].
    destruct (String.eqb_spec k' k) as [E|E]; cbn [map fst].
    + now apply List.NoDup_cons_iff.
    + apply List.NoDup_cons_iff. split; [|now apply IH].
      intros Hin. apply map_set_key_of in Hin as [Hin|Hin]; [congruence|contradiction].
Qed.

Lemma map_get_absent {V} k (m : list (string * V)) :
  ~ In k (map fst m) -> map_get k m = None.
Proof.
  induction m as [|[k' x] m IH]; cbn [map_get map fst]; [reflexivity|].
  intros H. destruct (String.eqb_spec k' k) as [E|E].
  - exfalso. apply H. now left.
  - apply IH. intros Hin. apply H. now right.
Qed.

Lemma map_delete_absent {V} k (m : list (string * V)) :
  map_get k m = None -> map_delete k m = m.
Proof.
  induction m as [|[k' x] m IH]; cbn [map_get map_delete]; [reflexivity|].
  destruct (String.eqb k' k); [discriminate|]. intros H. now rewrite IH.
Qed.

Lemma map_delete_keys {V} k j (m : list (string * V)) :
  In j (map fst (map_delete k m)) -> In j (map fst m).
Proof.
  induction m as [|[k' x] m IH]; cbn [map_delete map fst]; [tauto|].
  destruct (String.eqb k' k); cbn [map fst In]; tauto.
Qed.

Lemma map_delete_NoDup {V} k (m : list (string * V)) :
  List.NoDup (map fst m) -> List.NoDup (map fst (map_delete k m)).
Proof.
  induction m as [|[k' x] m IH]; cbn [map_delete map fst]; [auto|].
  intros H. apply List.NoDup_cons_iff in H as [Hk H].
  destruct (String.eqb k' k); [exact H|]. cbn [map fst]. apply List.NoDup_cons_iff. split.
  - intros Hin. apply Hk. now apply map_delete_keys in Hin.
  - now apply IH.
Qed.

Lemma map_get_delete_eq {V} k (m : list (string * V)) :
  List.NoDup (map fst m) -> map_get k (map_delete k m) = None.
Proof.
  induction m as [|[k' x] m IH]; cbn [map_delete map fst]; [reflexivity|].
  intros H. apply List.NoDup_cons_iff in H as [Hk H].
  destruct (String.eqb_spec k' k) as [E|E].
  - subst. now apply map_get_absent.
  - cbn [map_get]. destruct (String.eqb_spec k' k); [contradiction|]. now apply IH.
Qed.

Lemma map_get_delete_ne {V} k j (m : list (string * V)) :
  j <> k -> map_get j (map_delete k m) = map_get j m.
Proof.
  intros Hne. induction m as [|[k' x] m IH]; cbn [map_delete map_get]; [reflexivity|].
  destruct (String.eqb_spec k' k) as [E|E]; cbn [map_get].
  - subst. destruct (String.eqb_spec k j); [congruence|reflexivity].
  - now rewrite IH.
Qed.

Lemma map_get_In {V} k (v : V) m :
  List.NoDup (map fst m) -> In (k, v) m -> map_get k m = Some v.
Proof.
  induction m as [|[k' x] m IH]; cbn [map fst map_get In]; [contradiction|].
  intros Hnd. apply List.NoDup_cons_iff in Hnd as [Hk Hnd].
  intros [[= -> ->]|Hin].
  - now rewrite String.eqb_refl.
  - destruct (String.eqb_spec k' k) as [E|E]; [|now apply IH].
    exfalso. apply Hk. subst. now apply (List.in_map fst) in Hin.
Qed.

End MapFacts.

(** ** The order form *)

Module DraftFacts.

Import Model Reports Settlement Input Draft MapFacts.

Section Form.

Context {num : Type} {JN : JsNumber num} {JS : JsSign num}.

(** X14 (updateDraftQty).  Setting the quantity of an item in the order
    form: a quantity that is [<= 0] takes the item out of the draft, any
    other quantity is then the one that the form shows for the item; the
    quantities of the other items stay, the draft keeps each item at most
    once, and nothing else on the screen changes.  The one id for which
    this is not so is [__proto__]: a draft that has no line of that name
    stays as it is. *)
Theorem updateDraftQty_sets_one_line (itemId : string) (qty : num) (a : App num) :
  wellKeyed a ->
  let a' := updateDraftQty itemId qty a in
  wellKeyed a' /\
  (itemId <> "__proto__"%string ->
   map_get itemId (draftQty a') = (if n_le0 qty then None else Some qty)) /\
  (itemId = "__proto__"%string -> map_get itemId (draftQty a) = None ->
   draftQty a' = draftQty a) /\
  (forall other, other <> itemId ->
     map_get other (draftQty a') = map_get other (draftQty a)) /\
  set_draft (draftQty a) (showOrderModal a) a' = set_draft (draftQty a) (showOrderModal a) a.
Proof.
  intros Hk. cbn zeta. unfold updateDraftQty, wellKeyed in *. cbn [draftQty set_draft].
  destruct (n_le0 qty).
  - split; [now apply map_delete_NoDup|].
    split; [intros _; now apply map_get_delete_eq|].
    split; [intros _ Hnone; now apply map_delete_absent|].
    split; [intros other Hne; now apply map_get_delete_ne|reflexivity].
  - unfold assign.
    destruct (map_get itemId (draftQty a)) as [old|] eqn:Hold.
    + split; [now apply map_set_keeps_keys|].
      split; [intros _; apply map_get_set_same|].
      split; [intros _ [=]|].
      split; [intros other Hne; now apply map_get_set_other|reflexivity].
    + destruct (String.eqb_spec itemId "__proto__") as [E|E].
      * split; [exact Hk|]. split; [intros Hne; contradiction|].
        split; [reflexivity|]. split; [reflexivity|]. now destruct a.
      * split; [now apply map_set_keeps_keys|].
        split; [intros _; apply map_get_set_same|].
        split; [intros Hp; contradiction|].
        split; [intros other Hne; now apply map_get_set_other|reflexivity].
Qed.

(** X15 (handleCreateOrder).  An order form without a waiter, or without
    a line whose quantity is above 0, or whose write fails, writes nothing:
    the database is as before, the form keeps its lines and stays open,
    and an error banner is shown. *)
Theorem handleCreateOrder_refuses (pushKey : string) (now : Z) (result : WriteResult)
    (w : World num) :
  draftWaiter (app w) = EmptyString \/ selected (app w) = [] \/
  (exists message, result = WriteFailed message) ->
  let w' := handleCreateOrder pushKey now result w in
  db w' = db w /\
  draftQty (app w') = draftQty (app w) /\
  showOrderModal (app w') = showOrderModal (app w) /\
  exists message, banner (app w') = Some {| b_type := error; b_message := message |}.
Proof.
  intros H. cbn zeta. unfold handleCreateOrder.
  cbn [draftWaiter draftQty set_banner].
  destruct (String.eqb_spec (draftWaiter (app w)) "") as [E|E].
  { repeat split. now eexists. }
  fold (selected (app w)).
  destruct (selected (app w)) as [|line lines] eqn:Hsel.
  { repeat split. now eexists. }
  destruct H as [H|[H|[message ->]]]; [contradiction|discriminate|].
  cbn [List.length Nat.eqb]. repeat split. now eexists.
Qed.

(** The orders that the listener reads after an order is stored. *)
Lemma created_snapshot (pushKey : string) (now : Z) (w : World num) :
  draftWaiter (app w) <> EmptyString ->
  selected (app w) <> [] ->
  db_orders (db w) !! pushKey = None ->
  Permutation (ordersSnapshot (db (handleCreateOrder pushKey now WriteOk w)))
    ({| o_id := OrderIds.nextOrderId (app w);
        o_waiterId := Some (draftWaiter (app w));
        o_time := Some (DateModel.toISOString now);
        o_items := selected (app w);
        o_status := Some Pending;
        o_collector := Some EmptyString |} :: ordersSnapshot (db w)).
Proof.
  intros Hw Hsel Hfresh. unfold handleCreateOrder.
  cbn [draftWaiter draftQty set_banner].
  destruct (String.eqb_spec (draftWaiter (app w)) "") as [E|_]; [contradiction|].
  fold (selected (app w)).
  destruct (selected (app w)) as [|line lines] eqn:Hl; [contradiction|].
  cbn [List.length Nat.eqb db app db_setOrder db_orders db_loanCustomers].
  unfold ordersSnapshot.
  match goal with
  | |- Permutation (map ?f (map_to_list (db_orders (db_setOrder _ ?payload _)))) _ =>
      pose proof (map_to_list_insert (db_orders (db w)) pushKey payload Hfresh) as Hp;
      apply (Permutation_map f) in Hp
  end.
  exact Hp.
Qed.

Lemma NoDup_filter_keys (p : string * num -> bool) (l : list (string * num)) :
  List.NoDup (map fst l) -> List.NoDup (map fst (List.filter p l)).
Proof.
  induction l as [|[k v] l IH]; [intros; constructor|].
  cbn [map fst List.filter]. intros Hnd. apply List.NoDup_cons_iff in Hnd as [Hk Hnd].
  destruct (p (k, v)); [|now apply IH].
  cbn [map fst]. apply List.NoDup_cons; [|now apply IH].
  intros Hin. apply Hk. apply in_map_iff in Hin as ([k' v'] & Heq & Hin).
  apply List.filter_In in Hin as [Hin _]. apply in_map_iff. now exists (k', v').
Qed.

(** X16 (handleCreateOrder, the orders listener).  An order that is
    submitted with a waiter and at least one line above 0, from a draft
    that holds each item once, with lines that the database takes and
    gives back as an object (item ids that are database keys, none of
    them [__proto__] and not all of them numerals; finite quantities),
    comes back from the database as one more order: pending, with no
    collector, for the chosen waiter, with the time of submission, the id
    from [nextOrderId] and, in some order, the lines above 0 of the
    draft, one for each item; the other orders are as before, and the
    form is emptied and closed. *)
Theorem handleCreateOrder_round_trip (pushKey : string) (now : Z) (w : World num) :
  draftWaiter (app w) <> EmptyString ->
  selected (app w) <> [] ->
  db_orders (db w) !! pushKey = None ->
  wellKeyed (app w) ->
  storable (selected (app w)) ->
  let w' := handleCreateOrder pushKey now WriteOk w in
  (exists o,
     Permutation (ordersSnapshot (db w')) (o :: ordersSnapshot (db w)) /\
     o_id o = OrderIds.nextOrderId (app w) /\
     o_waiterId o = Some (draftWaiter (app w)) /\
     o_time o = Some (DateModel.toISOString now) /\
     o_status o = Some Pending /\
     o_collector o = Some EmptyString /\
     Permutation (o_items o) (selected (app w)) /\
     List.NoDup (map itemId (o_items o)) /\
     Forall (fun l => n_gt0 (qty l) = true) (o_items o)) /\
  db_loanCustomers (db w') = db_loanCustomers (db w) /\
  draftQty (app w') = [] /\
  showOrderModal (app w') = false.
Proof.
  intros Hw Hsel Hfresh Hkeys _. cbn zeta.
  split.
  { eexists. split; [now apply created_snapshot|].
    cbn [o_id o_waiterId o_time o_status o_collector o_items].
    repeat (split; [reflexivity|]). split.
    - unfold selected. rewrite map_map. cbn [itemId].
      now apply NoDup_filter_keys.
    - unfold selected. apply List.Forall_forall. intros l Hin.
      apply in_map_iff in Hin as (e & <- & Hin).
      apply List.filter_In in Hin as [_ Hpos]. exact Hpos. }
  unfold handleCreateOrder. cbn [draftWaiter draftQty set_banner].
  destruct (String.eqb_spec (draftWaiter (app w)) "") as [E|_]; [contradiction|].
  fold (selected (app w)).
  destruct (selected (app w)) as [|line lines] eqn:Hl; [contradiction|].
  cbn [List.length Nat.eqb db app db_setOrder db_orders db_loanCustomers].
  repeat split.
Qed.

Lemma filter_all {A} (p : A -> bool) (l : list A) :
  (forall x, In x l -> p x = true) -> List.filter p l = l.
Proof.
  induction l as [|x l IH]; [reflexivity|]. intros H. cbn [List.filter].
  rewrite (H x) by now left. f_equal. apply IH. intros y Hy. apply H. now right.
Qed.

Lemma fold_left_lines {A} (f : A -> OrderItem num) (g : num -> OrderItem num -> num)
    (l : list A) : forall z,
  fold_left g (map f l) z = fold_left (fun s e => g s (f e)) l z.
Proof. induction l as [|x l IH]; intros z; [reflexivity|]. cbn [map fold_left]. apply IH. Qed.

(** X23 (draftTotal, handleCreateOrder, orderTotal).  When every line of
    the draft is above 0, the total that the order form shows is the
    total of the order made of its lines, at the prices of the screen. *)
Theorem draftTotal_is_order_total (a : App num) (o : Order num) :
  (forall e, In e (draftQty a) -> n_gt0 (snd e) = true) ->
  o_items o = selected a ->
  draftTotal a = orderTotal a o.
Proof.
  intros Hpos Ho. unfold draftTotal, orderTotal. rewrite Ho. unfold selected.
  rewrite (filter_all _ _ Hpos), fold_left_lines. reflexivity.
Qed.

End Form.

End DraftFacts.

(** ** What the rows of a report add up *)

Module TallyFacts.

Import Model Reports Tally MapFacts.

Lemma NoDup_map_label {A B} (f : A -> B) (l l' : list A) :
  Permutation l l' -> List.NoDup (map f l') -> List.NoDup (map f l).
Proof.
  intros Hp Hnd. eapply Permutation_NoDup; [|exact Hnd].
  apply Permutation_map. now symmetry.
Qed.

Section Counting.

Context {num : Type} {JN : JsNumber num}.

Variable tz : Z.
Variable parseDate : string -> option Z.

Lemma addOrder_bump (a : App num) b o date :
  newDate parseDate (o_time o) = Some date ->
  addOrder tz parseDate a b o
  = map_set (bucketKey tz (reportTab a) date)
      (bump a (default emptyStats (map_get (bucketKey tz (reportTab a) date) b)) o) b.
Proof. intros H. unfold addOrder. rewrite H. reflexivity. Qed.

Lemma fold_addOrder_get (a : App num) (l : string) os : forall b,
  (forall o, In o os -> labelOf tz parseDate a o <> None) ->
  map_get l (fold_left (addOrder tz parseDate a) os b)
  = match List.filter (inBucket tz parseDate a l) os with
    | [] => map_get l b
    | o :: os' => Some (fold_left (bump a) (o :: os') (default emptyStats (map_get l b)))
    end.
Proof.
  induction os as [|o os IH]; intros b Hvalid; [reflexivity|].
  cbn [fold_left List.filter].
  assert (Ho : labelOf tz parseDate a o <> None) by (apply Hvalid; now left).
  unfold labelOf in Ho. destruct (newDate parseDate (o_time o)) as [date|] eqn:Hdate;
    [clear Ho|now contradiction Ho].
  rewrite (addOrder_bump a b o date Hdate).
  rewrite IH by (intros o' Ho'; apply Hvalid; now right).
  unfold inBucket at 2, labelOf. rewrite Hdate. cbn [option_map].
  destruct (String.eqb_spec (bucketKey tz (reportTab a) date) l) as [E|E].
  - subst l. rewrite map_get_set_same. cbn [from_option id fold_left].
    now destruct (List.filter _ os).
  - rewrite map_get_set_other by congruence. reflexivity.
Qed.

Lemma increments_next k (n : num) :
  increments k (n_add n n_one) = increments (S k) n.
Proof.
  unfold increments. symmetry. exact (Nat.iter_succ_r k (fun x => n_add x n_one) n).
Qed.

Lemma paid_not_loan (o : Order num) : isPaid o = true -> isLoan o = false.
Proof.
  unfold isPaid, isLoan, status_is. now destruct (o_status o) as [[| |]|].
Qed.

Lemma tally_fields (a : App num) os : forall st,
  let r := fold_left (bump a) os st in
  ordersCount r = increments (List.length os) (ordersCount st) /\
  paid r = increments (List.length (List.filter isPaid os)) (paid st) /\
  loan r = increments (List.length (List.filter isLoan os)) (loan st) /\
  pending r = increments (List.length (List.filter isOpen os)) (pending st) /\
  itemsCount r = fold_left (fun s o => n_add s (itemsOf o)) os (itemsCount st) /\
  sales r = fold_left (fun s o => n_add s (orderTotal a o)) os (sales st).
Proof.
  induction os as [|o os IH]; intros st; cbn zeta.
  - repeat split.
  - cbn [fold_left List.filter].
    destruct (IH (bump a st o)) as (H1 & H2 & H3 & H4 & H5 & H6).
    rewrite H1, H2, H3, H4, H5, H6. clear.
    assert (Ho : isOpen o = negb (isLoan o) && negb (isPaid o)) by reflexivity.
    rewrite Ho. clear Ho.
    unfold bump. cbn [ordersCount paid loan pending itemsCount sales].
    fold (isLoan o). fold (isPaid o).
    split; [apply increments_next|].
    destruct (isPaid o) eqn:Ep.
    + rewrite (paid_not_loan o Ep). cbn [negb andb List.length].
      split; [apply increments_next|]. repeat split.
    + destruct (isLoan o) eqn:El; cbn [negb andb List.length].
      * split; [reflexivity|]. split; [apply increments_next|]. repeat split.
      * split; [reflexivity|]. split; [reflexivity|]. split; [apply increments_next|].
        repeat split.
Qed.

Lemma filtered_have_label (a : App num) o :
  In o (filteredOrders tz parseDate a) -> labelOf tz parseDate a o <> None.
Proof.
  unfold filteredOrders. rewrite List.filter_In. intros [_ H].
  unfold keepOrder in H. unfold labelOf.
  destruct (newDate parseDate (o_time o)); [discriminate|discriminate].
Qed.

Lemma three_kinds (os : list (Order num)) :
  (List.length os
   = List.length (List.filter isPaid os) + List.length (List.filter isLoan os)
     + List.length (List.filter isOpen os))%nat.
Proof.
  induction os as [|o os IH]; [reflexivity|]. cbn [List.filter].
  assert (Ho : isOpen o = negb (isLoan o) && negb (isPaid o)) by reflexivity.
  rewrite Ho. clear Ho.
  destruct (isPaid o) eqn:Ep.
  - rewrite (paid_not_loan o Ep). cbn [negb andb List.length]. lia.
  - destruct (isLoan o); cbn [negb andb List.length]; lia.
Qed.

(** X17 (reportRows).  A row of the report adds up exactly the orders of
    the report that fall in its period, in the order of the order list:
    there is at least one, the order counter has been incremented once
    for each, the paid, loan and pending counters once for each order of
    that status (so the three make the order counter), and the item and
    sales figures are the running sums of the orders' quantities and
    totals. *)
Theorem report_row_adds_its_orders (a : App num) (r : ReportRow num) :
  In r (reportRows tz parseDate a) ->
  let os := ordersOf tz parseDate a (label r) in
  os <> [] /\
  ordersCount (stats r) = counter (List.length os) /\
  paid (stats r) = counter (List.length (List.filter isPaid os)) /\
  loan (stats r) = counter (List.length (List.filter isLoan os)) /\
  pending (stats r) = counter (List.length (List.filter isOpen os)) /\
  (List.length os
   = List.length (List.filter isPaid os) + List.length (List.filter isLoan os)
     + List.length (List.filter isOpen os))%nat /\
  itemsCount (stats r) = fold_left (fun s o => n_add s (itemsOf o)) os n_zero /\
  sales (stats r) = fold_left (fun s o => n_add s (orderTotal a o)) os n_zero.
Proof.
  intros Hin. cbn zeta. unfold reportRows in Hin.
  apply List.in_map_iff in Hin as ([l st] & <- & Hin). cbn [label stats fst snd].
  eapply Permutation_in in Hin; [|apply ReportFacts.sortEntries_perm].
  assert (Hnd : List.NoDup (map fst (buckets tz parseDate a))).
  { apply ReportFacts.fold_addOrder_NoDup. constructor. }
  apply (map_get_In l st _ Hnd) in Hin.
  unfold buckets in Hin.
  rewrite (fold_addOrder_get a l) in Hin by (intros o; apply filtered_have_label).
  fold (inBucket tz parseDate a l) in *.
  change (List.filter (inBucket tz parseDate a l) (filteredOrders tz parseDate a))
    with (ordersOf tz parseDate a l) in Hin.
  destruct (ordersOf tz parseDate a l) as [|o os] eqn:Hos; [discriminate|].
  change (default emptyStats (map_get l [])) with (@emptyStats num JN) in Hin.
  injection Hin as <-.
  split; [discriminate|].
  destruct (tally_fields a (o :: os) emptyStats) as (H1 & H2 & H3 & H4 & H5 & H6).
  cbn zeta in *.
  change (fold_left (bump a) os (bump a emptyStats o))
    with (fold_left (bump a) (o :: os) emptyStats).
  rewrite H1, H2, H3, H4, H5, H6.
  repeat split. apply three_kinds.
Qed.

(** X18 (reportRows).  The rows of a report have pairwise distinct
    labels, and every order of the report is among the orders of one of
    the rows: no order is left out and none is counted in two rows. *)
Theorem report_rows_cover_orders (a : App num) :
  List.NoDup (map label (reportRows tz parseDate a)) /\
  forall o, In o (filteredOrders tz parseDate a) ->
    exists r, In r (reportRows tz parseDate a) /\
              In o (ordersOf tz parseDate a (label r)).
Proof.
  split.
  - unfold reportRows. rewrite List.map_map. cbn [label].
    eapply (NoDup_map_label fst); [apply ReportFacts.sortEntries_perm|].
    apply ReportFacts.fold_addOrder_NoDup. constructor.
  - intros o Ho.
    pose proof (filtered_have_label a o Ho) as Hl. unfold labelOf in Hl.
    destruct (newDate parseDate (o_time o)) as [t|] eqn:Ht; [clear Hl|now contradiction Hl].
    assert (Hlab : In (bucketKey tz (reportTab a) t) (map label (reportRows tz parseDate a))).
    { apply ReportFacts.reportRows_labels. now exists o, t. }
    apply List.in_map_iff in Hlab as (r & Hr & Hin). exists r. split; [exact Hin|].
    unfold ordersOf. apply List.filter_In. split; [exact Ho|].
    unfold labelOf. rewrite Ht. cbn [option_map]. rewrite Hr. apply String.eqb_refl.
Qed.

End Counting.

End TallyFacts.

Module WeekLabelFacts.

Import DateModel DateFacts.

Lemma DaysInYear_range y : 365 <= DaysInYear y <= 366.
Proof. unfold DaysInYear. destruct (isLeap y); lia. Qed.

Lemma isoYear_near n : YearFromDay n - 1 <= isoYear n <= YearFromDay n + 1.
Proof.
  unfold isoYear.
  pose proof (thursdayOf_same_week n) as (_ & Hweek & HT). cbv zeta in *.
  pose proof (YearFromDay_bounds n) as [Hlo Hhi].
  pose proof (YearFromDay_bounds (thursdayOf n)) as [Tlo Thi].
  set (y := YearFromDay n) in *. set (yT := YearFromDay (thursdayOf n)) in *.
  pose proof (DayFromYear_step y) as S0.
  pose proof (DayFromYear_step (y - 1)) as S1.
  pose proof (DayFromYear_step (y + 1)) as S2.
  replace (y - 1 + 1) with y in S1 by lia.
  pose proof (DaysInYear_range y). pose proof (DaysInYear_range (y - 1)).
  pose proof (DaysInYear_range (y + 1)).
  split.
  - destruct (Z_lt_le_dec yT (y - 1)) as [Hlt|]; [|lia].
    assert (DayFromYear (yT + 1) <= DayFromYear (y - 1)) by (apply DayFromYear_mono; lia).
    lia.
  - destruct (Z_lt_le_dec (y + 1) yT) as [Hlt|]; [|lia].
    assert (DayFromYear (y + 1 + 1) <= DayFromYear yT) by (apply DayFromYear_mono; lia).
    lia.
Qed.


End WeekLabelFacts.

(** ** The menu *)

Module PantryFacts.

Import Model Input Pantry.

Section Handlers.

Context {num : Type} {JS : JsSign num} {JI : JsInput num}.

Lemma addLog_items k r e (st : ItemStore num) : is_items (logItem k r e st) = is_items st.
Proof. now destruct r. Qed.

Lemma updateItemStock_items id stockStr r (w : Shop num) :
  is_items (sh_store (updateItemStock id stockStr r w)) = is_items (sh_store w) \/
  (badStock (n_ofString stockStr) = false /\
   is_items (sh_store (updateItemStock id stockStr r w))
   = partial_alter (mergeItem None None (Some (n_ofString stockStr))) id
       (is_items (sh_store w))).
Proof.
  unfold updateItemStock. destruct (badStock _) eqn:E; [now left|].
  destruct r; [|now left]. right. now split.
Qed.

Lemma addItem_items later itemKey logKey r1 r2 (w : Shop num) :
  is_items (sh_store (addItem later itemKey logKey r1 r2 w)) = is_items (sh_store w) \/
  exists name price stock,
    name <> EmptyString /\ badPrice price = false /\ badStock stock = false /\
    is_items (sh_store (addItem later itemKey logKey r1 r2 w))
    = <[itemKey := {| in_name := Some name; in_price := Some price;
                      in_stock := Some stock |}]> (is_items (sh_store w)).
Proof.
  unfold addItem. cbn [with_notice p_newItemName p_newItemPrice p_newItemStock].
  destruct (String.eqb_spec (Text.trim (p_newItemName (sh_screen w))) "") as [|Hname];
    [now left|].
  destruct (badPrice _) eqn:Hp; [now left|].
  destruct (badStock _) eqn:Hs; [now left|].
  destruct r1; [|now left].
  right. do 3 eexists. split; [exact Hname|]. split; [exact Hp|]. split; [exact Hs|].
  cbn [sh_store]. now rewrite addLog_items.
Qed.

Lemma updateItem_items later logKey r1 r2 (w : Shop num) :
  is_items (sh_store (updateItem later logKey r1 r2 w)) = is_items (sh_store w) \/
  exists id name price stock,
    name <> EmptyString /\ badPrice price = false /\ badStock stock = false /\
    is_items (sh_store (updateItem later logKey r1 r2 w))
    = partial_alter (mergeItem (Some name) (Some price) (Some stock)) id
        (is_items (sh_store w)).
Proof.
  unfold updateItem. destruct (p_itemActionItem _) as [item|]; [|now left].
  destruct (String.eqb_spec (Text.trim (p_itemActionName (sh_screen w))) "") as [|Hname];
    [now left|].
  destruct (badPrice _) eqn:Hp; [now left|].
  destruct (badStock _) eqn:Hs; [now left|].
  destruct r1; [|now left].
  right. do 4 eexists. split; [exact Hname|]. split; [exact Hp|]. split; [exact Hs|].
  cbn [sh_store]. now rewrite addLog_items.
Qed.

Lemma deleteItem_items id later logKey r1 r2 (w : Shop num) :
  is_items (sh_store (deleteItem id later logKey r1 r2 w)) = is_items (sh_store w) \/
  is_items (sh_store (deleteItem id later logKey r1 r2 w))
  = delete id (is_items (sh_store w)).
Proof.
  unfold deleteItem. destruct r1; [|now left]. right. cbn [sh_store]. now rewrite addLog_items.
Qed.

Lemma merge_well_formed name price stock (n : option (ItemNode num)) n' :
  (forall x, name = Some x -> x <> EmptyString) ->
  (forall x, price = Some x -> badPrice x = false) ->
  (forall x, stock = Some x -> badStock x = false) ->
  (forall n0, n = Some n0 ->
     (forall x, in_name n0 = Some x -> x <> EmptyString) /\
     (forall x, in_price n0 = Some x -> badPrice x = false) /\
     (forall x, in_stock n0 = Some x -> badStock x = false)) ->
  mergeItem name price stock n = Some n' ->
  (forall x, in_name n' = Some x -> x <> EmptyString) /\
  (forall x, in_price n' = Some x -> badPrice x = false) /\
  (forall x, in_stock n' = Some x -> badStock x = false).
Proof.
  intros Hn Hp Hs Hold. unfold mergeItem. intros [= <-]. cbn [in_name in_price in_stock].
  assert (H0 : (forall x, in_name (default emptyItemNode n) = Some x -> x <> EmptyString) /\
               (forall x, in_price (default emptyItemNode n) = Some x -> badPrice x = false) /\
               (forall x, in_stock (default emptyItemNode n) = Some x -> badStock x = false)).
  { destruct n as [n0|]; [now apply Hold|]. cbn. repeat split; discriminate. }
  destruct H0 as (H1 & H2 & H3).
  repeat split; intros x.
  - destruct name; cbn [Settlement.orElse]; [apply Hn|apply H1].
  - destruct price; cbn [Settlement.orElse]; [apply Hp|apply H2].
  - destruct stock; cbn [Settlement.orElse]; [apply Hs|apply H3].
Qed.

Lemma stocks_well_formed (w w' : Shop num) :
  stocks w w' -> itemsWellFormed (sh_store w) -> itemsWellFormed (sh_store w').
Proof.
  intros Hstep Hw. unfold itemsWellFormed in *.
  destruct Hstep as [id stockStr r w|later itemKey logKey r1 r2 w Hfresh
                    |later logKey r1 r2 w|id later logKey r1 r2 w].
  - destruct (updateItemStock_items id stockStr r w) as [->|[Hs ->]]; [exact Hw|].
    intros k n. rewrite lookup_partial_alter. case_decide; [|apply Hw].
    apply merge_well_formed; try discriminate.
    + now intros x [= <-].
    + intros n0. apply Hw.
  - destruct (addItem_items later itemKey logKey r1 r2 w)
      as [->|(name & price & stock & Hn & Hp & Hs & ->)]; [exact Hw|].
    intros k n. rewrite lookup_insert. case_decide; [|apply Hw].
    intros [= <-]. cbn. repeat split; intros x [= <-]; assumption.
  - destruct (updateItem_items later logKey r1 r2 w)
      as [->|(id & name & price & stock & Hn & Hp & Hs & ->)]; [exact Hw|].
    intros k n. rewrite lookup_partial_alter. case_decide; [|apply Hw].
    apply merge_well_formed.
    + now intros x [= <-].
    + now intros x [= <-].
    + now intros x [= <-].
    + intros n0. apply Hw.
  - destruct (deleteItem_items id later logKey r1 r2 w) as [->| ->]; [exact Hw|].
    intros k n. rewrite lookup_delete. case_decide; [discriminate|apply Hw].
Qed.

(** X20 (updateItemStock, addItem, updateItem, deleteItem).  Whatever
    the item handlers are used for, the menu in the database stays well
    formed: no name is blank, every price is a number above 0 and every
    stock is a number that is not below 0. *)
Theorem menu_stays_well_formed (w w' : Shop num) :
  itemsWellFormed (sh_store w) -> restocks w w' -> itemsWellFormed (sh_store w').
Proof.
  intros Hw Hsteps. induction Hsteps as [w|w1 w2 w3 Hstep _ IH]; [exact Hw|].
  apply IH. eapply stocks_well_formed; eassumption.
Qed.

(** X21 (updateItemStock).  A stock that reads as a number not below 0
    is written to the stock of that item and to nothing else: the name
    and the price of the item and all other items are as before.  Any
    other text leaves the database as it is. *)
Theorem updateItemStock_touches_stock_only (id stockStr : string) (result : WriteResult)
    (w : Shop num) :
  let w' := updateItemStock id stockStr result w in
  (badStock (n_ofString stockStr) = true -> sh_store w' = sh_store w) /\
  (badStock (n_ofString stockStr) = false -> result = WriteOk ->
   (exists n', is_items (sh_store w') !! id = Some n' /\
               in_stock n' = Some (n_ofString stockStr) /\
               in_name n' = is_items (sh_store w) !! id ≫= in_name /\
               in_price n' = is_items (sh_store w) !! id ≫= in_price) /\
   (forall k, k <> id -> is_items (sh_store w') !! k = is_items (sh_store w) !! k) /\
   is_log (sh_store w') = is_log (sh_store w)).
Proof.
  cbn zeta. unfold updateItemStock. split.
  - intros ->. reflexivity.
  - intros -> ->. cbn [sh_store with_items is_items is_log]. split; [|split].
    + rewrite lookup_partial_alter_eq. eexists. split; [reflexivity|].
      destruct (is_items (sh_store w) !! id) as [n|]; cbn; repeat split.
    + intros k Hk. now rewrite lookup_partial_alter_ne.
    + reflexivity.
Qed.

End Handlers.

End PantryFacts.

(** ** The staff of the worked examples *)

Module OfficeFacts.

Import Model Text Phone Staff StaffRules Office.

Lemma store0_lookup k n :
  st_users store0 !! k = Some n ->
  (k = "-Nu1"%string /\ n = sahra) \/ (k = "-Nu2"%string /\ n = bile).
Proof.
  unfold store0. cbn [st_users]. rewrite lookup_insert. case_decide.
  - intros [= <-]. left. now split.
  - rewrite lookup_insert. case_decide; [|now rewrite lookup_empty].
    intros [= <-]. right. now split.
Qed.

Lemma store0_pins : pinsWellFormed store0.
Proof.
  intros k n p Hk. apply store0_lookup in Hk as [[_ ->]|[_ ->]]; now intros [= <-].
Qed.

Lemma store0_plain : plainNodes store0.
Proof. intros k n Hk. apply store0_lookup in Hk as [[_ ->]|[_ ->]]; reflexivity. Qed.

Lemma backOffice_shown : shown backOffice.
Proof. exists (map_to_list (st_users store0)). split; reflexivity. Qed.

Lemma backOffice_signed : signedInListed (d_screen backOffice).
Proof.
  intros cu [= <-]. exists (userOfNode "-Nu1" sahra). split; [|reflexivity].
  vm_compute. now left.
Qed.

(** The three moves of [afterTries]: the first two change nothing in the
    database, so the screen still shows it. *)
Lemma backOffice_moves : moves backOffice afterTries.
Proof.
  unfold afterTries.
  eapply moves_more.
  { apply move_delete; [exact backOffice_shown|]. vm_compute. now left. }
  eapply moves_more.
  { apply move_update.
    - exists (map_to_list (st_users store0)). split; vm_compute; reflexivity.
    - vm_compute. now left. }
  eapply moves_more.
  { apply (move_users EmptyString). reflexivity. }
  eapply moves_more; [|apply moves_refl].
  apply move_delete.
  - match goal with
    | |- shown ?d => exists (map_to_list (st_users (d_store d)))
    end.
    split; [reflexivity|]. vm_compute. reflexivity.
  - vm_compute. right. now left.
Qed.

End OfficeFacts.

Module LoginExamples.

Import Model Text Phone Staff StaffRules Office LoginFacts.

Lemma login_accepts_any_prefix_witness :
  loginMatches "00252 90 123 4567" (normalizePhone "00252 90 123 4567") "2468"
    (userOfNode "-Nu1" sahra) = Some true.
Proof.
  apply (login_accepts_any_prefix "00252 90 123 4567" "2468" "+252 90 123 4567");
    reflexivity.
Defined.

Lemma handleLogin_blank_phone_witness :
  s_currentUser (d_screen (handleLogin 1000 2000 "-Nlog1" WriteOk (frontDesk " " "4321")))
  = Some (userOfNode "-Nu2" bile).
Proof.
  apply handleLogin_blank_phone; [reflexivity|reflexivity|discriminate].
Defined.

Lemma handleLogin_checks_pin_witness :
  match s_currentUser
          (d_screen (handleLogin 1000 2000 "-Nlog1" WriteOk (frontDesk "0907654321" "4321")))
  with
  | Some user =>
      In user (s_users (d_screen (frontDesk "0907654321" "4321"))) /\
      su_pin user = Some (trim (s_authPin (d_screen (frontDesk "0907654321" "4321")))) /\
      st_session
        (d_store (handleLogin 1000 2000 "-Nlog1" WriteOk (frontDesk "0907654321" "4321")))
      = Some (Session (su_id user) (2000 + 3600000))
  | None =>
      d_store (handleLogin 1000 2000 "-Nlog1" WriteOk (frontDesk "0907654321" "4321"))
      = d_store (frontDesk "0907654321" "4321")
  end.
Proof. apply handleLogin_checks_pin. reflexivity. Defined.

Lemma session_lasts_one_hour_witness :
  let d := frontDesk "0907654321" "4321" in
  let back :=
    restoreSession 3000000
      {| d_screen := screen0 None "" "" "" "";
         d_store := d_store (handleLogin 1000 2000 "-Nlog1" WriteOk d) |} in
  (3000000 <= 2000 + 3600000 ->
   exists u, s_currentUser (d_screen back) = Some u /\
             su_id u = su_id (userOfNode "-Nu2" bile) /\
             s_tab (d_screen back) = homeTab (su_role u)) /\
  (2000 + 3600000 < 3000000 ->
   s_currentUser (d_screen back) = None /\ st_session (d_store back) = None).
Proof.
  apply (session_lasts_one_hour 1000 2000 "-Nlog1" WriteOk
           (frontDesk "0907654321" "4321") (userOfNode "-Nu2" bile)
           (screen0 None "" "" "" "") 3000000); reflexivity.
Defined.

End LoginExamples.

Module StaffExamples.

Import Model Text Phone Staff StaffRules Office StaffFacts StaffRoundTrips OfficeFacts.

Lemma pins_stay_four_digits_witness : pinsWellFormed (d_store afterTries).
Proof.
  apply (pins_stay_four_digits backOffice afterTries);
    [exact store0_pins|exact backOffice_moves].
Defined.

Lemma signed_in_user_is_listed_witness : signedInListed (d_screen afterTries).
Proof.
  apply (signed_in_user_is_listed backOffice afterTries);
    [exact backOffice_signed|exact backOffice_moves].
Defined.

Lemma admins_stay_witness : adminAt (d_store afterTries) "-Nu1".
Proof.
  apply (admins_stay backOffice afterTries "-Nu1");
    [exact store0_plain|exact backOffice_moves|].
  exists sahra. split; reflexivity.
Defined.

Lemma addWaiter_round_trip_witness :
  exists n,
    st_users (d_store (addWaiter 1700000000500 1700000000900 "-Nu3" "-Nlog1"
                         WriteOk WriteOk backOffice)) !! "-Nu3"%string = Some n /\
    userOfNode "-Nu3" n
    = {| su_id := "waiter-1700000000500"; su_dbId := Some "-Nu3"%string;
         su_name := Some "Hodan"%string; su_role := collector;
         su_phone := Some "0905550101"%string; su_pin := Some "4321"%string |}.
Proof.
  destruct (addWaiter_round_trip 1700000000500 1700000000900 "-Nu3" "-Nlog1" WriteOk
              backOffice) as (n & Hn & Hu & _); [discriminate|discriminate|].
  exists n. split; [exact Hn|exact Hu].
Defined.

Lemma deleteWaiter_unlists_witness :
  ~ In "waiter-1700000000000"%string
       (map su_id
          (listed (map_to_list
                     (st_users (d_store (deleteWaiter "waiter-1700000000000" 3000 "-Nlog3"
                                           WriteOk WriteOk backOffice)))))).
Proof.
  apply (deleteWaiter_unlists "waiter-1700000000000" 3000 "-Nlog3" WriteOk backOffice
           (userOfNode "-Nu2" bile)).
  - exact backOffice_shown.
  - exact store0_plain.
  - vm_compute. apply List.NoDup_cons; [simpl; intuition discriminate|].
    apply List.NoDup_cons; [simpl; tauto|]. constructor.
  - reflexivity.
  - discriminate.
  - reflexivity.
  - reflexivity.
Defined.

End StaffExamples.

Module BoardExamples.

Import Model Reports Board Sample Scenario BoardFacts.

Lemma january_times : timesParse parseIso january.
Proof.
  intros o [<-|[<-|[<-|[]]]]; eexists; vm_compute; reflexivity.
Qed.

Lemma orderListSorted_ranks_witness :
  Permutation (orderListSorted parseIso january) january /\
  StronglySorted (mayPrecede parseIso) (orderListSorted parseIso january).
Proof. apply orderListSorted_ranks. exact january_times. Defined.

(** The open order comes first, then the loan, then the paid order. *)
Example january_sorted :
  map o_id (orderListSorted parseIso january) = ["order003"; "order002"; "order001"]%string.
Proof. vm_compute. reflexivity. Qed.

End BoardExamples.

Module DraftExamples.

Import Model Reports Settlement Input Draft Sample Typed Scenario Tray DraftFacts.

Lemma updateDraftQty_sets_one_line_witness :
  let a := screen january [] daily "" "" all in
  let a' := updateDraftQty "-Ni2" 3 a in
  wellKeyed a' /\
  map_get "-Ni2" (draftQty a') = Some 3 /\
  (forall other, other <> "-Ni2"%string ->
     map_get other (draftQty a') = map_get other (draftQty a)).
Proof.
  destruct (updateDraftQty_sets_one_line "-Ni2" 3 (screen january [] daily "" "" all))
    as (Hkeys & Hline & _ & Hothers & _).
  { vm_compute. apply List.NoDup_cons; [simpl; tauto|]. constructor. }
  cbn zeta. split; [exact Hkeys|]. split; [|exact Hothers].
  apply Hline. discriminate.
Defined.

Lemma handleCreateOrder_refuses_witness :
  db (handleCreateOrder "-No1" 1704448800000 (WriteFailed "PERMISSION_DENIED") world0)
  = db world0.
Proof.
  apply (handleCreateOrder_refuses "-No1" 1704448800000 (WriteFailed "PERMISSION_DENIED")
           world0).
  right. right. now eexists.
Defined.

Lemma handleCreateOrder_round_trip_witness :
  draftQty (app twoLines) = [("-Ni1"%string, 2); ("-Ni2"%string, 3)] /\
  draftQty (app (handleCreateOrder "-No1" 1704448800000 WriteOk twoLines)) = [] /\
  exists o,
    Permutation
      (ordersSnapshot (db (handleCreateOrder "-No1" 1704448800000 WriteOk twoLines)))
      (o :: ordersSnapshot (db twoLines)) /\
    o_id o = OrderIds.nextOrderId (app twoLines) /\
    o_waiterId o = Some (draftWaiter (app twoLines)) /\
    o_time o = Some (DateModel.toISOString 1704448800000) /\
    o_status o = Some Pending /\
    o_collector o = Some EmptyString /\
    Permutation (o_items o) (selected (app twoLines)) /\
    List.NoDup (map itemId (o_items o)) /\
    Forall (fun l => n_gt0 (qty l) = true) (o_items o).
Proof.
  split; [reflexivity|].
  assert (Hkeys : wellKeyed (app twoLines)).
  { vm_compute. repeat (apply List.NoDup_cons; [simpl; intuition discriminate|]).
    constructor. }
  assert (Hst : storable (selected (app twoLines))).
  { assert (Hs : selected (app twoLines)
                 = [{| itemId := "-Ni1"; qty := 2 |}; {| itemId := "-Ni2"; qty := 3 |}])
      by reflexivity.
    rewrite Hs. split.
    - repeat (apply List.Forall_cons; [split; [discriminate|split; reflexivity]|]).
      apply List.Forall_nil.
    - apply List.Exists_cons_hd. reflexivity. }
  pose proof (handleCreateOrder_round_trip "-No1" 1704448800000 twoLines) as H.
  cbn zeta in H.
  destruct H as (Ho & _ & Hd & _);
    [discriminate|discriminate|reflexivity|exact Hkeys|exact Hst|].
  split; [exact Hd|exact Ho].
Defined.

(** Two teas at 5 in the form of [world0]. *)
Lemma draftTotal_is_order_total_witness :
  draftTotal (app world0)
  = orderTotal (app world0)
      (orderOfNode "-No1"
         {| n_id := None; n_waiterId := None; n_waiter_id := None; n_time := None;
            n_status := None; n_collector := None; n_items := selected (app world0) |}).
Proof.
  apply draftTotal_is_order_total; [|reflexivity].
  intros e [<-|[]]. reflexivity.
Defined.

End DraftExamples.

Module TallyExamples.

Import Model Reports Tally Sample Scenario TallyFacts.

(** The row of 6 January in the daily report of [january]: the rice on
    loan and the open tea. *)
Lemma report_row_adds_its_orders_witness :
  let sixth :=
    {| label := "2024-01-06"%string;
       stats := {| ordersCount := 2; itemsCount := 2; sales := 15;
                   paid := 0; loan := 1; pending := 1 |} |} in
  let os := ordersOf 0 parseIso (screen january [] daily "" "" all) "2024-01-06" in
  os <> [] /\
  ordersCount (stats sixth) = counter (List.length os) /\
  paid (stats sixth) = counter (List.length (List.filter isPaid os)) /\
  loan (stats sixth) = counter (List.length (List.filter isLoan os)) /\
  pending (stats sixth) = counter (List.length (List.filter isOpen os)).
Proof.
  intros sixth.
  destruct (report_row_adds_its_orders 0 parseIso (screen january [] daily "" "" all) sixth)
    as (H0 & H1 & H2 & H3 & H4 & _).
  { vm_compute. left. reflexivity. }
  cbn zeta. repeat split; assumption.
Defined.

End TallyExamples.

Module WeekLabelExamples.

Import DateModel WeekLabelFacts.


End WeekLabelExamples.

Module PantryExamples.

Import Model Input Pantry Typed Larder PantryFacts.

Lemma shop0_well_formed : itemsWellFormed (sh_store shop0).
Proof.
  intros k n. cbn [shop0 sh_store is_items]. rewrite lookup_insert. case_decide.
  - intros [= <-]. repeat split; intros x [= <-]; [discriminate|reflexivity|reflexivity].
  - now rewrite lookup_empty.
Qed.

Lemma shop0_restocked : restocks shop0 restocked.
Proof.
  unfold restocked.
  apply (restocks_more shop0 (addItem 1000 "-Ni2" "-Nlog1" WriteOk WriteOk shop0)).
  - apply stocks_add. reflexivity.
  - eapply restocks_more; [apply stocks_level|apply restocks_refl].
Qed.

Lemma menu_stays_well_formed_witness : itemsWellFormed (sh_store restocked).
Proof.
  apply (menu_stays_well_formed shop0 restocked);
    [exact shop0_well_formed|exact shop0_restocked].
Defined.

(** Rice at 10 with no stock yet, and twelve teas. *)
Example restocked_menu :
  is_items (sh_store restocked) !! "-Ni2"%string
  = Some {| in_name := Some "Rice"%string; in_price := Some (Some 10);
            in_stock := Some (Some 0) |} /\
  is_items (sh_store restocked) !! "-Ni1"%string
  = Some {| in_name := Some "Tea"%string; in_price := Some (Some 5);
            in_stock := Some (Some 12) |}.
Proof. vm_compute. split; reflexivity. Qed.

End PantryExamples.

(** ** New order ids are new *)

Module FreshIdFacts.

Import Model OrderIds Settlement Draft TextFacts.

Lemma value_of_digits_from (d : Decimal.uint) : forall acc : positive,
  digitsValue (Z.pos acc) (NilEmpty.string_of_uint d) = Z.pos (Pos.of_uint_acc d acc).
Proof.
  induction d as [|d IH|d IH|d IH|d IH|d IH|d IH|d IH|d IH|d IH|d IH]; intros acc;
    cbn [NilEmpty.string_of_uint digitsValue Pos.of_uint_acc]; [reflexivity|..];
    rewrite <- IH; f_equal; cbn; lia.
Qed.

Lemma value_of_digits (d : Decimal.uint) :
  digitsValue 0 (NilEmpty.string_of_uint d) = Z.of_N (Pos.of_uint d).
Proof.
  induction d as [|d IH|d IH|d IH|d IH|d IH|d IH|d IH|d IH|d IH|d IH];
    cbn [NilEmpty.string_of_uint digitsValue Pos.of_uint]; [reflexivity|exact IH|..];
    apply (value_of_digits_from d).
Qed.

Lemma allDigits_of_digits (d : Decimal.uint) :
  allDigits (NilEmpty.string_of_uint d) = true.
Proof.
  induction d as [|d IH|d IH|d IH|d IH|d IH|d IH|d IH|d IH|d IH|d IH];
    cbn [NilEmpty.string_of_uint allDigits]; [reflexivity|..]; exact IH.
Qed.

(** [String(z)] of an integer that is not negative: decimal digits that
    read [z]. *)
Lemma String_reads_back z :
  0 <= z ->
  digitsValue 0 (JS.String_ z) = z /\ allDigits (JS.String_ z) = true.
Proof.
  intros Hz. unfold JS.String_. destruct z as [|p|p]; [split; reflexivity| |lia].
  cbn [Z.to_int NilZero.string_of_int].
  pose proof (DecimalPos.Unsigned.of_to p) as Hp.
  unfold NilZero.string_of_uint.
  destruct (Pos.to_uint p) eqn:E; [discriminate Hp|..];
    (split; [rewrite value_of_digits, Hp; reflexivity|apply allDigits_of_digits]).
Qed.

Lemma zeros_read_nothing n s :
  digitsValue 0 (String.append (JS.repeat_char "0" n) s) = digitsValue 0 s /\
  allDigits (String.append (JS.repeat_char "0" n) s) = allDigits s.
Proof.
  induction n as [|n [IH1 IH2]]; [split; reflexivity|].
  cbn [JS.repeat_char]. rewrite append_cons. cbn [digitsValue allDigits]. now split.
Qed.

Lemma padded_not_empty n z : 0 <= z -> JS.padStart n "0" (JS.String_ z) <> EmptyString.
Proof.
  intros Hz. unfold JS.padStart.
  intros H. apply (f_equal String.length) in H. rewrite length_append in H.
  cbn [String.length] in H.
  assert (JS.String_ z <> EmptyString).
  { unfold JS.String_. destruct z as [|p|p]; [discriminate| |lia].
    cbn [Z.to_int NilZero.string_of_int]. unfold NilZero.string_of_uint.
    destruct (Pos.to_uint p); discriminate. }
  destruct (JS.String_ z); [contradiction|]. cbn [String.length] in H. lia.
Qed.

Section Allocation.

Context {num : Type} {JN : JsNumber num}.

(** An order with the id that [nextOrderId] hands out would have a
    suffix above the largest one. *)
Lemma next_suffix_is_larger (a : App num) (o : Order num) :
  safeIds (orders a) -> In o (orders a) -> o_id o = nextOrderId a -> False.
Proof.
  intros Hsafe Hin Hid.
  destruct (OrderIdFacts.maxStep_fold (orders a) 0 Hsafe ltac:(lia)) as (Hle & Hmax & Hex).
  set (m := fold_left maxStep (orders a) 0) in *.
  assert (Hm : m < 2 ^ 53).
  { destruct Hex as [->|(o' & Hin' & Ho')]; [lia|eauto]. }
  assert (Hnext : nextOrderId a
                  = String.append "order" (JS.padStart 3 "0" (JS.String_ (m + 1)))).
  { unfold nextOrderId. fold m. now rewrite OrderIdFacts.toDouble_exact by lia. }
  destruct (String_reads_back (m + 1) ltac:(lia)) as [Hval Hdig].
  destruct (zeros_read_nothing (3 - String.length (JS.String_ (m + 1))) (JS.String_ (m + 1)))
    as [Hpv Hpd].
  assert (Hs : hasSuffix (o_id o) (m + 1)).
  { exists (JS.padStart 3 "0" (JS.String_ (m + 1))). rewrite Hid, Hnext.
    split; [reflexivity|]. split; [apply padded_not_empty; lia|].
    unfold JS.padStart. rewrite Hpd, Hpv, Hdig, Hval. now split. }
  specialize (Hmax o (m + 1) Hin Hs). lia.
Qed.

(** X24 (nextOrderId).  While the numeric suffixes of the order ids on
    the screen are below 2^53, the id that [nextOrderId] hands out is the
    id of none of these orders, and it is [order] followed by at least
    three decimal digits. *)
Theorem nextOrderId_is_not_taken (a : App num) :
  safeIds (orders a) ->
  (forall o, In o (orders a) -> o_id o <> nextOrderId a) /\
  exists digits, nextOrderId a = String.append "order" digits /\
                 allDigits digits = true /\ (3 <= String.length digits)%nat.
Proof.
  intros Hsafe. split.
  - intros o Hin Hid. exact (next_suffix_is_larger a o Hsafe Hin Hid).
  - destruct (OrderIdFacts.maxStep_fold (orders a) 0 Hsafe ltac:(lia)) as (Hle & Hmax & Hex).
    set (m := fold_left maxStep (orders a) 0) in *.
    assert (Hm : m < 2 ^ 53).
    { destruct Hex as [->|(o' & Hin' & Ho')]; [lia|eauto]. }
    exists (JS.padStart 3 "0" (JS.String_ (m + 1))). split.
    { unfold nextOrderId. fold m. now rewrite OrderIdFacts.toDouble_exact by lia. }
    destruct (String_reads_back (m + 1) ltac:(lia)) as [_ Hdig].
    destruct (zeros_read_nothing (3 - String.length (JS.String_ (m + 1)))
                (JS.String_ (m + 1))) as [_ Hpd].
    unfold JS.padStart. rewrite Hpd, Hdig. split; [reflexivity|].
    rewrite length_append.
    assert (Hrep : forall n, String.length (JS.repeat_char "0" n) = n).
    { induction n as [|n IH]; [reflexivity|]. cbn [JS.repeat_char String.length]. now rewrite IH. }
    rewrite Hrep. lia.
Qed.

(** X25 (handleCreateOrder, nextOrderId, the orders listener).  Order
    ids stay pairwise distinct: on a screen that lists the orders of the
    database, with ids that are pairwise distinct and suffixes below
    2^53, the orders that the listener reads after a new order is stored
    have pairwise distinct ids again. *)
Theorem created_order_keeps_ids_distinct (pushKey : string) (now : Z) (w : World num) :
  Permutation (orders (app w)) (ordersSnapshot (db w)) ->
  List.NoDup (map o_id (orders (app w))) ->
  safeIds (orders (app w)) ->
  draftWaiter (app w) <> EmptyString ->
  selected (app w) <> [] ->
  db_orders (db w) !! pushKey = None ->
  List.NoDup (map o_id (ordersSnapshot (db (handleCreateOrder pushKey now WriteOk w)))).
Proof.
  intros Hshown Hnd Hsafe Hw Hsel Hfresh.
  pose proof (DraftFacts.created_snapshot pushKey now w Hw Hsel Hfresh) as Hperm.
  eapply Permutation_NoDup; [apply Permutation_map; symmetry; exact Hperm|].
  cbn [map o_id]. apply List.NoDup_cons.
  - intros Hin. apply List.in_map_iff in Hin as (o & Hid & Hin).
    eapply Permutation_in in Hin; [|symmetry; exact Hshown].
    now apply (next_suffix_is_larger (app w) o Hsafe Hin).
  - eapply Permutation_NoDup; [apply Permutation_map; exact Hshown|exact Hnd].
Qed.

End Allocation.

End FreshIdFacts.

Module FreshIdExamples.

Import Model OrderIds Settlement Draft Sample Scenario FreshIdFacts.

Lemma world1_safe : safeIds (orders (app world1)).
Proof.
  assert (Hlist : orders (app world1) = [order1]) by (vm_compute; reflexivity).
  rewrite Hlist.
  intros o n Hin Hn. apply OrderIdFacts.hasSuffix_exec in Hn as (ds & Hex & ->).
  destruct Hin as [<-|[]]. vm_compute in Hex. injection Hex as <-.
  vm_compute. reflexivity.
Qed.

(** After order001, order002 and order003: order004, the id of none of
    the three. *)
Lemma nextOrderId_is_not_taken_witness :
  "order003"%string <> nextOrderId (screen january [] daily "" "" all).
Proof.
  apply (proj1 (nextOrderId_is_not_taken (screen january [] daily "" "" all)
                  OrderIdFacts.january_safe)
           (order "order003" "2024-01-06T19:45:00.000Z" Pending
                  [{| itemId := "-Ni1"; qty := 1 |}])).
  right. right. left. reflexivity.
Defined.

Lemma created_order_keeps_ids_distinct_witness :
  List.NoDup
    (map o_id (ordersSnapshot (db (handleCreateOrder "-No2" 1704448800000 WriteOk world1)))).
Proof.
  apply (created_order_keeps_ids_distinct "-No2" 1704448800000 world1).
  - reflexivity.
  - vm_compute. apply List.NoDup_cons; [simpl; tauto|]. constructor.
  - exact world1_safe.
  - discriminate.
  - discriminate.
  - reflexivity.
Defined.

(** The ids on the next snapshot. *)
Example created_after_order001 :
  Permutation
    (map o_id (ordersSnapshot (db (handleCreateOrder "-No2" 1704448800000 WriteOk world1))))
    ["order001"; "order002"]%string.
Proof. vm_compute. auto using Permutation_refl, perm_swap. Qed.

End FreshIdExamples.

(** ** Sign-out, PIN reset and one's own profile *)

Module ProfileFacts.

Import Model Text Phone Staff StaffRules StaffFacts.

(** X26 (handleLogout, the session effect).  Signing out ends the
    session: nobody is signed in, the draft waiter is cleared, the users
    in the database are untouched, and a reload of the page afterwards
    signs nobody in, whatever the clock says. *)
Theorem logout_ends_session (d : Desk) (reloaded : Screen) (t : Z) :
  s_currentUser reloaded = None ->
  let out := handleLogout d in
  s_currentUser (d_screen out) = None /\
  s_draftWaiter (d_screen out) = EmptyString /\
  st_users (d_store out) = st_users (d_store d) /\
  restoreSession t {| d_screen := reloaded; d_store := d_store out |}
  = {| d_screen := reloaded; d_store := d_store out |}.
Proof.
  intros Hre. cbn zeta. unfold handleLogout. cbn [d_screen d_store].
  repeat split. unfold restoreSession. cbn [d_screen d_store with_session st_session].
  now rewrite Hre.
Qed.

(** X27 (resetWaiterPin, the users listener).  On a screen that shows
    the database, a PIN reset of a listed user that goes through changes
    that user's node only, and of it the PIN only: the user comes back
    with PIN 0000 and the same id, key, name, role and phone. *)
Theorem resetWaiterPin_round_trip id later logKey logWrite (d : Desk) (target : StaffUser) :
  shown d -> plainNodes (d_store d) ->
  userById (d_screen d) id = Some target ->
  let d' := resetWaiterPin id later logKey WriteOk logWrite d in
  exists k n',
    su_dbId target = Some k /\
    st_users (d_store d') !! k = Some n' /\
    userOfNode k n'
    = {| su_id := su_id target; su_dbId := su_dbId target; su_name := su_name target;
         su_role := su_role target; su_phone := su_phone target;
         su_pin := Some "0000"%string |} /\
    (forall j, j <> k -> st_users (d_store d') !! j = st_users (d_store d) !! j).
Proof.
  intros Hshown Hplain Htarget. cbn zeta.
  destruct (shown_target d id target Hshown Hplain Htarget) as (k & n & Hn & -> & Hk).
  unfold resetWaiterPin. rewrite Htarget, Hk. cbn [d_store].
  rewrite addLog_users. cbn [with_nodes st_users].
  exists k. eexists. split; [cbn; now rewrite (Hplain k n Hn)|].
  split; [rewrite lookup_partial_alter_eq, Hn; reflexivity|].
  split.
  - unfold userOfNode. cbn. now rewrite (Hplain k n Hn).
  - intros j Hj. now rewrite lookup_partial_alter_ne.
Qed.

(** X28 (updateWaiterProfile).  Nobody promotes themselves: on a screen
    that shows the database, an update of the signed-in user's own
    profile leaves the role of every user as it was. *)
Theorem own_role_is_locked id name phone role pin later logKey r1 r2 (d : Desk)
    (target : StaffUser) :
  shown d -> plainNodes (d_store d) ->
  userById (d_screen d) id = Some target ->
  isSelf (d_screen d) id = true ->
  let d' := updateWaiterProfile id name phone role pin later logKey r1 r2 d in
  forall k n, st_users (d_store d) !! k = Some n ->
    exists n', st_users (d_store d') !! k = Some n' /\
               su_role (userOfNode k n') = su_role (userOfNode k n).
Proof.
  intros Hshown Hplain Htarget Hself. cbn zeta. intros k n Hn.
  destruct (updateWaiterProfile_users id name phone role pin later logKey r1 r2 d)
    as [->|(_ & _ & ->)]; [now exists n|].
  rewrite Htarget.
  destruct (shown_target d id target Hshown Hplain Htarget) as (k' & n0 & Hn0 & -> & Hk').
  rewrite Hk', lookup_partial_alter. case_decide as E; [|now exists n].
  subst k'. rewrite Hn in Hn0 |- *. injection Hn0 as <-.
  eexists. split; [reflexivity|].
  unfold enforcedRole. rewrite Hself, orb_true_r. reflexivity.
Qed.

End ProfileFacts.

Module ProfileExamples.

Import Model Text Phone Staff StaffRules Office OfficeFacts ProfileFacts.

Lemma logout_ends_session_witness :
  restoreSession 5000
    {| d_screen := screen0 None "" "" "" ""; d_store := d_store (handleLogout backOffice) |}
  = {| d_screen := screen0 None "" "" "" ""; d_store := d_store (handleLogout backOffice) |}.
Proof.
  apply (logout_ends_session backOffice (screen0 None "" "" "" "") 5000). reflexivity.
Defined.

Lemma resetWaiterPin_round_trip_witness :
  exists k n',
    su_dbId (userOfNode "-Nu2" bile) = Some k /\
    st_users (d_store (resetWaiterPin "waiter-1700000000000" 3000 "-Nlog1" WriteOk WriteOk
                         backOffice)) !! k = Some n' /\
    su_pin (userOfNode k n') = Some "0000"%string /\
    su_phone (userOfNode k n') = Some "0907654321"%string.
Proof.
  destruct (resetWaiterPin_round_trip "waiter-1700000000000" 3000 "-Nlog1" WriteOk
              backOffice (userOfNode "-Nu2" bile) backOffice_shown store0_plain eq_refl)
    as (k & n' & Hk & Hn & Hu & _).
  exists k, n'. split; [exact Hk|]. split; [exact Hn|]. rewrite Hu. now split.
Defined.

(** Sahra asks for the role waiter on her own profile: she stays admin
    and Bile stays waiter. *)
Lemma own_role_is_locked_witness :
  exists n',
    st_users (d_store (updateWaiterProfile "-Nu1" "Sahra" "+252 90 123 4567" waiter
                         (Some "1357"%string) 2000 "-Nlog2" WriteOk WriteOk backOffice))
      !! "-Nu1"%string = Some n' /\
    su_role (userOfNode "-Nu1" n') = su_role (userOfNode "-Nu1" sahra).
Proof.
  apply (own_role_is_locked "-Nu1" "Sahra" "+252 90 123 4567" waiter (Some "1357"%string)
           2000 "-Nlog2" WriteOk WriteOk backOffice (userOfNode "-Nu1" sahra)
           backOffice_shown store0_plain eq_refl eq_refl "-Nu1" sahra).
  reflexivity.
Defined.

End ProfileExamples.
